(** * Helmholtz equation-of-state property package: a shallow embedding

    The development follows
    [idaes/generic_models/properties/helmholtz/helmholtz.py]:
    the two configuration enumerations, the point-conversion utility
    [_htpx], the parameter block, the state block with its primary
    variables, phase-equilibrium section and derived-property graph, and
    the bulk [initialize] / [release_state] protocol.

    Conventions of the embedding.
    - Python numbers are exact rationals ([Q]); rounding of machine
      floats is not modelled.
    - A Pyomo [Var] is a record with a value and a [fixed] flag; a Pyomo
      [Expression] is a syntax tree ([expr]) that is evaluated on demand.
    - The compiled external functions are opaque: their names are
      constructors, their meaning is a parameter of the evaluation.
    - Python exceptions are the constructors of [exn]; code that can
      raise returns a [result]. *)

From stdpp Require Import gmap strings list fin_maps.
From Stdlib Require Import QArith Qabs.

Open Scope Q_scope.

(** ** Exceptions *)

Inductive exn : Type :=
  | ConfigurationError
  | ZeroDivisionError
  | AttributeError
  | TypeError
  | KeyError
  | IndexError.

Inductive result (A : Type) : Type :=
  | Ok (a : A)
  | Raise (e : exn).
Arguments Ok {A} a.
Arguments Raise {A} e.

#[global] Instance result_bind : MBind result := λ A B k r,
  match r with
  | Ok a => k a
  | Raise e => Raise e
  end.
#[global] Instance result_ret : MRet result := λ A a, Ok a.

(** Python's [a / b] on numbers. *)
Definition pydiv (a b : Q) : result Q :=
  if Qeq_bool b 0 then Raise ZeroDivisionError else Ok (a / b).

(** Python's [a < b] on numbers. *)
Definition Qlt_bool (a b : Q) : bool := negb (Qle_bool b a).

(** Python's chained comparison [lo <= v <= hi]. *)
Definition between (lo v hi : Q) : bool := Qle_bool lo v && Qle_bool v hi.

(** ** Enumerations *)

(** State variable set options. *)
Inductive StateVars : Type :=
  | PH    (* Pressure-Enthalpy *)
  | TPX.  (* Temperature-Pressure-Quality *)

(** Ways to present phases to the framework. *)
Inductive PhaseType : Type :=
  | MIX  (* a single phase called mixed, with a vapor fraction *)
  | LG   (* two phases, vapor and liquid *)
  | L    (* only liquid is present *)
  | G.   (* only vapor is present *)

#[global] Instance StateVars_eq_dec : EqDecision StateVars.
Proof. solve_decision. Defined.
#[global] Instance PhaseType_eq_dec : EqDecision PhaseType.
Proof. solve_decision. Defined.

(** ** External functions

    [EF(library=plib, function=...)] components of the state block.  The
    two saturation-curve functions take one argument, the others two. *)

Inductive ExternalFunction1 : Type :=
  | func_p_sat
  | func_tau_sat.

Inductive ExternalFunction2 : Type :=
  | func_p | func_u | func_s | func_h
  | func_hvpt | func_hlpt
  | func_tau | func_vf
  | func_g | func_f | func_cv | func_cp | func_w
  | func_delta_liq | func_delta_vap.

(** What the compiled library computes. *)
Record Kernel : Type := {
  call1 : ExternalFunction1 → Q → Q;
  call2 : ExternalFunction2 → Q → Q → Q
}.

(** ** The point-conversion utility [_htpx] *)

(** The part of a property block that [_htpx] reads: the external
    functions, the molecular weight and, through [config.parameters],
    the critical temperature and pressure. *)
Record PropHandle : Type := {
  prop_kernel : Kernel;
  prop_mw : Q;
  prop_temperature_crit : Q;
  prop_pressure_crit : Q
}.

Definition is_None {A : Type} (o : option A) : bool :=
  match o with None => true | Some _ => false end.

(** The four guards at the head of [_htpx], in source order. *)
Definition _htpx_check_args (T : Q) (P x : option Q)
    (Tmin Tmax Pmin Pmax : Q) : result unit :=
  if negb (xorb (is_None P) (is_None x)) then Raise ConfigurationError
  else if negb (between Tmin T Tmax) then Raise ConfigurationError
  else if match P with
          | Some p => negb (between Pmin p Pmax)
          | None => false
          end then Raise ConfigurationError
  else if match x with
          | Some x0 => negb (between 0 x0 1)
          | None => false
          end then Raise ConfigurationError
  else Ok tt.

(** The body of [_htpx] after the guards.  [prop] defaults to [None] in
    the source, and reading [prop.config] then raises.  The result is an
    option because a Python function that reaches its end returns [None];
    the guards make the first and the last case below unreachable. *)
Definition _htpx_body (T : Q) (prop : option PropHandle) (P x : option Q)
    : result (option Q) :=
  match prop with
  | None => Raise AttributeError
  | Some prop =>
    let Tc := prop_temperature_crit prop in
    let Pc := prop_pressure_crit prop in
    let k := prop_kernel prop in
    match x, P with
    | None, None => Raise TypeError (* P / 1000 with P = None *)
    | None, Some p =>
      Tsat ← pydiv Tc (call1 k func_tau_sat (p / 1000));
      if Qlt_bool T Tsat || Qlt_bool Pc p then (* liquid *)
        tau ← pydiv Tc T;
        Ok (Some (call2 k func_hlpt (p / 1000) tau * prop_mw prop * 1000))
      else (* vapor *)
        tau ← pydiv Tc T;
        Ok (Some (call2 k func_hvpt (p / 1000) tau * prop_mw prop * 1000))
    | Some x0, None =>
      tau ← pydiv Tc T;
      let Psat := call1 k func_p_sat tau in
      Ok (Some (call2 k func_hlpt Psat tau * prop_mw prop * 1000 * (1 - x0)
                + call2 k func_hvpt Psat tau * prop_mw prop * 1000 * x0))
    | Some _, Some _ => Ok None
    end
  end.

Definition _htpx (T : Q) (prop : option PropHandle) (P x : option Q)
    (Tmin Tmax Pmin Pmax : Q) : result (option Q) :=
  _htpx_check_args T P x Tmin Tmax Pmin Pmax ;;
  _htpx_body T prop P x.

(** The keyword defaults of [_htpx]. *)
Definition Tmin_default : Q := 200.
Definition Tmax_default : Q := 1200.
Definition Pmin_default : Q := 1.
Definition Pmax_default : Q := 1e9.

(** ** The parameter block *)

Module HelmholtzParameterBlockData.

(** The two declared configuration values.  Their domains are
    [In(PhaseType)] and [In(StateVars)]. *)
Record CONFIG : Type := {
  config_phase_presentation : PhaseType;  (* default PhaseType.MIX *)
  config_state_vars : StateVars           (* default StateVars.PH *)
}.

(** The parameter block after [_set_parameters] and [build]. *)
Record t : Type := {
  config : CONFIG;
  (* set by [_set_parameters] *)
  plib : string;
  component_list : list string;
  phase_equilibrium_idx : list nat;
  phase_equilibrium_list : list (nat * (string * (string * string)));
  temperature_crit : Q;
  pressure_crit : Q;
  dens_mass_crit : Q;
  specific_gas_constant : Q;
  mw : Q;
  default_pressure_bounds : Q * Q;
  default_enthalpy_bounds : Q * Q;
  default_temperature_bounds : Q * Q;
  default_pressure_value : Q;
  default_temperature_value : Q;
  default_enthalpy_value : Q;
  (* set by [build] *)
  available : bool;
  private_phase_list : list string;
  phase_list : list string;
  state_vars : StateVars;
  smoothing_pressure_over : Q;
  smoothing_pressure_under : Q
}.

(** The arguments of [_set_parameters]. *)
Record parameters : Type := {
  a_library : string;
  a_component_list : list string;
  a_phase_equilibrium_idx : list nat;
  a_phase_equilibrium_list : list (nat * (string * (string * string)));
  a_mw : Q;
  a_temperature_crit : Q;
  a_pressure_crit : Q;
  a_dens_mass_crit : Q;
  a_specific_gas_constant : Q;
  a_pressure_bounds : Q * Q;
  a_temperature_bounds : Q * Q;
  a_enthalpy_bounds : Q * Q;
  a_pressure_value : Q;     (* default 1e5 *)
  a_temperature_value : Q;  (* default 300 *)
  a_enthalpy_value : Q      (* default 1000 *)
}.

(** [build], on a block whose parameters were set.  [isfile] stands for
    [os.path.isfile], the file-system test behind [_available]. *)
Definition build (cfg : CONFIG) (a : parameters) (isfile : string → bool)
    : t :=
  {| config := cfg;
     plib := a_library a;
     component_list := a_component_list a;
     phase_equilibrium_idx := a_phase_equilibrium_idx a;
     phase_equilibrium_list := a_phase_equilibrium_list a;
     temperature_crit := a_temperature_crit a;
     pressure_crit := a_pressure_crit a;
     dens_mass_crit := a_dens_mass_crit a;
     specific_gas_constant := a_specific_gas_constant a;
     mw := a_mw a;
     default_pressure_bounds := a_pressure_bounds a;
     default_enthalpy_bounds := a_enthalpy_bounds a;
     default_temperature_bounds := a_temperature_bounds a;
     default_pressure_value := a_pressure_value a;
     default_temperature_value := a_temperature_value a;
     default_enthalpy_value := a_enthalpy_value a;
     available := isfile (a_library a);
     private_phase_list := ["Vap"; "Liq"]%string;
     phase_list :=
       match config_phase_presentation cfg with
       | MIX => ["Mix"]
       | LG => ["Vap"; "Liq"]
       | L => ["Liq"]
       | G => ["Vap"]
       end%string;
     state_vars := config_state_vars cfg;
     smoothing_pressure_over := 1e-4;
     smoothing_pressure_under := 1e-4 |}.

End HelmholtzParameterBlockData.

(** ** Variables, expressions and constraints *)

Inductive Domain : Type := Reals | PositiveReals.

(** A scalar Pyomo [Var]. *)
Record VarData : Type := {
  value : Q;
  fixed : bool;
  domain : Domain;
  bounds : option (Q * Q)
}.

Definition Var (dom : Domain) (initialize : Q) (bnds : option (Q * Q))
    : VarData :=
  {| value := initialize; fixed := false; domain := dom; bounds := bnds |}.

(** [v.fix()], [v.fix(x)], [v.unfix()] and [v.value = x]. *)
Definition fix_ (v : VarData) : VarData :=
  {| value := value v; fixed := true; domain := domain v; bounds := bounds v |}.
Definition fix_at (x : Q) (v : VarData) : VarData :=
  {| value := x; fixed := true; domain := domain v; bounds := bounds v |}.
Definition unfix (v : VarData) : VarData :=
  {| value := value v; fixed := false; domain := domain v;
     bounds := bounds v |}.
Definition set_value (x : Q) (v : VarData) : VarData :=
  {| value := x; fixed := fixed v; domain := domain v; bounds := bounds v |}.

(** The variables a state block may own. *)
Inductive VarName : Type :=
  | Vflow_mol | Vpressure | Venth_mol | Vtemperature | Vvapor_frac.

(** The parameters of the parameter block that expressions refer to. *)
Inductive ParamName : Type :=
  | Ptemperature_crit | Ppressure_crit | Pdens_mass_crit | Pmw
  | Psmoothing_pressure_over | Psmoothing_pressure_under.

#[global] Instance VarName_eq_dec : EqDecision VarName.
Proof. solve_decision. Defined.

(** Pyomo expression trees.  [ESmoothMax] is the expression returned by
    [idaes.core.util.math.smooth_max(a, b, eps)]. *)
Inductive expr : Type :=
  | ENum (q : Q)
  | EVar (v : VarName)
  | EParam (p : ParamName)
  | EAdd (a b : expr)
  | ESub (a b : expr)
  | EMul (a b : expr)
  | EDiv (a b : expr)
  | ECall1 (f : ExternalFunction1) (a : expr)
  | ECall2 (f : ExternalFunction2) (a b : expr)
  | ESmoothMax (a b eps : expr).

Declare Scope expr_scope.
Delimit Scope expr_scope with E.
Bind Scope expr_scope with expr.
Infix "+" := EAdd : expr_scope.
Infix "-" := ESub : expr_scope.
Infix "*" := EMul : expr_scope.
Infix "/" := EDiv : expr_scope.

(** An equality constraint [lhs == rhs], active unless deactivated. *)
Record ConstraintData : Type := {
  lhs : expr;
  rhs : expr;
  active : bool
}.

Definition Constraint (l r : expr) : ConstraintData :=
  {| lhs := l; rhs := r; active := true |}.
Definition deactivate (c : ConstraintData) : ConstraintData :=
  {| lhs := lhs c; rhs := rhs c; active := false |}.

(** A state-block attribute that is a [Var] in one state-variable mode and
    an [Expression] in the other. *)
Inductive component : Type :=
  | CVar (v : VarData)
  | CExpr (e : expr).

(** How an expression mentions the attribute: a variable by reference, a
    named expression by its tree. *)
Definition ref (n : VarName) (c : component) : expr :=
  match c with
  | CVar _ => EVar n
  | CExpr e => e
  end.

(** An [Expression] indexed by a Pyomo [Set] of phase labels. *)
Definition Indexed : Type := list (string * expr).

Fixpoint getitem (ix : Indexed) (p : string) : result expr :=
  match ix with
  | [] => Raise KeyError
  | (q, e) :: ix => if String.eqb p q then Ok e else getitem ix p
  end.

(** Python's [sum] over a generator: starts from [0] and adds in order. *)
Fixpoint sum_from (acc : expr) (terms : list expr) : expr :=
  match terms with
  | [] => acc
  | t :: rest => sum_from (acc + t)%E rest
  end.

Fixpoint for_phases (index_set : list string) (term : string → result expr)
    : result (list expr) :=
  match index_set with
  | [] => Ok []
  | p :: rest =>
    e ← term p;
    es ← for_phases rest term;
    Ok (e :: es)
  end.

Definition sum_ (index_set : list string) (term : string → result expr)
    : result expr :=
  es ← for_phases index_set term;
  Ok (sum_from (ENum 0) es).

(** Identity of a component, as the key of a [Suffix]: its name and, for
    a member of an indexed component, its index. *)
Definition CompId : Type := string * option string.

(** ** Evaluating an expression

    [evaluate] is Pyomo's [value(...)]: the variables are read from a
    valuation [vars] (no entry for an attribute that is not a variable),
    the parameters from the parameter block, the external functions from
    the kernel.  [smooth_max] is the numeric meaning of
    [idaes.core.util.math.smooth_max], which is not part of this module. *)

Definition param_value (params : HelmholtzParameterBlockData.t)
    (p : ParamName) : Q :=
  match p with
  | Ptemperature_crit => HelmholtzParameterBlockData.temperature_crit params
  | Ppressure_crit => HelmholtzParameterBlockData.pressure_crit params
  | Pdens_mass_crit => HelmholtzParameterBlockData.dens_mass_crit params
  | Pmw => HelmholtzParameterBlockData.mw params
  | Psmoothing_pressure_over =>
      HelmholtzParameterBlockData.smoothing_pressure_over params
  | Psmoothing_pressure_under =>
      HelmholtzParameterBlockData.smoothing_pressure_under params
  end.

Section Evaluate.
Variable k : Kernel.
Variable smooth_max : Q → Q → Q → Q.
Variable params : HelmholtzParameterBlockData.t.
Variable vars : VarName → option Q.

Fixpoint evaluate (e : expr) : result Q :=
  match e with
  | ENum q => Ok q
  | EVar v =>
    match vars v with
    | Some q => Ok q
    | None => Raise AttributeError
    end
  | EParam p => Ok (param_value params p)
  | EAdd a b => x ← evaluate a; y ← evaluate b; Ok (x + y)
  | ESub a b => x ← evaluate a; y ← evaluate b; Ok (x - y)
  | EMul a b => x ← evaluate a; y ← evaluate b; Ok (x * y)
  | EDiv a b => x ← evaluate a; y ← evaluate b; pydiv x y
  | ECall1 f a => x ← evaluate a; Ok (call1 k f x)
  | ECall2 f a b => x ← evaluate a; y ← evaluate b; Ok (call2 k f x y)
  | ESmoothMax a b eps =>
    x ← evaluate a; y ← evaluate b; z ← evaluate eps;
    Ok (smooth_max x y z)
  end.
End Evaluate.

(** ** Building a state block

    Construction writes two suffixes as it goes, [scaling_factor] and
    [scaling_expression]; they are the state of the construction monad.
    A suffix is kept as the log of its assignments, newest first, and read
    by the first entry for the key, so that a later assignment to a key
    hides an earlier one as in a Python mapping. *)

Definition Suffix (A : Type) : Type := list (CompId * A).

Fixpoint suffix_get {A : Type} (s : Suffix A) (c : CompId) : option A :=
  match s with
  | [] => None
  | (c', a) :: s => if decide (c = c') then Some a else suffix_get s c
  end.

Record Suffixes : Type := {
  sfx_factor : Suffix Q;
  sfx_expression : Suffix expr
}.

Record M (A : Type) : Type := Build_M {
  run : Suffixes → result (A * Suffixes)
}.
Arguments Build_M {A} _.
Arguments run {A} _ _.

#[global] Instance M_ret : MRet M := λ A a, Build_M (λ s, Ok (a, s)).
#[global] Instance M_bind : MBind M := λ A B f m,
  Build_M (λ s,
    match run m s with
    | Ok (a, s') => run (f a) s'
    | Raise e => Raise e
    end).

Definition lift {A : Type} (r : result A) : M A :=
  Build_M (λ s,
    match r with
    | Ok a => Ok (a, s)
    | Raise e => Raise e
    end).

(** [self.scaling_factor[c] = q] and [self.scaling_expression[c] = e]. *)
Definition set_scaling_factor (c : CompId) (q : Q) : M unit :=
  Build_M (λ s,
    Ok (tt, {| sfx_factor := (c, q) :: sfx_factor s;
               sfx_expression := sfx_expression s |})).

Definition set_scaling_expression (c : CompId) (e : expr) : M unit :=
  Build_M (λ s,
    Ok (tt, {| sfx_factor := sfx_factor s;
               sfx_expression := (c, e) :: sfx_expression s |})).

(** [Expression(index_set, rule=rule)] with a rule that writes suffixes. *)
Fixpoint ExpressionM (index_set : list string) (rule : string → M expr)
    : M Indexed :=
  match index_set with
  | [] => mret []
  | p :: rest =>
    e ← rule p;
    ix ← ExpressionM rest rule;
    mret ((p, e) :: ix)
  end.

Definition at_ (name p : string) : CompId := (name, Some p).
Definition the (name : string) : CompId := (name, None).

Module HelmholtzStateBlockData.

Module PB := HelmholtzParameterBlockData.

(** The configuration of a state block: its parameter block and the
    [defined_state] flag of the base state-block class. *)
Record CONFIG : Type := {
  parameters : PB.t;
  defined_state : bool
}.

(** What [_state_vars] creates.  In TPX mode [enth_mol] is created later
    by [build]. *)
Record StateVarsData : Type := {
  sv_flow_mol : VarData;
  sv_pressure : VarData;
  sv_enth_mol : option VarData;
  sv_temperature : component;
  sv_vapor_frac : component;
  sv_extensive_set : list VarName;
  sv_intensive_set : list VarName
}.

(** What [_tpx_phase_eq] creates, with the vapor fraction it may fix. *)
Record PhaseEqData : Type := {
  pe_P_under_sat : expr;
  pe_P_over_sat : expr;
  pe_dens_mass_phase : Indexed;
  pe_dens_phase_red : Indexed;
  pe_vapor_frac : component;
  pe_eq_complementarity : option ConstraintData;
  pe_eq_sat : ConstraintData
}.

(** The state block after [build]. *)
Record t : Type := {
  config : CONFIG;
  scaling_factor : Suffix Q;
  scaling_expression : Suffix expr;
  available : bool;
  state_vars : StateVars;
  phase_equilibrium_list : list (nat * (string * (string * string)));
  temperature_crit : expr;
  pressure_crit : expr;
  dens_mass_crit : expr;
  mw : expr;
  (* state variables *)
  flow_mol : VarData;
  pressure : VarData;
  enth_mol : component;
  temperature : component;
  vapor_frac : component;
  extensive_set : list VarName;
  intensive_set : list VarName;
  (* saturation quantities *)
  temperature_sat : expr;
  tau_sat : expr;
  temperature_red : expr;
  tau : expr;
  pressure_sat : expr;
  (* phase equilibrium, TPX mode only *)
  P_under_sat : option expr;
  P_over_sat : option expr;
  eq_complementarity : option ConstraintData;
  eq_sat : option ConstraintData;
  (* phase properties *)
  dens_mass_phase : Indexed;
  dens_phase_red : Indexed;
  enth_mol_sat_phase : Indexed;
  dh_vap_mol : expr;
  energy_internal_mol_phase : Indexed;
  enth_mol_phase : Indexed;
  entr_mol_phase : Indexed;
  cp_mol_phase : Indexed;
  cv_mol_phase : Indexed;
  speed_sound_phase : Indexed;
  dens_mol_phase : Indexed;
  phase_frac : Indexed;
  flow_mol_comp : Indexed;
  (* mixture properties *)
  energy_internal_mol : expr;
  entr_mol : expr;
  cp_mol : expr;
  cv_mol : expr;
  dens_mass : expr;
  dens_mol : expr;
  heat_capacity_ratio : expr;
  flow_vol : expr;
  flow_mass : expr;
  enth_mass : expr;
  (* interface *)
  _state_vars_dict : list (string * VarName);
  material_flow_terms : Indexed;
  enthalpy_flow_terms : Indexed;
  energy_density_terms : Indexed
}.

(** [v.fix(x)] on an attribute; only a [Var] has the method. *)
Definition fix_component (x : Q) (c : component) : result component :=
  match c with
  | CVar v => Ok (CVar (fix_at x v))
  | CExpr _ => Raise AttributeError
  end.

Definition isin (p : string) (s : list string) : bool :=
  existsb (String.eqb p) s.

(** [_state_vars]: create the state variables. *)
Definition _state_vars (params : PB.t) (state_vars : StateVars)
    : M StateVarsData :=
  let flow_mol := Var Reals 1 None in
  set_scaling_factor (the "flow_mol") 1e-3;;
  sv ←
    match state_vars with
    | PH =>
      let pressure :=
        Var PositiveReals (PB.default_pressure_value params)
            (Some (PB.default_pressure_bounds params)) in
      let enth_mol :=
        Var Reals (PB.default_enthalpy_value params)
            (Some (PB.default_enthalpy_bounds params)) in
      set_scaling_factor (the "enth_mol") 1e-3;;
      let P := (EVar Vpressure / ENum 1000)%E in
      let h_mass := (EVar Venth_mol / EParam Pmw / ENum 1000)%E in
      let phase_set := PB.config_phase_presentation (PB.config params) in
      let temperature :=
        (EParam Ptemperature_crit / ECall2 func_tau h_mass P)%E in
      let vapor_frac :=
        match phase_set with
        | MIX | LG => ECall2 func_vf h_mass P
        | L => ENum 0
        | G => ENum 1
        end in
      mret {| sv_flow_mol := flow_mol;
              sv_pressure := pressure;
              sv_enth_mol := Some enth_mol;
              sv_temperature := CExpr temperature;
              sv_vapor_frac := CExpr vapor_frac;
              sv_extensive_set := [Vflow_mol];
              sv_intensive_set := [Venth_mol; Vpressure] |}
    | TPX =>
      let temperature :=
        Var PositiveReals (PB.default_temperature_value params)
            (Some (PB.default_temperature_bounds params)) in
      let pressure :=
        Var PositiveReals (PB.default_pressure_value params)
            (Some (PB.default_pressure_bounds params)) in
      let vapor_frac := Var Reals 0 None in
      mret {| sv_flow_mol := flow_mol;
              sv_pressure := pressure;
              sv_enth_mol := None;
              sv_temperature := CVar temperature;
              sv_vapor_frac := CVar vapor_frac;
              sv_extensive_set := [Vflow_mol];
              sv_intensive_set := [Vtemperature; Vpressure; Vvapor_frac] |}
    end;
  set_scaling_factor (the "temperature") 1e-1;;
  set_scaling_factor (the "pressure") 1e-6;;
  set_scaling_factor (the "vapor_frac") 1e1;;
  mret sv.

(** [_tpx_phase_eq]: the phase-equilibrium section of a TPX block. *)
Definition _tpx_phase_eq (cfg : CONFIG) (vapor_frac : component)
    (pressure_sat tau : expr) : M PhaseEqData :=
  let eps_pu := EParam Psmoothing_pressure_under in
  let eps_po := EParam Psmoothing_pressure_over in
  let priv_plist := PB.private_phase_list (parameters cfg) in
  let plist := PB.phase_list (parameters cfg) in
  let rhoc := EParam Pdens_mass_crit in
  let P := (EVar Vpressure / ENum 1000)%E in
  let Psat := (pressure_sat / ENum 1000)%E in
  let vf := ref Vvapor_frac vapor_frac in
  (* Terms for determining if you are above, below, or at the Psat *)
  let P_under_sat := ESmoothMax (ENum 0) (Psat - P)%E eps_pu in
  let P_over_sat := ESmoothMax (ENum 0) (P - Psat)%E eps_po in
  let rule_dens_mass (p : string) : M expr :=
    if String.eqb p "Liq" then
      set_scaling_factor (at_ "dens_mass_phase" p) 1e-2;;
      mret (rhoc * ECall2 func_delta_liq (P + P_under_sat) tau)%E
    else
      set_scaling_factor (at_ "dens_mass_phase" p) 1e1;;
      mret (rhoc * ECall2 func_delta_vap (P - P_over_sat) tau)%E in
  dens_mass_phase ← ExpressionM priv_plist rule_dens_mass;
  let rule_dens_red (p : string) : M expr :=
    d ← lift (getitem dens_mass_phase p);
    mret (d / rhoc)%E in
  dens_phase_red ← ExpressionM priv_plist rule_dens_red;
  (* If there is only one phase fix the vapor fraction appropriately *)
  '(vapor_frac, eq_complementarity) ←
    (if (length plist =? 1)%nat then
       if isin "Vap" plist then
         c ← lift (fix_component 1 vapor_frac); mret (c, None)
       else
         c ← lift (fix_component 0 vapor_frac); mret (c, None)
     else if negb (defined_state cfg) then
       set_scaling_expression (the "eq_complementarity")
         (ENum 10 / EVar Vpressure)%E;;
       mret (vapor_frac,
             Some (Constraint (ENum 0)
                     (vf * P_over_sat - (ENum 1 - vf) * P_under_sat)%E))
     else mret (vapor_frac, None));
  let eq_sat := Constraint (P / ENum 1000)%E (Psat / ENum 1000)%E in
  set_scaling_expression (the "eq_sat") (ENum 1000 / EVar Vpressure)%E;;
  mret {| pe_P_under_sat := P_under_sat;
          pe_P_over_sat := P_over_sat;
          pe_dens_mass_phase := dens_mass_phase;
          pe_dens_phase_red := dens_phase_red;
          pe_vapor_frac := vapor_frac;
          pe_eq_complementarity := eq_complementarity;
          pe_eq_sat := deactivate eq_sat |}.

(** The phase rules of [build].  Each writes the scaling factor of the
    member it defines and returns the member's expression.  The private
    phase list holds only "Vap" and "Liq"; for any other label a rule of
    the source that tests both names returns nothing, and the member
    cannot be used in arithmetic. *)
Definition rule_dens_mass (P tau rhoc : expr) (p : string) : M expr :=
  if String.eqb p "Liq" then
    set_scaling_factor (at_ "dens_mass_phase" p) 1e-2;;
    mret (rhoc * ECall2 func_delta_liq P tau)%E
  else
    set_scaling_factor (at_ "dens_mass_phase" p) 1e1;;
    mret (rhoc * ECall2 func_delta_vap P tau)%E.

Definition rule_dens_red (rhoc : expr) (dens_mass_phase : Indexed)
    (p : string) : M expr :=
  set_scaling_factor (at_ "dens_phase_red" p) 1;;
  d ← lift (getitem dens_mass_phase p);
  mret (d / rhoc)%E.

Definition rule_enth_mol_sat_phase (P tau_sat mw : expr) (p : string)
    : M expr :=
  if String.eqb p "Liq" then
    set_scaling_factor (at_ "enth_mol_sat_phase" p) 1e-2;;
    mret (ENum 1000 * mw * ECall2 func_hlpt P tau_sat)%E
  else if String.eqb p "Vap" then
    set_scaling_factor (at_ "enth_mol_sat_phase" p) 1e-4;;
    mret (ENum 1000 * mw * ECall2 func_hvpt P tau_sat)%E
  else lift (Raise TypeError).

(** The shape shared by the rules that call one kernel function on
    [(delta[p], tau)]: a scaling factor for "Liq", one for the other
    branch (an [else] or an [elif p == "Vap"]), and the expression. *)
Definition phase_rule (delta : Indexed) (name : string) (liq : Q)
    (other : string → M unit) (body : expr → expr) (p : string) : M expr :=
  (if String.eqb p "Liq" then set_scaling_factor (at_ name p) liq
   else other p);;
  d ← lift (getitem delta p);
  mret (body d).

Definition otherwise (name : string) (q : Q) (p : string) : M unit :=
  set_scaling_factor (at_ name p) q.
Definition elif_Vap (name : string) (q : Q) (p : string) : M unit :=
  if String.eqb p "Vap" then set_scaling_factor (at_ name p) q
  else mret tt.

Definition rule_energy_internal_mol_phase (tau mw : expr) (delta : Indexed)
    : string → M expr :=
  phase_rule delta "energy_internal_mol_phase" 1e-2
    (otherwise "energy_internal_mol_phase" 1e-4)
    (λ d, ENum 1000 * mw * ECall2 func_u d tau)%E.

Definition rule_enth_mol_phase (tau mw : expr) (delta : Indexed)
    : string → M expr :=
  phase_rule delta "enth_mol_phase" 1e-2 (elif_Vap "enth_mol_phase" 1e-4)
    (λ d, ENum 1000 * mw * ECall2 func_h d tau)%E.

Definition rule_entr_mol_phase (tau mw : expr) (delta : Indexed)
    : string → M expr :=
  phase_rule delta "entr_mol_phase" 1e-1 (elif_Vap "entr_mol_phase" 1e-1)
    (λ d, ENum 1000 * mw * ECall2 func_s d tau)%E.

Definition rule_cp_mol_phase (tau mw : expr) (delta : Indexed)
    : string → M expr :=
  phase_rule delta "cp_mol_phase" 1e-2 (elif_Vap "cp_mol_phase" 1e-2)
    (λ d, ENum 1000 * mw * ECall2 func_cp d tau)%E.

Definition rule_cv_mol_phase (tau mw : expr) (delta : Indexed)
    : string → M expr :=
  phase_rule delta "cv_mol_phase" 1e-2 (elif_Vap "cv_mol_phase" 1e-2)
    (λ d, ENum 1000 * mw * ECall2 func_cv d tau)%E.

Definition rule_speed_sound_phase (tau : expr) (delta : Indexed)
    : string → M expr :=
  phase_rule delta "speed_sound_phase" 1e-2
    (elif_Vap "speed_sound_phase" 1e-2)
    (λ d, ECall2 func_w d tau)%E.

Definition rule_dens_mol_phase (mw : expr) (dens_mass_phase : Indexed)
    (p : string) : M expr :=
  (if String.eqb p "Liq" then
     set_scaling_factor (at_ "dens_mol_phase" p) 1e-2
   else elif_Vap "dens_mol_phase" 1e-4 p);;
  d ← lift (getitem dens_mass_phase p);
  mret (d / mw)%E.

Definition rule_phase_frac (vf : expr) (p : string) : M expr :=
  set_scaling_factor (at_ "phase_frac" p) 10;;
  if String.eqb p "Vap" then mret vf
  else if String.eqb p "Liq" then mret (ENum 1 - vf)%E
  else lift (Raise TypeError).

Definition component_flow (i : string) : M expr :=
  set_scaling_factor (at_ "flow_mol_comp" i) 1e-3;;
  mret (EVar Vflow_mol).

(** [Expression(component_list, rule=component_flow)].  The rule cannot
    raise, so the indexed expression is written without the error
    plumbing of [ExpressionM]; [flow_mol_comp_rule] below shows that the
    two agree. *)
Definition Expression_component_flow (component_list : list string)
    : M Indexed :=
  Build_M (λ s,
    Ok (map (λ i, (i, EVar Vflow_mol)) component_list,
        {| sfx_factor :=
             foldl (λ log i, (at_ "flow_mol_comp" i, 1e-3) :: log)
                   (sfx_factor s) component_list;
           sfx_expression := sfx_expression s |})).

(** [sum(phase_frac[p] * prop[p] for p in phlist)]. *)
Definition weighted_sum (phlist : list string) (phase_frac prop : Indexed)
    : result expr :=
  sum_ phlist (λ p,
    f ← getitem phase_frac p;
    x ← getitem prop p;
    Ok (f * x)%E).

(** [1.0 / sum(phase_frac[p] * 1.0 / dens[p] for p in phlist)]. *)
Definition harmonic_sum (phlist : list string) (phase_frac dens : Indexed)
    : result expr :=
  s ← sum_ phlist (λ p,
    f ← getitem phase_frac p;
    d ← getitem dens p;
    Ok (f * ENum 1 / d)%E);
  Ok (ENum 1 / s)%E.

(** The rules of the three families of balance terms.  Each writes the
    scaling expression of the member it defines. *)
Definition rule_material_flow_terms (phase_frac : Indexed) (p : string)
    : M expr :=
  set_scaling_expression (at_ "material_flow_terms" p)
    (ENum 1 / EVar Vflow_mol)%E;;
  if String.eqb p "Mix" then mret (EVar Vflow_mol)
  else
    f ← lift (getitem phase_frac p);
    mret (EVar Vflow_mol * f)%E.

Definition rule_enthalpy_flow_terms (enth_mol : expr)
    (phase_frac enth_mol_phase : Indexed) (p : string) : M expr :=
  if String.eqb p "Mix" then
    set_scaling_expression (at_ "enthalpy_flow_terms" p)
      (ENum 1 / (enth_mol * EVar Vflow_mol))%E;;
    mret (enth_mol * EVar Vflow_mol)%E
  else
    h ← lift (getitem enth_mol_phase p);
    f ← lift (getitem phase_frac p);
    set_scaling_expression (at_ "enthalpy_flow_terms" p)
      (ENum 1 / (h * f * EVar Vflow_mol))%E;;
    mret (h * f * EVar Vflow_mol)%E.

Definition rule_energy_density_terms (energy_internal_mol dens_mol : expr)
    (dens_mol_phase energy_internal_mol_phase : Indexed) (p : string)
    : M expr :=
  if String.eqb p "Mix" then
    set_scaling_expression (at_ "energy_density_terms" p)
      (ENum 1 / (energy_internal_mol * EVar Vflow_mol))%E;;
    mret (dens_mol * energy_internal_mol)%E
  else
    d ← lift (getitem dens_mol_phase p);
    u ← lift (getitem energy_internal_mol_phase p);
    set_scaling_expression (at_ "energy_density_terms" p)
      (ENum 1 / (d * u))%E;;
    mret (d * u)%E.

(** [build]: construct the state block. *)
Definition build (cfg : CONFIG) : M t :=
  let params := parameters cfg in
  let state_vars := PB.state_vars params in
  let phlist := PB.private_phase_list params in
  let pub_phlist := PB.phase_list params in
  let component_list := PB.component_list params in
  let phase_set := PB.config_phase_presentation (PB.config params) in
  (* Expressions that link to some parameters in the param block *)
  let temperature_crit := EParam Ptemperature_crit in
  set_scaling_factor (the "temperature_crit") 1e-2;;
  let pressure_crit := EParam Ppressure_crit in
  set_scaling_factor (the "pressure_crit") 1e-6;;
  let dens_mass_crit := EParam Pdens_mass_crit in
  set_scaling_factor (the "dens_mass_crit") 1e-2;;
  let mw := EParam Pmw in
  set_scaling_factor (the "mw") 1e3;;
  (* create the appropriate state variables *)
  sv ← _state_vars params state_vars;
  let Tc := EParam Ptemperature_crit in
  let rhoc := EParam Pdens_mass_crit in
  let P := (EVar Vpressure / ENum 1000)%E in
  let T := ref Vtemperature (sv_temperature sv) in
  let vf := ref Vvapor_frac (sv_vapor_frac sv) in
  let temperature_sat := (Tc / ECall1 func_tau_sat P)%E in
  set_scaling_factor (the "temperature_sat") 1e-2;;
  let tau_sat := ECall1 func_tau_sat P in
  let temperature_red := (T / Tc)%E in
  set_scaling_factor (the "temperature_red") 1;;
  let tau := (Tc / T)%E in
  let pressure_sat := (ENum 1000 * ECall1 func_p_sat tau)%E in
  set_scaling_factor (the "pressure_sat") 1e-5;;
  '(dens_mass_phase, dens_phase_red, vapor_frac, pe) ←
    match state_vars with
    | PH =>
      dens_mass_phase ← ExpressionM phlist (rule_dens_mass P tau rhoc);
      dens_phase_red ←
        ExpressionM phlist (rule_dens_red rhoc dens_mass_phase);
      mret (dens_mass_phase, dens_phase_red, sv_vapor_frac sv, None)
    | TPX =>
      pe ← _tpx_phase_eq cfg (sv_vapor_frac sv) pressure_sat tau;
      mret (pe_dens_mass_phase pe, pe_dens_phase_red pe,
            pe_vapor_frac pe, Some pe)
    end;
  let delta := dens_phase_red in
  (* Saturated Enthalpy *)
  enth_mol_sat_phase ←
    ExpressionM phlist (rule_enth_mol_sat_phase P tau_sat mw);
  h_sat_vap ← lift (getitem enth_mol_sat_phase "Vap");
  h_sat_liq ← lift (getitem enth_mol_sat_phase "Liq");
  let dh_vap_mol := (h_sat_vap - h_sat_liq)%E in
  set_scaling_factor (the "dh_vap_mol") 1e-4;;
  energy_internal_mol_phase ←
    ExpressionM phlist (rule_energy_internal_mol_phase tau mw delta);
  enth_mol_phase ← ExpressionM phlist (rule_enth_mol_phase tau mw delta);
  entr_mol_phase ← ExpressionM phlist (rule_entr_mol_phase tau mw delta);
  cp_mol_phase ← ExpressionM phlist (rule_cp_mol_phase tau mw delta);
  cv_mol_phase ← ExpressionM phlist (rule_cv_mol_phase tau mw delta);
  speed_sound_phase ←
    ExpressionM phlist (rule_speed_sound_phase tau delta);
  dens_mol_phase ←
    ExpressionM phlist (rule_dens_mol_phase mw dens_mass_phase);
  phase_frac ← ExpressionM phlist (rule_phase_frac vf);
  flow_mol_comp ← Expression_component_flow component_list;
  (* Total (mixed phase) properties *)
  enth_mol ←
    match state_vars, sv_enth_mol sv with
    | TPX, _ =>
      e ← lift (weighted_sum phlist phase_frac enth_mol_phase);
      set_scaling_factor (the "enth_mol") 1e-3;;
      mret (CExpr e)
    | PH, Some v => mret (CVar v)
    | PH, None => lift (Raise AttributeError)
    end;
  energy_internal_mol ←
    lift (weighted_sum phlist phase_frac energy_internal_mol_phase);
  set_scaling_factor (the "energy_internal_mol") 1e-3;;
  entr_mol ← lift (weighted_sum phlist phase_frac entr_mol_phase);
  set_scaling_factor (the "entr_mol") 1e-1;;
  cp_mol ← lift (weighted_sum phlist phase_frac cp_mol_phase);
  set_scaling_factor (the "cp_mol") 1e-2;;
  cv_mol ← lift (weighted_sum phlist phase_frac cv_mol_phase);
  set_scaling_factor (the "cv_mol") 1e-2;;
  dens_mass ← lift (harmonic_sum phlist phase_frac dens_mass_phase);
  set_scaling_factor (the "dens_mass") 1;;
  dens_mol ← lift (harmonic_sum phlist phase_frac dens_mol_phase);
  set_scaling_factor (the "dens_mol") 1e-3;;
  let heat_capacity_ratio := (cp_mol / cv_mol)%E in
  set_scaling_factor (the "heat_capacity_ratio") 1e1;;
  let flow_vol := (EVar Vflow_mol / dens_mol)%E in
  set_scaling_factor (the "flow_vol") 100;;
  let flow_mass := (mw * EVar Vflow_mol)%E in
  set_scaling_factor (the "flow_mass") 1;;
  let enth_mass := (ref Venth_mol enth_mol / mw)%E in
  set_scaling_factor (the "enth_mass") 1;;
  (* Set the state vars dictionary *)
  let _state_vars_dict :=
    match state_vars, phase_set with
    | PH, _ =>
      [("flow_mol", Vflow_mol); ("enth_mol", Venth_mol);
       ("pressure", Vpressure)]
    | TPX, (MIX | LG) =>
      [("flow_mol", Vflow_mol); ("temperature", Vtemperature);
       ("pressure", Vpressure); ("vapor_frac", Vvapor_frac)]
    | TPX, (G | L) =>
      [("flow_mol", Vflow_mol); ("temperature", Vtemperature);
       ("pressure", Vpressure)]
    end%string in
  (* expressions for the balance terms returned by functions *)
  material_flow_terms ←
    ExpressionM pub_phlist (rule_material_flow_terms phase_frac);
  enthalpy_flow_terms ←
    ExpressionM pub_phlist
      (rule_enthalpy_flow_terms (ref Venth_mol enth_mol)
         phase_frac enth_mol_phase);
  energy_density_terms ←
    ExpressionM pub_phlist
      (rule_energy_density_terms energy_internal_mol dens_mol
         dens_mol_phase energy_internal_mol_phase);
  Build_M (λ s, Ok (
    {| config := cfg;
       scaling_factor := sfx_factor s;
       scaling_expression := sfx_expression s;
       available := PB.available params;
       state_vars := state_vars;
       phase_equilibrium_list := PB.phase_equilibrium_list params;
       temperature_crit := temperature_crit;
       pressure_crit := pressure_crit;
       dens_mass_crit := dens_mass_crit;
       mw := mw;
       flow_mol := sv_flow_mol sv;
       pressure := sv_pressure sv;
       enth_mol := enth_mol;
       temperature := sv_temperature sv;
       vapor_frac := vapor_frac;
       extensive_set := sv_extensive_set sv;
       intensive_set := sv_intensive_set sv;
       temperature_sat := temperature_sat;
       tau_sat := tau_sat;
       temperature_red := temperature_red;
       tau := tau;
       pressure_sat := pressure_sat;
       P_under_sat := pe_P_under_sat <$> pe;
       P_over_sat := pe_P_over_sat <$> pe;
       eq_complementarity := pe ≫= pe_eq_complementarity;
       eq_sat := pe_eq_sat <$> pe;
       dens_mass_phase := dens_mass_phase;
       dens_phase_red := dens_phase_red;
       enth_mol_sat_phase := enth_mol_sat_phase;
       dh_vap_mol := dh_vap_mol;
       energy_internal_mol_phase := energy_internal_mol_phase;
       enth_mol_phase := enth_mol_phase;
       entr_mol_phase := entr_mol_phase;
       cp_mol_phase := cp_mol_phase;
       cv_mol_phase := cv_mol_phase;
       speed_sound_phase := speed_sound_phase;
       dens_mol_phase := dens_mol_phase;
       phase_frac := phase_frac;
       flow_mol_comp := flow_mol_comp;
       energy_internal_mol := energy_internal_mol;
       entr_mol := entr_mol;
       cp_mol := cp_mol;
       cv_mol := cv_mol;
       dens_mass := dens_mass;
       dens_mol := dens_mol;
       heat_capacity_ratio := heat_capacity_ratio;
       flow_vol := flow_vol;
       flow_mass := flow_mass;
       enth_mass := enth_mass;
       _state_vars_dict := _state_vars_dict;
       material_flow_terms := material_flow_terms;
       enthalpy_flow_terms := enthalpy_flow_terms;
       energy_density_terms := energy_density_terms |}, s)).

(** A block is built with both suffixes empty. *)
Definition construct (cfg : CONFIG) : result t :=
  match run (build cfg) {| sfx_factor := []; sfx_expression := [] |} with
  | Ok (b, _) => Ok b
  | Raise e => Raise e
  end.

(** [define_state_vars]. *)
Definition define_state_vars (b : t) : list (string * VarName) :=
  _state_vars_dict b.

(** In-place change of the five state attributes; everything else in
    the block is left as it is. *)
Definition update_state (f_flow_mol f_pressure : VarData → VarData)
    (f_enth_mol f_temperature f_vapor_frac : component → component)
    (b : t) : t :=
  {| config := config b;
     scaling_factor := scaling_factor b;
     scaling_expression := scaling_expression b;
     available := available b;
     state_vars := state_vars b;
     phase_equilibrium_list := phase_equilibrium_list b;
     temperature_crit := temperature_crit b;
     pressure_crit := pressure_crit b;
     dens_mass_crit := dens_mass_crit b;
     mw := mw b;
     flow_mol := f_flow_mol (flow_mol b);
     pressure := f_pressure (pressure b);
     enth_mol := f_enth_mol (enth_mol b);
     temperature := f_temperature (temperature b);
     vapor_frac := f_vapor_frac (vapor_frac b);
     extensive_set := extensive_set b;
     intensive_set := intensive_set b;
     temperature_sat := temperature_sat b;
     tau_sat := tau_sat b;
     temperature_red := temperature_red b;
     tau := tau b;
     pressure_sat := pressure_sat b;
     P_under_sat := P_under_sat b;
     P_over_sat := P_over_sat b;
     eq_complementarity := eq_complementarity b;
     eq_sat := eq_sat b;
     dens_mass_phase := dens_mass_phase b;
     dens_phase_red := dens_phase_red b;
     enth_mol_sat_phase := enth_mol_sat_phase b;
     dh_vap_mol := dh_vap_mol b;
     energy_internal_mol_phase := energy_internal_mol_phase b;
     enth_mol_phase := enth_mol_phase b;
     entr_mol_phase := entr_mol_phase b;
     cp_mol_phase := cp_mol_phase b;
     cv_mol_phase := cv_mol_phase b;
     speed_sound_phase := speed_sound_phase b;
     dens_mol_phase := dens_mol_phase b;
     phase_frac := phase_frac b;
     flow_mol_comp := flow_mol_comp b;
     energy_internal_mol := energy_internal_mol b;
     entr_mol := entr_mol b;
     cp_mol := cp_mol b;
     cv_mol := cv_mol b;
     dens_mass := dens_mass b;
     dens_mol := dens_mol b;
     heat_capacity_ratio := heat_capacity_ratio b;
     flow_vol := flow_vol b;
     flow_mass := flow_mass b;
     enth_mass := enth_mass b;
     _state_vars_dict := _state_vars_dict b;
     material_flow_terms := material_flow_terms b;
     enthalpy_flow_terms := enthalpy_flow_terms b;
     energy_density_terms := energy_density_terms b |}.

Definition with_flow_mol (v : VarData) : t → t :=
  update_state (λ _, v) id id id id.
Definition with_pressure (v : VarData) : t → t :=
  update_state id (λ _, v) id id id.
Definition with_enth_mol (c : component) : t → t :=
  update_state id id (λ _, c) id id.
Definition with_temperature (c : component) : t → t :=
  update_state id id id (λ _, c) id.
Definition with_vapor_frac (c : component) : t → t :=
  update_state id id id id (λ _, c).

(** [initialize] of a single block: with this property package there is
    no need for initialization. *)
Definition initialize (b : t) : t := b.

(** The accessors of the balance-equation interface.  The component
    argument [j] is not used: the fluid has a single component. *)
Definition get_material_flow_terms (b : t) (p j : string) : result expr :=
  getitem (material_flow_terms b) p.

Definition get_enthalpy_flow_terms (b : t) (p : string) : result expr :=
  getitem (enthalpy_flow_terms b) p.

Definition get_material_density_terms (b : t) (p j : string)
    : result expr :=
  if String.eqb p "Mix" then Ok (dens_mol b)
  else getitem (dens_mol_phase b) p.

Definition get_energy_density_terms (b : t) (p : string) : result expr :=
  getitem (energy_density_terms b) p.

(** [extensive_state_vars] and [intensive_state_vars]. *)
Definition extensive_state_vars (b : t) : list VarName := extensive_set b.
Definition intensive_state_vars (b : t) : list VarName := intensive_set b.

(** What [define_display_vars] maps a label to: a variable, a scalar
    expression or an indexed expression. *)
Inductive display : Type :=
  | DVar (n : VarName)
  | DExpr (e : expr)
  | DIndexed (ix : Indexed).

Definition display_of (n : VarName) (c : component) : display :=
  match c with
  | CVar _ => DVar n
  | CExpr e => DExpr e
  end.

(** [define_display_vars]. *)
Definition define_display_vars (b : t) : list (string * display) :=
  [("Molar Flow (mol/s)", DVar Vflow_mol);
   ("Mass Flow (kg/s)", DExpr (flow_mass b));
   ("T (K)", display_of Vtemperature (temperature b));
   ("P (Pa)", DVar Vpressure);
   ("Vapor Fraction", display_of Vvapor_frac (vapor_frac b));
   ("Molar Enthalpy (J/mol)", DIndexed (enth_mol_phase b))]%string.

End HelmholtzStateBlockData.

(** ** Methods applied to a whole indexed state block *)

Module _StateBlock.

Module SB := HelmholtzStateBlockData.
Module PB := HelmholtzParameterBlockData.

(** Python's [for a in l: body], threading the mutated state. *)
Fixpoint for_each {A S : Type} (body : A → S → result S) (l : list A)
    (s : S) : result S :=
  match l with
  | [] => Ok s
  | a :: l => s' ← body a s; for_each body l s'
  end.

(** Attribute access on a component that must be a [Var]. *)
Definition get_fixed (c : component) : result bool :=
  match c with
  | CVar v => Ok (fixed v)
  | CExpr _ => Raise AttributeError
  end.

Definition on_var (f : VarData → VarData) (c : component)
    : result component :=
  match c with
  | CVar v => Ok (CVar (f v))
  | CExpr _ => Raise AttributeError
  end.

(** [_set_fixed(v, f)]. *)
Definition _set_fixed (v : VarData) (f : bool) : VarData :=
  if f then fix_ v else unfix v.

(** [if not v.fixed: try: v.value = state_args[name] except KeyError:
    pass]. *)
Definition assign_unless_fixed (state_args : gmap string Q) (name : string)
    (v : VarData) : VarData :=
  if negb (fixed v) then
    match state_args !! name with
    | Some x => set_value x v
    | None => v
    end
  else v.

Definition when (c : bool) (f : VarData → VarData) : VarData → VarData :=
  if c then f else id.

(** What one pass of the loop of [initialize] does to a variable: the
    optional assignment, then the optional [fix()]. *)
Definition hold_var (hold_state : bool) (state_args : option (gmap string Q))
    (name : string) (v : VarData) : VarData :=
  when hold_state fix_
    (match state_args with
     | Some sa => assign_unless_fixed sa name v
     | None => v
     end).

(** The body of the loop of [initialize] for the block [v]: the flags it
    records and the block it leaves. *)
Definition initialize_item (hold_state : bool)
    (state_args : option (gmap string Q)) (v : SB.t)
    : result (SB.t * list bool) :=
  let pp :=
    PB.config_phase_presentation (PB.config (SB.parameters (SB.config v))) in
  let hold := hold_var hold_state state_args in
  match SB.state_vars v with
  | PH =>
    (* hold the P-H vars *)
    enth_mol_fixed ← get_fixed (SB.enth_mol v);
    let flags :=
      [fixed (SB.flow_mol v); enth_mol_fixed; fixed (SB.pressure v)] in
    enth_mol ← on_var (hold "enth_mol") (SB.enth_mol v);
    Ok (SB.with_pressure (hold "pressure" (SB.pressure v))
          (SB.with_enth_mol enth_mol
             (SB.with_flow_mol (hold "flow_mol" (SB.flow_mol v)) v)),
        flags)
  | TPX =>
    (* Hold the T-P-x vars *)
    match pp with
    | MIX | LG =>
      temperature_fixed ← get_fixed (SB.temperature v);
      vapor_frac_fixed ← get_fixed (SB.vapor_frac v);
      let flags :=
        [fixed (SB.flow_mol v); temperature_fixed; fixed (SB.pressure v);
         vapor_frac_fixed] in
      temperature ← on_var (hold "temperature") (SB.temperature v);
      vapor_frac ← on_var (hold "vapor_frac") (SB.vapor_frac v);
      Ok (SB.with_vapor_frac vapor_frac
            (SB.with_pressure (hold "pressure" (SB.pressure v))
               (SB.with_temperature temperature
                  (SB.with_flow_mol (hold "flow_mol" (SB.flow_mol v)) v))),
          flags)
    | L | G =>
      temperature_fixed ← get_fixed (SB.temperature v);
      let flags :=
        [fixed (SB.flow_mol v); temperature_fixed; fixed (SB.pressure v)] in
      temperature ← on_var (hold "temperature") (SB.temperature v);
      Ok (SB.with_pressure (hold "pressure" (SB.pressure v))
            (SB.with_temperature temperature
               (SB.with_flow_mol (hold "flow_mol" (SB.flow_mol v)) v)),
          flags)
    end
  end.

(** [self[i]] and [f[n]]. *)
Definition block_at {K : Type} `{Countable K} {A : Type}
    (self : gmap K A) (i : K) : result A :=
  match self !! i with
  | Some b => Ok b
  | None => Raise KeyError
  end.

Definition tuple_at (f : list bool) (n : nat) : result bool :=
  match f !! n with
  | Some x => Ok x
  | None => Raise IndexError
  end.

Section indexed.
Context {K : Type} `{Countable K}.

(** One pass of the loop of [initialize], at the index [i]: [v] is
    [self[i]], changed in place, and [flags[i]] is assigned. *)
Definition initialize_step (hold_state : bool)
    (state_args : option (gmap string Q)) (item : K * SB.t)
    (st : gmap K SB.t * gmap K (list bool))
    : result (gmap K SB.t * gmap K (list bool)) :=
  let i := item.1 in
  v ← block_at st.1 i;
  r ← initialize_item hold_state state_args v;
  Ok (<[i := r.1]> st.1, <[i := r.2]> st.2).

(** [initialize(hold_state=..., state_args=...)] on the indexed block
    [self]: the blocks it leaves and the flags it returns. *)
Definition initialize (self : gmap K SB.t) (hold_state : bool)
    (state_args : option (gmap string Q))
    : result (gmap K SB.t * gmap K (list bool)) :=
  match for_each (initialize_step hold_state state_args)
          (map_to_list self) (self, ∅) with
  | Ok (self, flags) =>
    (* Call initialize on each data element *)
    Ok (SB.initialize <$> self, flags)
  | Raise e => Raise e
  end.

(** The body of the loop of [release_state] for the block [b]. *)
Definition release_item (b : SB.t) (f : list bool) : result SB.t :=
  let pp :=
    PB.config_phase_presentation
      (PB.config (SB.parameters (SB.config b))) in
  match SB.state_vars b with
  | PH =>
    f0 ← tuple_at f 0;
    let b := SB.with_flow_mol (_set_fixed (SB.flow_mol b) f0) b in
    f1 ← tuple_at f 1;
    enth_mol ← on_var (λ v, _set_fixed v f1) (SB.enth_mol b);
    let b := SB.with_enth_mol enth_mol b in
    f2 ← tuple_at f 2;
    Ok (SB.with_pressure (_set_fixed (SB.pressure b) f2) b)
  | TPX =>
    f0 ← tuple_at f 0;
    let b := SB.with_flow_mol (_set_fixed (SB.flow_mol b) f0) b in
    f1 ← tuple_at f 1;
    temperature ← on_var (λ v, _set_fixed v f1) (SB.temperature b);
    let b := SB.with_temperature temperature b in
    f2 ← tuple_at f 2;
    let b := SB.with_pressure (_set_fixed (SB.pressure b) f2) b in
    match pp with
    | MIX | LG =>
      f3 ← tuple_at f 3;
      vapor_frac ← on_var (λ v, _set_fixed v f3) (SB.vapor_frac b);
      Ok (SB.with_vapor_frac vapor_frac b)
    | L | G => Ok b
    end
  end.

(** One pass of the loop of [release_state], for the entry [(i, f)]
    of [flags]. *)
Definition release_step (item : K * list bool) (self : gmap K SB.t)
    : result (gmap K SB.t) :=
  let i := item.1 in
  b ← block_at self i;
  b ← release_item b item.2;
  Ok (<[i := b]> self).

(** [release_state(flags)]. *)
Definition release_state (self : gmap K SB.t) (flags : gmap K (list bool))
    : result (gmap K SB.t) :=
  for_each release_step (map_to_list flags) self.
End indexed.

(** The fixed/unfixed status of the state attribute [n] of a block;
    [None] when the attribute is an expression. *)
Definition component_status (c : component) : option bool :=
  match c with
  | CVar v => Some (fixed v)
  | CExpr _ => None
  end.

Definition status (b : SB.t) (n : VarName) : option bool :=
  match n with
  | Vflow_mol => Some (fixed (SB.flow_mol b))
  | Vpressure => Some (fixed (SB.pressure b))
  | Venth_mol => component_status (SB.enth_mol b)
  | Vtemperature => component_status (SB.temperature b)
  | Vvapor_frac => component_status (SB.vapor_frac b)
  end.

(** The shape [build] gives a block: the state variables of its mode
    are variables. *)
Definition is_var (c : component) : Prop :=
  match c with
  | CVar _ => True
  | CExpr _ => False
  end.

Definition built_shape (b : SB.t) : Prop :=
  match SB.state_vars b with
  | PH => is_var (SB.enth_mol b)
  | TPX => is_var (SB.temperature b) ∧ is_var (SB.vapor_frac b)
  end.

End _StateBlock.

(** ** Blocks by configuration, and concrete data for examples *)

(** The state block built for a state-variable mode, a phase-presentation
    mode and a [defined_state] flag, on the parameter block built from the
    same two modes. *)
Definition state_block (sv : StateVars) (pp : PhaseType) (ds : bool)
    (a : HelmholtzParameterBlockData.parameters) (isfile : string → bool)
    : result HelmholtzStateBlockData.t :=
  HelmholtzStateBlockData.construct
    {| HelmholtzStateBlockData.parameters :=
         HelmholtzParameterBlockData.build
           {| HelmholtzParameterBlockData.config_phase_presentation := pp;
              HelmholtzParameterBlockData.config_state_vars := sv |}
           a isfile;
       HelmholtzStateBlockData.defined_state := ds |}.

(** The weighted harmonic mean of two phase densities, in the words of the
    specification: [1 / (x / rho_V + (1 - x) / rho_L)]. *)
Definition harmonic_mean (x rho_V rho_L : Q) : Q :=
  1 / (x / rho_V + (1 - x) / rho_L).

(** A kernel whose functions are constant, for concrete runs: reduced
    densities 500 (liquid) and 5 (vapor). *)
Definition example_kernel : Kernel :=
  {| call1 := λ f _, match f with func_tau_sat => 1.5 | func_p_sat => 100 end;
     call2 := λ f _ _,
       match f with
       | func_hlpt => 400
       | func_hvpt => 2600
       | func_delta_liq => 500
       | func_delta_vap => 5
       | _ => 1
       end |}.

Definition example_prop : PropHandle :=
  {| prop_kernel := example_kernel;
     prop_mw := 0.018;
     prop_temperature_crit := 647;
     prop_pressure_crit := 22064000 |}.

(** The exact maximum, the limit of [smooth_max] as its smoothing
    parameter goes to zero. *)
Definition example_smooth_max (a b eps : Q) : Q :=
  if Qle_bool a b then b else a.

(** Fluid constants with unit critical density and unit molecular weight,
    so that with [example_kernel] the phase mole densities are 500 and 5. *)
Definition example_parameters : HelmholtzParameterBlockData.parameters :=
  {| HelmholtzParameterBlockData.a_library := "libexample.so";
     HelmholtzParameterBlockData.a_component_list := ["H2O"%string];
     HelmholtzParameterBlockData.a_phase_equilibrium_idx := [1%nat];
     HelmholtzParameterBlockData.a_phase_equilibrium_list :=
       [(1%nat, ("H2O", ("Vap", "Liq")))%string];
     HelmholtzParameterBlockData.a_mw := 1;
     HelmholtzParameterBlockData.a_temperature_crit := 647;
     HelmholtzParameterBlockData.a_pressure_crit := 22064000;
     HelmholtzParameterBlockData.a_dens_mass_crit := 1;
     HelmholtzParameterBlockData.a_specific_gas_constant := 461;
     HelmholtzParameterBlockData.a_pressure_bounds := (1, 1e9);
     HelmholtzParameterBlockData.a_temperature_bounds := (200, 3000);
     HelmholtzParameterBlockData.a_enthalpy_bounds := (0, 1e5);
     HelmholtzParameterBlockData.a_pressure_value := 1e5;
     HelmholtzParameterBlockData.a_temperature_value := 300;
     HelmholtzParameterBlockData.a_enthalpy_value := 1000 |}.

Definition example_isfile (_ : string) : bool := true.

(** Values for the variables of a TPX block: flow 2 mol/s, 300 K, 1e5 Pa
    and the given vapor fraction. *)
Definition example_vars (x : Q) (n : VarName) : option Q :=
  match n with
  | Vflow_mol => Some 2
  | Vpressure => Some 1e5
  | Vtemperature => Some 300
  | Vvapor_frac => Some x
  | Venth_mol => None
  end.

(** A collection of state blocks indexed by natural numbers, from the
    blocks that were built without error. *)
Definition collect (l : list (nat * result HelmholtzStateBlockData.t))
    : gmap nat HelmholtzStateBlockData.t :=
  foldr (λ ir m, match ir.2 with Ok b => <[ir.1 := b]> m | Raise _ => m end)
        ∅ l.

(** A two-phase TPX block whose pressure was fixed by its user. *)
Definition example_inlet : result HelmholtzStateBlockData.t :=
  b ← state_block TPX LG false example_parameters example_isfile;
  Ok (HelmholtzStateBlockData.with_pressure
        (fix_at 101325 (HelmholtzStateBlockData.pressure b)) b).

(** Three blocks in three modes: PH with the mixed phase, TPX with two
    phases, TPX with vapor only. *)
Definition example_blocks : gmap nat HelmholtzStateBlockData.t :=
  collect
    [(0%nat, state_block PH MIX false example_parameters example_isfile);
     (1%nat, example_inlet);
     (2%nat, state_block TPX G true example_parameters example_isfile)].

(** ** Notions used to state the further properties *)

(** The key of [state_args] and of [define_state_vars] for a variable. *)
Definition key_of (n : VarName) : string :=
  match n with
  | Vflow_mol => "flow_mol"
  | Vpressure => "pressure"
  | Venth_mol => "enth_mol"
  | Vtemperature => "temperature"
  | Vvapor_frac => "vapor_frac"
  end.

(** The state attribute of a block by name. *)
Definition attribute (b : HelmholtzStateBlockData.t) (n : VarName)
    : component :=
  match n with
  | Vflow_mol => CVar (HelmholtzStateBlockData.flow_mol b)
  | Vpressure => CVar (HelmholtzStateBlockData.pressure b)
  | Venth_mol => HelmholtzStateBlockData.enth_mol b
  | Vtemperature => HelmholtzStateBlockData.temperature b
  | Vvapor_frac => HelmholtzStateBlockData.vapor_frac b
  end.

(** The valuation read from the variables of a block. *)
Definition values_of (b : HelmholtzStateBlockData.t) (n : VarName)
    : option Q :=
  match attribute b n with
  | CVar v => Some (value v)
  | CExpr _ => None
  end.

(** The variables that [initialize] and [release_state] handle in a
    block, in the order of the flags: three in PH mode, four in TPX mode
    with the mixed or the two-phase presentation, three in TPX mode with a
    single-phase presentation. *)
Definition held_names (b : HelmholtzStateBlockData.t) : list VarName :=
  match HelmholtzStateBlockData.state_vars b,
        HelmholtzParameterBlockData.config_phase_presentation
          (HelmholtzParameterBlockData.config
             (HelmholtzStateBlockData.parameters
                (HelmholtzStateBlockData.config b))) with
  | PH, _ => [Vflow_mol; Venth_mol; Vpressure]
  | TPX, (MIX | LG) => [Vflow_mol; Vtemperature; Vpressure; Vvapor_frac]
  | TPX, (L | G) => [Vflow_mol; Vtemperature; Vpressure]
  end.

(** The variables an expression mentions. *)
Fixpoint free_vars (e : expr) : list VarName :=
  match e with
  | ENum _ | EParam _ => []
  | EVar v => [v]
  | EAdd a b | ESub a b | EMul a b | EDiv a b | ECall2 _ a b =>
    free_vars a ++ free_vars b
  | ECall1 _ a => free_vars a
  | ESmoothMax a b eps => free_vars a ++ free_vars b ++ free_vars eps
  end.

(** Whether every variable an expression mentions is in [owned]. *)
Fixpoint scoped (owned : VarName → bool) (e : expr) : bool :=
  match e with
  | ENum _ | EParam _ => true
  | EVar v => owned v
  | EAdd a b | ESub a b | EMul a b | EDiv a b | ECall2 _ a b =>
    scoped owned a && scoped owned b
  | ECall1 _ a => scoped owned a
  | ESmoothMax a b eps =>
    scoped owned a && scoped owned b && scoped owned eps
  end.

(** Whether an expression contains a [smooth_max]. *)
Fixpoint smoothed (e : expr) : bool :=
  match e with
  | ENum _ | EParam _ | EVar _ => false
  | EAdd a b | ESub a b | EMul a b | EDiv a b | ECall2 _ a b =>
    smoothed a || smoothed b
  | ECall1 _ a => smoothed a
  | ESmoothMax _ _ _ => true
  end.

Definition component_exprs (c : component) : list expr :=
  match c with
  | CVar _ => []
  | CExpr e => [e]
  end.

Definition constraint_exprs (c : option ConstraintData) : list expr :=
  match c with
  | Some c => [lhs c; rhs c]
  | None => []
  end.

(** The expressions a state block holds, apart from the per-component
    flows: its scalar and indexed expressions, the two sides of its
    constraints and its scaling expressions. *)
Definition own_expressions (b : HelmholtzStateBlockData.t) : list expr :=
  [HelmholtzStateBlockData.temperature_crit b;
   HelmholtzStateBlockData.pressure_crit b;
   HelmholtzStateBlockData.dens_mass_crit b;
   HelmholtzStateBlockData.mw b;
   HelmholtzStateBlockData.temperature_sat b;
   HelmholtzStateBlockData.tau_sat b;
   HelmholtzStateBlockData.temperature_red b;
   HelmholtzStateBlockData.tau b;
   HelmholtzStateBlockData.pressure_sat b;
   HelmholtzStateBlockData.dh_vap_mol b;
   HelmholtzStateBlockData.energy_internal_mol b;
   HelmholtzStateBlockData.entr_mol b;
   HelmholtzStateBlockData.cp_mol b;
   HelmholtzStateBlockData.cv_mol b;
   HelmholtzStateBlockData.dens_mass b;
   HelmholtzStateBlockData.dens_mol b;
   HelmholtzStateBlockData.heat_capacity_ratio b;
   HelmholtzStateBlockData.flow_vol b;
   HelmholtzStateBlockData.flow_mass b;
   HelmholtzStateBlockData.enth_mass b]
  ++ component_exprs (HelmholtzStateBlockData.enth_mol b)
  ++ component_exprs (HelmholtzStateBlockData.temperature b)
  ++ component_exprs (HelmholtzStateBlockData.vapor_frac b)
  ++ option_list (HelmholtzStateBlockData.P_under_sat b)
  ++ option_list (HelmholtzStateBlockData.P_over_sat b)
  ++ constraint_exprs (HelmholtzStateBlockData.eq_complementarity b)
  ++ constraint_exprs (HelmholtzStateBlockData.eq_sat b)
  ++ (HelmholtzStateBlockData.dens_mass_phase b).*2
  ++ (HelmholtzStateBlockData.dens_phase_red b).*2
  ++ (HelmholtzStateBlockData.enth_mol_sat_phase b).*2
  ++ (HelmholtzStateBlockData.energy_internal_mol_phase b).*2
  ++ (HelmholtzStateBlockData.enth_mol_phase b).*2
  ++ (HelmholtzStateBlockData.entr_mol_phase b).*2
  ++ (HelmholtzStateBlockData.cp_mol_phase b).*2
  ++ (HelmholtzStateBlockData.cv_mol_phase b).*2
  ++ (HelmholtzStateBlockData.speed_sound_phase b).*2
  ++ (HelmholtzStateBlockData.dens_mol_phase b).*2
  ++ (HelmholtzStateBlockData.phase_frac b).*2
  ++ (HelmholtzStateBlockData.material_flow_terms b).*2
  ++ (HelmholtzStateBlockData.enthalpy_flow_terms b).*2
  ++ (HelmholtzStateBlockData.energy_density_terms b).*2
  ++ (HelmholtzStateBlockData.scaling_expression b).*2.

(** Every expression a state block holds. *)
Definition all_expressions (b : HelmholtzStateBlockData.t) : list expr :=
  own_expressions b ++ (HelmholtzStateBlockData.flow_mol_comp b).*2.

(** Whether the state attribute [n] of a block is a variable. *)
Definition owns (b : HelmholtzStateBlockData.t) (n : VarName) : bool :=
  match attribute b n with
  | CVar _ => true
  | CExpr _ => false
  end.

(** [mix] is the mean of the two members of [phase], weighted by the
    vapor fraction [x]: whenever the members have values, [mix] has the
    value [x * vapor + (1 - x) * liquid]. *)
Definition mixes_phases (value_of : expr → result Q) (x : Q)
    (phase : Indexed) (mix : expr) : Prop :=
  ∀ eV eL vV vL,
    getitem phase "Vap" = Ok eV → getitem phase "Liq" = Ok eL →
    value_of eV = Ok vV → value_of eL = Ok vL →
    ∃ q, value_of mix = Ok q ∧ q == x * vV + (1 - x) * vL.

(** The sum of the values of the members of an indexed expression. *)
Fixpoint sum_values (value_of : expr → result Q) (ix : Indexed)
    : result Q :=
  match ix with
  | [] => Ok 0
  | (_, e) :: ix => x ← value_of e; y ← sum_values value_of ix; Ok (x + y)
  end.

(** * Properties *)

(** ** Arithmetic helpers *)

Lemma between_spec (lo v hi : Q) :
  between lo v hi = true ↔ lo <= v ∧ v <= hi.
Proof.
  unfold between. rewrite andb_true_iff, !Qle_bool_iff. tauto.
Qed.

Lemma between_false (lo v hi : Q) :
  between lo v hi = false ↔ ¬ (lo <= v ∧ v <= hi).
Proof.
  rewrite <- between_spec. destruct (between lo v hi); split; congruence.
Qed.

Lemma Qlt_bool_spec (a b : Q) : Qlt_bool a b = true ↔ a < b.
Proof.
  unfold Qlt_bool. rewrite negb_true_iff. split.
  - intros Hf. apply Qnot_le_lt. intros Hle.
    apply Qle_bool_iff in Hle. congruence.
  - intros Hlt. destruct (Qle_bool b a) eqn:E; [|reflexivity].
    apply Qle_bool_iff in E. exfalso. exact (Qlt_not_le _ _ Hlt E).
Qed.

Lemma Qlt_bool_false (a b : Q) : Qlt_bool a b = false ↔ b <= a.
Proof.
  unfold Qlt_bool. rewrite negb_false_iff. apply Qle_bool_iff.
Qed.

Lemma pydiv_ok (a b : Q) : ¬ b == 0 → pydiv a b = Ok (a / b).
Proof.
  intros Hb. unfold pydiv. destruct (Qeq_bool b 0) eqn:E; [|reflexivity].
  apply Qeq_bool_iff in E. contradiction.
Qed.

Lemma pydiv_zero (a b : Q) : b == 0 → pydiv a b = Raise ZeroDivisionError.
Proof.
  intros Hb. unfold pydiv. apply Qeq_bool_iff in Hb. now rewrite Hb.
Qed.

(** ** The point-conversion utility *)

(** Past its guards, [_htpx] raises no configuration error. *)
Lemma _htpx_body_no_configuration_error T prop P x :
  _htpx_body T prop P x ≠ Raise ConfigurationError.
Proof.
  unfold _htpx_body. destruct prop as [prop|]; [|discriminate].
  destruct x as [x0|], P as [p|]; cbn; try discriminate.
  - unfold pydiv. destruct (Qeq_bool T 0); cbn; discriminate.
  - unfold pydiv.
    destruct (Qeq_bool (call1 _ func_tau_sat _) 0); cbn; [discriminate|].
    destruct (_ || _); destruct (Qeq_bool T 0); cbn; discriminate.
Qed.

Ltac guards_hold :=
  split; [discriminate|]; split; [assumption|];
  split; intros ? Heq; inversion Heq; subst; assumption.

(** The guards pass exactly on well-formed arguments. *)
Lemma _htpx_check_args_ok T P x Tmin Tmax Pmin Pmax :
  _htpx_check_args T P x Tmin Tmax Pmin Pmax = Ok tt ↔
  (is_None P ≠ is_None x)
  ∧ (Tmin <= T ∧ T <= Tmax)
  ∧ (∀ p, P = Some p → Pmin <= p ∧ p <= Pmax)
  ∧ (∀ x0, x = Some x0 → 0 <= x0 ∧ x0 <= 1).
Proof.
  unfold _htpx_check_args.
  destruct (between Tmin T Tmax) eqn:ET.
  - apply between_spec in ET.
    destruct P as [p|], x as [x0|]; cbn.
    + split; [discriminate | intros [Hx _]; congruence].
    + destruct (between Pmin p Pmax) eqn:EP; cbn.
      * apply between_spec in EP. split; [|reflexivity]. intros _.
        guards_hold.
      * apply between_false in EP. split; [discriminate|].
        intros (_ & _ & HP & _). destruct (EP (HP _ eq_refl)).
    + destruct (between 0 x0 1) eqn:EX; cbn.
      * apply between_spec in EX. split; [|reflexivity]. intros _.
        guards_hold.
      * apply between_false in EX. split; [discriminate|].
        intros (_ & _ & _ & HX). destruct (EX (HX _ eq_refl)).
    + split; [discriminate | intros [Hx _]; congruence].
  - apply between_false in ET.
    destruct P as [p|], x as [x0|]; cbn;
      (split; [discriminate | intros (_ & HT & _); tauto]).
Qed.

Lemma _htpx_check_args_result T P x Tmin Tmax Pmin Pmax :
  _htpx_check_args T P x Tmin Tmax Pmin Pmax = Ok tt
  ∨ _htpx_check_args T P x Tmin Tmax Pmin Pmax = Raise ConfigurationError.
Proof.
  unfold _htpx_check_args.
  repeat match goal with
         | |- context [if ?c then _ else _] => destruct c
         end; auto.
Qed.

(** C3.  [_htpx] raises a configuration error if and only if both or
    neither of [P] and [x] are supplied, or [T] lies outside
    [[Tmin, Tmax]], or a supplied [P] lies outside [[Pmin, Pmax]], or a
    supplied [x] lies outside [[0, 1]].  With the default bounds,
    [T = 372] with exactly one of [P = 101325] or [x = 0.5] passes all
    argument checks, [T = 1300] with [P = 101325] fails and [T = 372]
    with [x = 1.5] fails. *)
Theorem htpx_configuration_error_iff :
  (∀ T prop P x Tmin Tmax Pmin Pmax,
     _htpx T prop P x Tmin Tmax Pmin Pmax = Raise ConfigurationError ↔
     ((P = None ∧ x = None) ∨ (P ≠ None ∧ x ≠ None))
     ∨ ¬ (Tmin <= T ∧ T <= Tmax)
     ∨ (∃ p, P = Some p ∧ ¬ (Pmin <= p ∧ p <= Pmax))
     ∨ (∃ x0, x = Some x0 ∧ ¬ (0 <= x0 ∧ x0 <= 1)))
  ∧ _htpx_check_args 372 (Some 101325) None
      Tmin_default Tmax_default Pmin_default Pmax_default = Ok tt
  ∧ _htpx_check_args 372 None (Some 0.5)
      Tmin_default Tmax_default Pmin_default Pmax_default = Ok tt
  ∧ (∀ prop, _htpx 1300 prop (Some 101325) None
       Tmin_default Tmax_default Pmin_default Pmax_default
     = Raise ConfigurationError)
  ∧ (∀ prop, _htpx 372 prop None (Some 1.5)
       Tmin_default Tmax_default Pmin_default Pmax_default
     = Raise ConfigurationError).
Proof.
  split; [|repeat split; reflexivity].
  intros T prop P x Tmin Tmax Pmin Pmax.
  pose proof (_htpx_check_args_ok T P x Tmin Tmax Pmin Pmax) as Hok.
  pose proof (_htpx_body_no_configuration_error T prop P x) as Hbody.
  unfold _htpx.
  destruct (_htpx_check_args_result T P x Tmin Tmax Pmin Pmax) as [E|E];
    rewrite E in *; cbn.
  - destruct Hok as [Hok _]. specialize (Hok eq_refl).
    destruct Hok as (Hx & HT & HP & HX).
    split; [intros Hc; contradiction|].
    intros [[[-> ->]|[HPn Hxn]]|[HnT|[(p & -> & Hp)|(x0 & -> & Hx0)]]].
    + cbn in Hx. congruence.
    + destruct P, x; cbn in Hx; congruence.
    + contradiction.
    + destruct (Hp (HP _ eq_refl)).
    + destruct (Hx0 (HX _ eq_refl)).
  - split; [intros _|reflexivity].
    destruct Hok as [_ Hok].
    destruct (decide (is_None P = is_None x)) as [Hx|Hx].
    { left. destruct P, x; cbn in Hx; try discriminate;
        [right; split; discriminate | left; split; reflexivity]. }
    right.
    destruct (between Tmin T Tmax) eqn:ET;
      [apply between_spec in ET | apply between_false in ET; left; exact ET].
    right.
    destruct P as [p|].
    + destruct (between Pmin p Pmax) eqn:EP;
        [apply between_spec in EP
        | apply between_false in EP; left; eauto].
      destruct x as [x0|]; [cbn in Hx; congruence|].
      exfalso.
      assert (@Raise unit ConfigurationError = Ok tt); [|discriminate].
      apply Hok. guards_hold.
    + destruct x as [x0|]; [|cbn in Hx; congruence].
      destruct (between 0 x0 1) eqn:EX;
        [apply between_spec in EX
        | apply between_false in EX; right; eauto].
      exfalso.
      assert (@Raise unit ConfigurationError = Ok tt); [|discriminate].
      apply Hok. guards_hold.
Qed.

(** C10.  With the pressure supplied and the argument checks passed,
    [_htpx] returns the liquid-branch enthalpy ([func_hlpt]) whenever [T]
    is below the saturation temperature at [P] or [P] exceeds the critical
    pressure, and the vapor-branch enthalpy ([func_hvpt]) only when [T] is
    at or above the saturation temperature and [P] is at or below the
    critical pressure.  The two divisions of the source are assumed to be
    defined. *)
Theorem htpx_pressure_branch (T p Tmin Tmax Pmin Pmax : Q)
    (prop : PropHandle) :
  let k := prop_kernel prop in
  let Tc := prop_temperature_crit prop in
  let Pc := prop_pressure_crit prop in
  let Tsat := Tc / call1 k func_tau_sat (p / 1000) in
  let h_liq := call2 k func_hlpt (p / 1000) (Tc / T) * prop_mw prop * 1000 in
  let h_vap := call2 k func_hvpt (p / 1000) (Tc / T) * prop_mw prop * 1000 in
  _htpx_check_args T (Some p) None Tmin Tmax Pmin Pmax = Ok tt →
  ¬ call1 k func_tau_sat (p / 1000) == 0 →
  ¬ T == 0 →
  ((T < Tsat ∨ Pc < p) →
     _htpx T (Some prop) (Some p) None Tmin Tmax Pmin Pmax = Ok (Some h_liq))
  ∧ ((Tsat <= T ∧ p <= Pc) →
     _htpx T (Some prop) (Some p) None Tmin Tmax Pmin Pmax = Ok (Some h_vap))
  ∧ (Pc < p →
     _htpx T (Some prop) (Some p) None Tmin Tmax Pmin Pmax = Ok (Some h_liq)).
Proof.
  intros k Tc Pc Tsat h_liq h_vap Hargs Htau HT.
  assert (Hliq : T < Tsat ∨ Pc < p →
    _htpx T (Some prop) (Some p) None Tmin Tmax Pmin Pmax = Ok (Some h_liq)).
  { intros Hc. unfold _htpx. rewrite Hargs. cbn.
    fold k Tc Pc. rewrite (pydiv_ok Tc _ Htau). cbn. fold Tsat.
    assert (Hb : Qlt_bool T Tsat || Qlt_bool Pc p = true).
    { apply orb_true_iff. rewrite !Qlt_bool_spec. exact Hc. }
    rewrite Hb, (pydiv_ok Tc T HT). reflexivity. }
  split; [exact Hliq|]. split; [|intros Hp; apply Hliq; right; exact Hp].
  intros [HTs Hp]. unfold _htpx. rewrite Hargs. cbn.
  fold k Tc Pc. rewrite (pydiv_ok Tc _ Htau). cbn. fold Tsat.
  assert (Hb : Qlt_bool T Tsat || Qlt_bool Pc p = false).
  { apply orb_false_iff. rewrite !Qlt_bool_false. split; assumption. }
  rewrite Hb, (pydiv_ok Tc T HT). reflexivity.
Qed.

(** At 372 K and 101325 Pa the saturation temperature of the example
    kernel is above [T]: the liquid branch is taken. *)
Lemma htpx_pressure_branch_witness :
  _htpx_check_args 372 (Some 101325) None
    Tmin_default Tmax_default Pmin_default Pmax_default = Ok tt
  ∧ 372 < 647 / call1 example_kernel func_tau_sat (101325 / 1000)
  ∧ _htpx 372 (Some example_prop) (Some 101325) None
      Tmin_default Tmax_default Pmin_default Pmax_default
    = Ok (Some (call2 example_kernel func_hlpt (101325 / 1000) (647 / 372)
                * 0.018 * 1000)).
Proof.
  assert (Hlt : 372 < 647 / call1 example_kernel func_tau_sat (101325 / 1000))
    by (vm_compute; reflexivity).
  split; [reflexivity|]. split; [exact Hlt|].
  refine (proj1 (htpx_pressure_branch 372 101325
                   Tmin_default Tmax_default Pmin_default Pmax_default
                   example_prop _ _ _) _).
  - reflexivity.
  - vm_compute. discriminate.
  - vm_compute. discriminate.
  - left. exact Hlt.
Defined.

(** ** The parameter block *)

(** C4.  For every phase-presentation mode and every state-variable mode
    the private phase list of the built parameter block is exactly the
    two-element set of "Liq" and "Vap", while the public phase list is
    "Mix"; "Vap", "Liq"; "Liq"; or "Vap" according to the chosen mode. *)
Theorem private_phase_list_fixed :
  ∀ (pp : PhaseType) (sv : StateVars)
    (a : HelmholtzParameterBlockData.parameters) (isfile : string → bool),
    let pb :=
      HelmholtzParameterBlockData.build
        {| HelmholtzParameterBlockData.config_phase_presentation := pp;
           HelmholtzParameterBlockData.config_state_vars := sv |} a isfile in
    NoDup (HelmholtzParameterBlockData.private_phase_list pb)
    ∧ length (HelmholtzParameterBlockData.private_phase_list pb) = 2%nat
    ∧ list_to_set (HelmholtzParameterBlockData.private_phase_list pb)
        =@{gset string} {["Liq"; "Vap"]}
    ∧ NoDup (HelmholtzParameterBlockData.phase_list pb)
    ∧ list_to_set (HelmholtzParameterBlockData.phase_list pb)
        =@{gset string}
        match pp with
        | MIX => {["Mix"]}
        | LG => {["Vap"; "Liq"]}
        | L => {["Liq"]}
        | G => {["Vap"]}
        end.
Proof.
  intros pp sv a isfile pb. cbn.
  split; [|split; [reflexivity|split; [set_solver|]]].
  { apply (bool_decide_unpack _). reflexivity. }
  destruct pp; cbn;
    (split; [apply (bool_decide_unpack _); reflexivity | set_solver]).
Qed.

(** ** The state block: construction *)

(** Construction succeeds for every configuration. *)
Lemma state_block_total sv pp ds a isfile :
  ∃ b, state_block sv pp ds a isfile = Ok b.
Proof.
  destruct sv, pp, ds; eexists; vm_compute; reflexivity.
Qed.

Lemma run_bind {A B : Type} (m : M A) (f : A → M B) (s : Suffixes) :
  run (m ≫= f) s
  = match run m s with
    | Ok (a, s') => run (f a) s'
    | Raise e => Raise e
    end.
Proof. reflexivity. Qed.

(** [Expression(component_list, rule=component_flow)] written directly
    agrees with the general construction. *)
Lemma flow_mol_comp_rule (component_list : list string) (s : Suffixes) :
  run (ExpressionM component_list HelmholtzStateBlockData.component_flow) s
  = run (HelmholtzStateBlockData.Expression_component_flow component_list) s.
Proof.
  revert s. induction component_list as [|i l IH]; intros [sf se].
  - reflexivity.
  - cbn [ExpressionM run mbind M_bind mret M_ret set_scaling_factor
         HelmholtzStateBlockData.component_flow sfx_factor sfx_expression].
    rewrite run_bind, IH. reflexivity.
Qed.

(** Replace the left-hand side of the equation [H] by its value. *)
Ltac computed_lhs H :=
  lazymatch type of H with
  | ?l = ?r =>
    let l' := eval vm_compute in l in
    let E := fresh "E" in
    assert (E : l = l') by (vm_compute; reflexivity);
    rewrite E in H; clear E
  end.

(** Membership in an explicit list of phase labels. *)
Ltac not_in_list H :=
  repeat (apply elem_of_cons in H as [H|H]; [discriminate H|]);
  apply elem_of_nil in H; destruct H.

Ltac in_list :=
  repeat first [apply list_elem_of_here | apply list_elem_of_further].

(** C1.  For a TPX-mode state block the phase-equilibrium section adds
    the complementarity constraint
    [0 == vapor_frac * P_over_sat - (1 - vapor_frac) * P_under_sat]
    exactly when the public phase list contains both phases and
    [defined_state] is false; when the public phase list has a single
    phase, or [defined_state] is true, no complementarity constraint is
    built. *)
Theorem complementarity_built_iff :
  ∀ (pp : PhaseType) (ds : bool)
    (a : HelmholtzParameterBlockData.parameters) (isfile : string → bool),
  ∃ (b : HelmholtzStateBlockData.t) (Pu Po : expr),
    state_block TPX pp ds a isfile = Ok b
    ∧ HelmholtzStateBlockData.P_under_sat b = Some Pu
    ∧ HelmholtzStateBlockData.P_over_sat b = Some Po
    ∧ let plist :=
        HelmholtzParameterBlockData.phase_list
          (HelmholtzStateBlockData.parameters
             (HelmholtzStateBlockData.config b)) in
      let both := "Vap" ∈ plist ∧ "Liq" ∈ plist in
      ((both ∧ ds = false) →
         HelmholtzStateBlockData.eq_complementarity b
         = Some (Constraint (ENum 0)
                   (EVar Vvapor_frac * Po
                    - (ENum 1 - EVar Vvapor_frac) * Pu)%E))
      ∧ (is_Some (HelmholtzStateBlockData.eq_complementarity b) →
         both ∧ ds = false)
      ∧ ((length plist = 1%nat ∨ ds = true) →
         HelmholtzStateBlockData.eq_complementarity b = None).
Proof.
  intros pp ds a isfile.
  destruct pp, ds;
    (eexists _, _, _; split; [vm_compute; reflexivity|];
     split; [reflexivity|]; split; [reflexivity|]; cbn;
     split; [|split]).
  all: try (intros _; reflexivity).
  all: try (intros [[H1 H2] H3];
            first [discriminate H3 | not_in_list H1 | not_in_list H2]).
  all: try (intros [H|H]; discriminate).
  all: try (intros [c Hc]; discriminate).
  intros _. split; [split; in_list | reflexivity].
Qed.

(** C8.  The mapping returned by [define_state_vars] has exactly the keys
    flow_mol, enth_mol, pressure in PH mode; flow_mol, temperature,
    pressure, vapor_frac in TPX mode with MIX or LG presentation; and
    flow_mol, temperature, pressure in TPX mode with L or G
    presentation.  Each key names the variable it is mapped to. *)
Theorem define_state_vars_keys :
  ∀ (sv : StateVars) (pp : PhaseType) (ds : bool)
    (a : HelmholtzParameterBlockData.parameters) (isfile : string → bool),
  ∃ b : HelmholtzStateBlockData.t,
    state_block sv pp ds a isfile = Ok b
    ∧ NoDup (HelmholtzStateBlockData.define_state_vars b).*1
    ∧ list_to_set (HelmholtzStateBlockData.define_state_vars b).*1
      =@{gset string}
      match sv, pp with
      | PH, _ => {["flow_mol"; "enth_mol"; "pressure"]}
      | TPX, (MIX | LG) =>
        {["flow_mol"; "temperature"; "pressure"; "vapor_frac"]}
      | TPX, (L | G) => {["flow_mol"; "temperature"; "pressure"]}
      end
    ∧ Forall (λ kv, kv ∈ [("flow_mol", Vflow_mol); ("enth_mol", Venth_mol);
                          ("pressure", Vpressure);
                          ("temperature", Vtemperature);
                          ("vapor_frac", Vvapor_frac)]%string)
        (HelmholtzStateBlockData.define_state_vars b).
Proof.
  intros sv pp ds a isfile.
  destruct sv, pp, ds;
    (eexists; split; [vm_compute; reflexivity|]; cbn; split;
     [apply (bool_decide_unpack _); reflexivity
     |split; [set_solver | repeat constructor; set_solver]]).
Qed.

(** ** The state block: values of the built expressions *)

Lemma bind_Ok {A B : Type} (a : A) (f : A → result B) : (Ok a ≫= f) = f a.
Proof. reflexivity. Qed.

Lemma pydiv_1000 (a : Q) : pydiv a 1000 = Ok (a / 1000).
Proof. reflexivity. Qed.

(** Evaluate an expression step by step, reading the variables from the
    hypotheses and using the hypotheses on the denominators. *)
Ltac eval_expr :=
  repeat first
    [ progress cbn [evaluate]
    | rewrite bind_Ok
    | rewrite pydiv_1000
    | match goal with
      | H : ?vars ?v = Some _ |- context [?vars ?v] => rewrite H
      | H : evaluate _ _ _ _ ?e = Ok _ |- context [evaluate _ _ _ _ ?e] =>
        rewrite H
      | H : ¬ ?d == 0 |- context [pydiv _ ?d] => rewrite (pydiv_ok _ d H)
      end ].

(** C6.  In TPX mode the liquid-phase mass density is the critical density
    times the kernel liquid-density function at the shifted pressure
    [P + P_under_sat], and the vapor-phase mass density the critical
    density times the kernel vapor-density function at [P - P_over_sat],
    where [P_under_sat = smooth_max(0, Psat - P, eps_under)] and
    [P_over_sat = smooth_max(0, P - Psat, eps_over)], as expressions and
    for every value of the primary variables.  The reduced density of a
    phase is its mass density over the critical density. *)
Theorem shifted_pressure_densities :
  ∀ (pp : PhaseType) (ds : bool)
    (a : HelmholtzParameterBlockData.parameters) (isfile : string → bool),
  let pb :=
    HelmholtzParameterBlockData.build
      {| HelmholtzParameterBlockData.config_phase_presentation := pp;
         HelmholtzParameterBlockData.config_state_vars := TPX |} a isfile in
  ∃ (b : HelmholtzStateBlockData.t) (Pu Po rho_liq rho_vap : expr),
    state_block TPX pp ds a isfile = Ok b
    ∧ HelmholtzStateBlockData.P_under_sat b = Some Pu
    ∧ HelmholtzStateBlockData.P_over_sat b = Some Po
    ∧ getitem (HelmholtzStateBlockData.dens_mass_phase b) "Liq" = Ok rho_liq
    ∧ getitem (HelmholtzStateBlockData.dens_mass_phase b) "Vap" = Ok rho_vap
    ∧ (let P := (EVar Vpressure / ENum 1000)%E in
       let Psat := (HelmholtzStateBlockData.pressure_sat b / ENum 1000)%E in
       let tau := HelmholtzStateBlockData.tau b in
       Pu = ESmoothMax (ENum 0) (Psat - P) (EParam Psmoothing_pressure_under)
       ∧ Po = ESmoothMax (ENum 0) (P - Psat) (EParam Psmoothing_pressure_over)
       ∧ rho_liq
         = (EParam Pdens_mass_crit * ECall2 func_delta_liq (P + Pu) tau)%E
       ∧ rho_vap
         = (EParam Pdens_mass_crit * ECall2 func_delta_vap (P - Po) tau)%E)
    ∧ getitem (HelmholtzStateBlockData.dens_phase_red b) "Liq"
      = Ok (rho_liq / EParam Pdens_mass_crit)%E
    ∧ getitem (HelmholtzStateBlockData.dens_phase_red b) "Vap"
      = Ok (rho_vap / EParam Pdens_mass_crit)%E
    ∧ (∀ (k : Kernel) (smooth_max : Q → Q → Q → Q)
         (vars : VarName → option Q) (T p : Q),
         vars Vtemperature = Some T →
         vars Vpressure = Some p →
         ¬ T == 0 →
         let value_of := evaluate k smooth_max pb vars in
         let rhoc := HelmholtzParameterBlockData.dens_mass_crit pb in
         let tau := HelmholtzParameterBlockData.temperature_crit pb / T in
         let P := p / 1000 in
         let Psat := 1000 * call1 k func_p_sat tau / 1000 in
         let P_under :=
           smooth_max 0 (Psat - P)
             (HelmholtzParameterBlockData.smoothing_pressure_under pb) in
         let P_over :=
           smooth_max 0 (P - Psat)
             (HelmholtzParameterBlockData.smoothing_pressure_over pb) in
         value_of Pu = Ok P_under
         ∧ value_of Po = Ok P_over
         ∧ value_of rho_liq
           = Ok (rhoc * call2 k func_delta_liq (P + P_under) tau)
         ∧ value_of rho_vap
           = Ok (rhoc * call2 k func_delta_vap (P - P_over) tau)).
Proof.
  intros pp ds a isfile pb.
  destruct pp, ds.
  all: eexists _, _, _, _, _.
  all: split; [vm_compute; reflexivity|].
  all: do 4 (split; [reflexivity|]).
  all: split; [repeat split|].
  all: do 2 (split; [reflexivity|]).
  all: clearbody pb; intros k sm vars T p HT Hp HT0; cbn zeta.
  all: repeat split; eval_expr; reflexivity.
Qed.

(** The value of a weighted harmonic sum of two phase densities. *)
Lemma evaluate_harmonic k sm pb vars (f dV dL : expr) (x rhoV rhoL : Q) :
  evaluate k sm pb vars f = Ok x →
  evaluate k sm pb vars dV = Ok rhoV →
  evaluate k sm pb vars dL = Ok rhoL →
  ¬ rhoV == 0 → ¬ rhoL == 0 →
  ¬ x / rhoV + (1 - x) / rhoL == 0 →
  ∃ q, evaluate k sm pb vars
         (ENum 1 / (ENum 0 + f * ENum 1 / dV + (ENum 1 - f) * ENum 1 / dL))%E
       = Ok q
       ∧ q == harmonic_mean x rhoV rhoL.
Proof.
  intros Hf HV HL HV0 HL0 Hs.
  assert (Heq : 0 + x * 1 / rhoV + (1 - x) * 1 / rhoL
                == x / rhoV + (1 - x) / rhoL).
  { unfold Qdiv. ring. }
  assert (Hs' : ¬ 0 + x * 1 / rhoV + (1 - x) * 1 / rhoL == 0).
  { rewrite Heq. exact Hs. }
  eexists. split.
  - eval_expr. reflexivity.
  - unfold harmonic_mean. rewrite Heq. reflexivity.
Qed.

(** C7 (amended).  Mixture mass density and mole density are the
    phase-fraction-weighted harmonic means of the phase densities,
    [1 / sum(phase_frac[p] / dens_phase[p])], where [phase_frac] is
    [vapor_frac] for the vapor phase and [1 - vapor_frac] for the liquid
    phase; with phase mole densities 500 (liquid) and 5 (vapor) and vapor
    fraction 0.3 the mixture mole density is
    [1 / (0.3 / 5 + 0.7 / 500) = 5000 / 307], about 16.29. *)
Theorem mixture_density_harmonic :
  (∀ (sv : StateVars) (pp : PhaseType) (ds : bool)
     (a : HelmholtzParameterBlockData.parameters) (isfile : string → bool),
   let pb :=
     HelmholtzParameterBlockData.build
       {| HelmholtzParameterBlockData.config_phase_presentation := pp;
          HelmholtzParameterBlockData.config_state_vars := sv |} a isfile in
   ∃ (b : HelmholtzStateBlockData.t) (vf fV fL mV mL nV nL : expr),
     state_block sv pp ds a isfile = Ok b
     ∧ vf = ref Vvapor_frac (HelmholtzStateBlockData.vapor_frac b)
     ∧ getitem (HelmholtzStateBlockData.phase_frac b) "Vap" = Ok fV
     ∧ getitem (HelmholtzStateBlockData.phase_frac b) "Liq" = Ok fL
     ∧ getitem (HelmholtzStateBlockData.dens_mass_phase b) "Vap" = Ok mV
     ∧ getitem (HelmholtzStateBlockData.dens_mass_phase b) "Liq" = Ok mL
     ∧ getitem (HelmholtzStateBlockData.dens_mol_phase b) "Vap" = Ok nV
     ∧ getitem (HelmholtzStateBlockData.dens_mol_phase b) "Liq" = Ok nL
     ∧ fV = vf
     ∧ fL = (ENum 1 - vf)%E
     ∧ HelmholtzStateBlockData.dens_mass b
       = (ENum 1 / (ENum 0 + fV * ENum 1 / mV + fL * ENum 1 / mL))%E
     ∧ HelmholtzStateBlockData.dens_mol b
       = (ENum 1 / (ENum 0 + fV * ENum 1 / nV + fL * ENum 1 / nL))%E
     ∧ (∀ (k : Kernel) (smooth_max : Q → Q → Q → Q)
          (vars : VarName → option Q) (x rhoV rhoL : Q),
          let value_of := evaluate k smooth_max pb vars in
          value_of vf = Ok x →
          ¬ rhoV == 0 → ¬ rhoL == 0 →
          ¬ x / rhoV + (1 - x) / rhoL == 0 →
          (value_of mV = Ok rhoV → value_of mL = Ok rhoL →
           ∃ q, value_of (HelmholtzStateBlockData.dens_mass b) = Ok q
                ∧ q == harmonic_mean x rhoV rhoL)
          ∧ (value_of nV = Ok rhoV → value_of nL = Ok rhoL →
             ∃ q, value_of (HelmholtzStateBlockData.dens_mol b) = Ok q
                  ∧ q == harmonic_mean x rhoV rhoL)))
  ∧ harmonic_mean 0.3 5 500 == 1 / (0.3 / 5 + 0.7 / 500)
  ∧ harmonic_mean 0.3 5 500 == 5000 # 307
  ∧ 16.28 < harmonic_mean 0.3 5 500
  ∧ harmonic_mean 0.3 5 500 < 16.29.
Proof.
  split; [|repeat split].
  intros sv pp ds a isfile pb.
  destruct (state_block_total sv pp ds a isfile) as [b Hb].
  assert (Hc :
    match state_block sv pp ds a isfile with
    | Ok b => Some (HelmholtzStateBlockData.vapor_frac b,
                    HelmholtzStateBlockData.phase_frac b,
                    HelmholtzStateBlockData.dens_mass_phase b,
                    HelmholtzStateBlockData.dens_mol_phase b,
                    HelmholtzStateBlockData.dens_mass b,
                    HelmholtzStateBlockData.dens_mol b)
    | Raise _ => None
    end
    = Some (HelmholtzStateBlockData.vapor_frac b,
            HelmholtzStateBlockData.phase_frac b,
            HelmholtzStateBlockData.dens_mass_phase b,
            HelmholtzStateBlockData.dens_mol_phase b,
            HelmholtzStateBlockData.dens_mass b,
            HelmholtzStateBlockData.dens_mol b)).
  { rewrite Hb. reflexivity. }
  exists b.
  destruct sv, pp, ds; computed_lhs Hc;
    injection Hc as <- <- <- <- <- <-.
  all: eexists _, _, _, _, _, _, _.
  all: split; [exact Hb|].
  all: do 11 (split; [reflexivity|]).
  all: clearbody pb; intros k sm vars x rhoV rhoL value_of Hx HV0 HL0 Hs.
  all: split; intros HV HL;
    exact (evaluate_harmonic k sm pb vars _ _ _ x rhoV rhoL
             Hx HV HL HV0 HL0 Hs).
Qed.

(** The instance of the specification, run on a built block: phase mole
    densities 500 and 5, vapor fraction 0.3.  The mixture mole density is
    [5000 / 307], below 16.29, and so differs from 16.39 by more than
    0.1. *)
Lemma dens_mol_example_not_16_39 :
  ∃ (b : HelmholtzStateBlockData.t) (nV nL : expr) (q : Q),
    let value_of :=
      evaluate example_kernel example_smooth_max
        (HelmholtzStateBlockData.parameters
           (HelmholtzStateBlockData.config b))
        (example_vars 0.3) in
    state_block TPX LG false example_parameters example_isfile = Ok b
    ∧ getitem (HelmholtzStateBlockData.dens_mol_phase b) "Vap" = Ok nV
    ∧ getitem (HelmholtzStateBlockData.dens_mol_phase b) "Liq" = Ok nL
    ∧ value_of nV = Ok 5
    ∧ value_of nL = Ok 500
    ∧ value_of (HelmholtzStateBlockData.dens_mol b) = Ok q
    ∧ q == 1 / (0.3 / 5 + 0.7 / 500)
    ∧ q < 16.29
    ∧ ¬ (Qabs (q - 16.39) <= 0.1).
Proof.
  eexists _, _, _, _. cbv zeta.
  split; [vm_compute; reflexivity|].
  do 2 (split; [reflexivity|]).
  do 3 (split; [vm_compute; reflexivity|]).
  split; [reflexivity|]. split; [reflexivity|].
  vm_compute. intros H. apply H. reflexivity.
Qed.

(** The four obligations on the balance terms of one phase label, on a
    block whose fields are computed. *)
Ltac when_Mix :=
  first [ intros Hne; exfalso; apply Hne; reflexivity
        | intros _; repeat eexists ].

Ltac scaling_of_phase :=
  cbv zeta; split; [|split; [|split]];
  [ eexists; split; [reflexivity|];
    split; [first [reflexivity | discriminate]|];
    split; [when_Mix | reflexivity]
  | eexists; split; [reflexivity|]; split; [when_Mix | reflexivity]
  | eexists; split; [reflexivity|];
    first [ intros Hne; exfalso; apply Hne; reflexivity
          | intros _; reflexivity ]
  | let Hname := fresh "Hname" in
    let Hs := fresh "Hs" in
    intros name s Hname Hs q;
    repeat (apply elem_of_cons in Hname as [->|Hname];
            [vm_compute in Hs; injection Hs as <-; discriminate|]);
    apply elem_of_nil in Hname; destruct Hname ].

(** C9 (amended).  For every public phase label, the enthalpy flow term
    is assigned the scaling expression that is the exact reciprocal of
    the term (for a phase other than "Mix" the term is
    [enth_mol_phase[p] * phase_frac[p] * flow_mol]); the energy-density
    term of a phase other than "Mix" is assigned the exact reciprocal of
    the term; and every material flow term is assigned [1 / flow_mol],
    the reciprocal of the total molar flow, whatever the phase.  Each of
    these is an expression in the state, not a numeric constant. *)
Theorem balance_terms_scaling :
  ∀ (sv : StateVars) (pp : PhaseType) (ds : bool)
    (a : HelmholtzParameterBlockData.parameters) (isfile : string → bool),
  ∃ b : HelmholtzStateBlockData.t,
    state_block sv pp ds a isfile = Ok b
    ∧ Forall (λ p : string,
        let se := HelmholtzStateBlockData.scaling_expression b in
        (* material flow terms *)
        (∃ t, getitem (HelmholtzStateBlockData.material_flow_terms b) p
              = Ok t
              ∧ (p = "Mix" → t = EVar Vflow_mol)
              ∧ (p ≠ "Mix" →
                 ∃ f, getitem (HelmholtzStateBlockData.phase_frac b) p = Ok f
                      ∧ t = (EVar Vflow_mol * f)%E)
              ∧ suffix_get se (at_ "material_flow_terms" p)
                = Some (ENum 1 / EVar Vflow_mol)%E)
        (* enthalpy flow terms *)
        ∧ (∃ t, getitem (HelmholtzStateBlockData.enthalpy_flow_terms b) p
                = Ok t
                ∧ (p ≠ "Mix" →
                   ∃ h f,
                     getitem (HelmholtzStateBlockData.enth_mol_phase b) p
                     = Ok h
                     ∧ getitem (HelmholtzStateBlockData.phase_frac b) p
                       = Ok f
                     ∧ t = (h * f * EVar Vflow_mol)%E)
                ∧ suffix_get se (at_ "enthalpy_flow_terms" p)
                  = Some (ENum 1 / t)%E)
        (* energy density terms *)
        ∧ (∃ t, getitem (HelmholtzStateBlockData.energy_density_terms b) p
                = Ok t
                ∧ (p ≠ "Mix" →
                   suffix_get se (at_ "energy_density_terms" p)
                   = Some (ENum 1 / t)%E))
        (* none of the three is a numeric constant *)
        ∧ (∀ name s, name ∈ ["material_flow_terms"; "enthalpy_flow_terms";
                             "energy_density_terms"]%string →
                     suffix_get se (at_ name p) = Some s →
                     ∀ q, s ≠ ENum q))
        (HelmholtzParameterBlockData.phase_list
           (HelmholtzStateBlockData.parameters
              (HelmholtzStateBlockData.config b))).
Proof.
  intros sv pp ds a isfile.
  destruct (state_block_total sv pp ds a isfile) as [b Hb].
  assert (Hc :
    match state_block sv pp ds a isfile with
    | Ok b => Some (HelmholtzParameterBlockData.phase_list
                      (HelmholtzStateBlockData.parameters
                         (HelmholtzStateBlockData.config b)),
                    HelmholtzStateBlockData.scaling_expression b,
                    HelmholtzStateBlockData.material_flow_terms b,
                    HelmholtzStateBlockData.enthalpy_flow_terms b,
                    HelmholtzStateBlockData.energy_density_terms b,
                    HelmholtzStateBlockData.phase_frac b,
                    HelmholtzStateBlockData.enth_mol_phase b)
    | Raise _ => None
    end
    = Some (HelmholtzParameterBlockData.phase_list
              (HelmholtzStateBlockData.parameters
                 (HelmholtzStateBlockData.config b)),
            HelmholtzStateBlockData.scaling_expression b,
            HelmholtzStateBlockData.material_flow_terms b,
            HelmholtzStateBlockData.enthalpy_flow_terms b,
            HelmholtzStateBlockData.energy_density_terms b,
            HelmholtzStateBlockData.phase_frac b,
            HelmholtzStateBlockData.enth_mol_phase b)).
  { rewrite Hb. reflexivity. }
  exists b. split; [exact Hb|].
  destruct sv, pp, ds; computed_lhs Hc;
    injection Hc as <- <- <- <- <- <- <-;
    repeat first
      [apply Forall_nil_2 | apply Forall_cons_2; [scaling_of_phase|]].
Qed.

(** In the two-phase presentation the material flow term of the liquid
    phase is [flow_mol * (1 - vapor_frac)] while its scaling expression is
    [1 / flow_mol]: not the reciprocal of the term.  At a flow of 2 mol/s
    and vapor fraction 0.5 the term is 1 and its scale 1/2. *)
Lemma material_flow_scale_not_reciprocal :
  ∃ (b : HelmholtzStateBlockData.t) (t s : expr) (vt vs : Q),
    let value_of :=
      evaluate example_kernel example_smooth_max
        (HelmholtzStateBlockData.parameters
           (HelmholtzStateBlockData.config b))
        (example_vars 0.5) in
    state_block TPX LG false example_parameters example_isfile = Ok b
    ∧ "Liq" ∈ HelmholtzParameterBlockData.phase_list
                (HelmholtzStateBlockData.parameters
                   (HelmholtzStateBlockData.config b))
    ∧ getitem (HelmholtzStateBlockData.material_flow_terms b) "Liq" = Ok t
    ∧ suffix_get (HelmholtzStateBlockData.scaling_expression b)
        (at_ "material_flow_terms" "Liq") = Some s
    ∧ s ≠ (ENum 1 / t)%E
    ∧ value_of t = Ok vt
    ∧ value_of s = Ok vs
    ∧ vt == 1
    ∧ vs == 1 / 2
    ∧ ¬ (vs == 1 / vt).
Proof.
  eexists _, _, _, _, _. cbv zeta.
  split; [vm_compute; reflexivity|].
  split; [cbn; in_list|].
  do 2 (split; [reflexivity|]).
  split; [discriminate|].
  do 2 (split; [vm_compute; reflexivity|]).
  repeat split; vm_compute; discriminate.
Qed.

(** ** Holding and releasing the state of an indexed block *)

Import _StateBlock.

Lemma fixed_set_fixed (v : VarData) (f : bool) : fixed (_set_fixed v f) = f.
Proof. destruct f; reflexivity. Qed.

(** Hold then release, on one block. *)
Lemma item_round_trip (hold_state : bool) (state_args : option (gmap string Q))
    (b : SB.t) :
  built_shape b →
  ∃ b' f b'',
    initialize_item hold_state state_args b = Ok (b', f)
    ∧ release_item b' f = Ok b''
    ∧ ∀ n, status b'' n = status b n.
Proof.
  intros Hshape. unfold built_shape in Hshape.
  unfold initialize_item, release_item.
  destruct b. cbn in *.
  destruct state_vars.
  - destruct enth_mol as [v|e]; [|destruct Hshape].
    eexists _, _, _. split; [reflexivity|]. split; [reflexivity|].
    intros []; cbn; rewrite ?fixed_set_fixed; reflexivity.
  - destruct Hshape as [HT Hx].
    destruct temperature as [vT|e]; [|destruct HT].
    destruct vapor_frac as [vx|e]; [|destruct Hx].
    destruct (PB.config_phase_presentation (PB.config (SB.parameters config)))
      eqn:Epp;
      (eexists _, _, _; split; [reflexivity|];
       split; [cbn; rewrite Epp; reflexivity|];
       intros []; cbn; rewrite ?fixed_set_fixed; reflexivity).
Qed.

Lemma for_each_cons {A S : Type} (body : A → S → result S) (a : A)
    (l : list A) (s : S) :
  for_each body (a :: l) s = body a s ≫= for_each body l.
Proof. reflexivity. Qed.

Section loops.
Context {K : Type} `{Countable K}.

(** The loop of [initialize] over entries with distinct indices, each
    naming a block of the built shape. *)
Lemma initialize_loop (hold_state : bool)
    (state_args : option (gmap string Q)) (l : list (K * SB.t)) :
  ∀ (m : gmap K SB.t) (fl : gmap K (list bool)),
  NoDup l.*1 →
  (∀ i, i ∈ l.*1 → ∃ b, m !! i = Some b ∧ built_shape b) →
  ∃ m' fl',
    for_each (initialize_step hold_state state_args) l (m, fl)
    = Ok (m', fl')
    ∧ (∀ j, j ∉ l.*1 → m' !! j = m !! j ∧ fl' !! j = fl !! j)
    ∧ (∀ j, j ∈ l.*1 →
         ∃ b b' f, m !! j = Some b
                   ∧ initialize_item hold_state state_args b = Ok (b', f)
                   ∧ m' !! j = Some b' ∧ fl' !! j = Some f).
Proof.
  induction l as [|[i x] l IH]; intros m fl Hnd Hall.
  - exists m, fl. split; [reflexivity|]. split; [auto|].
    intros j Hj. cbn in Hj. apply elem_of_nil in Hj. destruct Hj.
  - cbn in Hnd. apply NoDup_cons in Hnd as [Hi Hnd].
    destruct (Hall i) as (b & Hb & Hshape); [cbn; left|].
    destruct (item_round_trip hold_state state_args b Hshape)
      as (b' & f & b'' & Hinit & _ & _).
    destruct (IH (<[i := b']> m) (<[i := f]> fl) Hnd)
      as (m' & fl' & Hrun & Hout & Hin).
    { intros j Hj. assert (i ≠ j) by (intros ->; contradiction).
      rewrite lookup_insert_ne by assumption.
      apply Hall. cbn. right. exact Hj. }
    exists m', fl'. split; [|split].
    + assert (Hstep : initialize_step hold_state state_args (i, x) (m, fl)
                      = Ok (<[i := b']> m, <[i := f]> fl)).
      { unfold initialize_step, block_at. cbn [fst snd].
        rewrite Hb, bind_Ok, Hinit. reflexivity. }
      rewrite for_each_cons, Hstep, bind_Ok. exact Hrun.
    + intros j Hj. cbn in Hj. apply not_elem_of_cons in Hj as [Hji Hj].
      destruct (Hout j Hj) as [-> ->].
      rewrite !lookup_insert_ne by congruence. split; reflexivity.
    + intros j Hj. cbn in Hj. apply elem_of_cons in Hj as [->|Hj].
      * destruct (Hout i Hi) as [Hm Hf].
        exists b, b', f. rewrite Hm, Hf, !lookup_insert_eq. auto.
      * assert (i ≠ j) by (intros ->; contradiction).
        destruct (Hin j Hj) as (c & c' & g & Hc & Hci & Hm & Hf).
        rewrite lookup_insert_ne in Hc by assumption.
        exists c, c', g. auto.
Qed.

(** The loop of [release_state] over entries with distinct indices, each
    releasing without error. *)
Lemma release_loop (l : list (K * list bool)) :
  ∀ m : gmap K SB.t,
  NoDup l.*1 →
  (∀ i f, (i, f) ∈ l →
     ∃ b b'', m !! i = Some b ∧ release_item b f = Ok b'') →
  ∃ m',
    for_each release_step l m = Ok m'
    ∧ (∀ j, j ∉ l.*1 → m' !! j = m !! j)
    ∧ (∀ j f, (j, f) ∈ l →
         ∃ b b'', m !! j = Some b ∧ release_item b f = Ok b''
                  ∧ m' !! j = Some b'').
Proof.
  induction l as [|[i f] l IH]; intros m Hnd Hall.
  - exists m. split; [reflexivity|]. split; [auto|].
    intros j g Hj. apply elem_of_nil in Hj. destruct Hj.
  - cbn in Hnd. apply NoDup_cons in Hnd as [Hi Hnd].
    destruct (Hall i f) as (b & b'' & Hb & Hrel); [left|].
    destruct (IH (<[i := b'']> m) Hnd) as (m' & Hrun & Hout & Hin).
    { intros j g Hj.
      assert (i ≠ j).
      { intros ->. apply Hi. apply list_elem_of_fmap.
        exists (j, g). auto. }
      rewrite lookup_insert_ne by assumption.
      apply Hall. right. exact Hj. }
    exists m'. split; [|split].
    + assert (Hstep : release_step (i, f) m = Ok (<[i := b'']> m)).
      { unfold release_step, block_at. cbn [fst snd].
        rewrite Hb, bind_Ok, Hrel. reflexivity. }
      rewrite for_each_cons, Hstep, bind_Ok. exact Hrun.
    + intros j Hj. cbn in Hj. apply not_elem_of_cons in Hj as [Hji Hj].
      rewrite (Hout j Hj), lookup_insert_ne by congruence. reflexivity.
    + intros j g Hj. apply elem_of_cons in Hj as [[= -> ->]|Hj].
      * exists b, b''. rewrite (Hout i Hi), lookup_insert_eq. auto.
      * assert (i ≠ j).
        { intros ->. apply Hi. apply list_elem_of_fmap.
          exists (j, g). auto. }
        destruct (Hin j g Hj) as (c & c'' & Hc & Hcr & Hm).
        rewrite lookup_insert_ne in Hc by assumption.
        exists c, c''. auto.
Qed.

(** C2.  For every collection of state blocks, in every state-variable
    mode and every phase-presentation mode, [initialize] with
    [hold_state = True] followed by [release_state] with the flags it
    returned succeeds and restores the fixed/unfixed status of every
    primary variable of every block to what it was before. *)
Theorem hold_release_restores (self : gmap K SB.t)
    (state_args : option (gmap string Q)) :
  (∀ i b, self !! i = Some b → built_shape b) →
  ∃ (held : gmap K SB.t) (flags : gmap K (list bool))
    (released : gmap K SB.t),
    initialize self true state_args = Ok (held, flags)
    ∧ release_state held flags = Ok released
    ∧ ∀ i n, (λ b, status b n) <$> released !! i
             = (λ b, status b n) <$> self !! i.
Proof.
  intros Hshape.
  destruct (initialize_loop true state_args (map_to_list self) self ∅)
    as (m' & fl' & Hrun & Hout & Hin).
  { apply NoDup_fst_map_to_list. }
  { intros i Hi. apply list_elem_of_fmap in Hi as ([j b] & -> & Hjb).
    apply elem_of_map_to_list in Hjb. exists b. split; [exact Hjb|].
    exact (Hshape _ _ Hjb). }
  assert (Hdom : ∀ j b, self !! j = Some b → j ∈ (map_to_list self).*1).
  { intros j b Hj. apply list_elem_of_fmap. exists (j, b).
    split; [reflexivity|]. apply elem_of_map_to_list. exact Hj. }
  assert (Hnone : ∀ j, self !! j = None → j ∉ (map_to_list self).*1).
  { intros j Hj Hc. apply list_elem_of_fmap in Hc as ([j' b] & -> & Hjb).
    apply elem_of_map_to_list in Hjb. cbn in Hj. congruence. }
  set (held := SB.initialize <$> m').
  assert (Hheld : ∀ j, held !! j = m' !! j).
  { intros j. unfold held. rewrite lookup_fmap.
    destruct (m' !! j); reflexivity. }
  destruct (release_loop (map_to_list fl') held) as (m'' & Hrel & Hout' & Hin').
  { apply NoDup_fst_map_to_list. }
  { intros i f Hif. apply elem_of_map_to_list in Hif.
    destruct (self !! i) as [b|] eqn:Hb.
    - destruct (Hin i (Hdom _ _ Hb)) as (c & c' & g & Hc & Hci & Hm & Hf).
      assert (c = b) by congruence. subst c.
      assert (g = f) by congruence. subst g.
      destruct (item_round_trip true state_args b (Hshape _ _ Hb))
        as (b' & f' & b'' & Hinit & Hr & _).
      rewrite Hinit in Hci. injection Hci as -> ->.
      exists c', b''. rewrite Hheld. auto.
    - destruct (Hout i (Hnone _ Hb)) as [_ Hf].
      rewrite lookup_empty in Hf. congruence. }
  exists held, fl', m''. split; [|split].
  - unfold initialize. rewrite Hrun. reflexivity.
  - exact Hrel.
  - intros i n. destruct (self !! i) as [b|] eqn:Hb.
    + destruct (Hin i (Hdom _ _ Hb)) as (c & c' & g & Hc & Hci & Hm & Hf).
      assert (c = b) by congruence. subst c.
      destruct (item_round_trip true state_args b (Hshape _ _ Hb))
        as (b' & f' & b'' & Hinit & Hr & Hst).
      rewrite Hinit in Hci. injection Hci as -> ->.
      destruct (Hin' i g) as (d & d'' & Hd & Hdr & Hm'').
      { apply elem_of_map_to_list. exact Hf. }
      rewrite Hheld, Hm in Hd. injection Hd as <-.
      rewrite Hr in Hdr. injection Hdr as <-.
      rewrite Hm''. cbn. f_equal. apply Hst.
    + destruct (Hout i (Hnone _ Hb)) as [Hm Hf].
      rewrite lookup_empty in Hf.
      rewrite Hout'.
      * rewrite Hheld, Hm, Hb. reflexivity.
      * intros Hc. apply list_elem_of_fmap in Hc as ([j g] & -> & Hjg).
        apply elem_of_map_to_list in Hjg. cbn in Hf. congruence.
Qed.
End loops.

(** A block keeps the shape [build] gave it. *)
Lemma state_block_built_shape sv pp ds a isfile b :
  state_block sv pp ds a isfile = Ok b → built_shape b.
Proof.
  intros Hb.
  assert (Hall : match state_block sv pp ds a isfile with
                 | Ok b => built_shape b
                 | Raise _ => True
                 end).
  { destruct sv, pp, ds; vm_compute; auto. }
  rewrite Hb in Hall. exact Hall.
Qed.

Lemma with_pressure_built_shape v b :
  built_shape b → built_shape (SB.with_pressure v b).
Proof. intros Hb. exact Hb. Qed.

Lemma example_inlet_built_shape b : example_inlet = Ok b → built_shape b.
Proof.
  unfold example_inlet.
  destruct (state_block TPX LG false example_parameters example_isfile)
    as [b1|e] eqn:E1; [|discriminate].
  rewrite bind_Ok. intros [= <-].
  exact (with_pressure_built_shape _ b1
           (state_block_built_shape _ _ _ _ _ _ E1)).
Qed.

Lemma collect_built_shape (l : list (nat * result SB.t)) :
  Forall (λ ir, ∀ b, ir.2 = Ok b → built_shape b) l →
  ∀ i b, collect l !! i = Some b → built_shape b.
Proof.
  induction 1 as [|[j r] l Hr _ IH]; intros i b Hib.
  - unfold collect in Hib. cbn [foldr] in Hib.
    rewrite lookup_empty in Hib. discriminate.
  - unfold collect in Hib. cbn [foldr fst snd] in Hib. fold (collect l) in Hib.
    destruct r as [c|e]; [|exact (IH i b Hib)].
    apply lookup_insert_Some in Hib as [[_ <-]|[_ Hib]].
    + exact (Hr c eq_refl).
    + exact (IH i b Hib).
Qed.

Lemma example_blocks_built_shape :
  ∀ i b, example_blocks !! i = Some b → built_shape b.
Proof.
  apply collect_built_shape.
  repeat apply Forall_cons_2; try apply Forall_nil_2; cbn [snd].
  - apply state_block_built_shape.
  - apply example_inlet_built_shape.
  - apply state_block_built_shape.
Qed.

(** Hold and release on the three example blocks. *)
Lemma hold_release_restores_witness :
  (∀ i b, example_blocks !! i = Some b → built_shape b)
  ∧ ∃ (held : gmap nat SB.t) (flags : gmap nat (list bool))
      (released : gmap nat SB.t),
      initialize example_blocks true None = Ok (held, flags)
      ∧ release_state held flags = Ok released
      ∧ ∀ i n, (λ b, status b n) <$> released !! i
               = (λ b, status b n) <$> example_blocks !! i.
Proof.
  split.
  - exact example_blocks_built_shape.
  - exact (hold_release_restores example_blocks None
             example_blocks_built_shape).
Defined.


(** ** Single-phase presentation *)

(** A built block records the two modes it was built for. *)
Lemma state_block_modes sv pp ds a isfile b :
  state_block sv pp ds a isfile = Ok b →
  SB.state_vars b = sv
  ∧ PB.config_phase_presentation (PB.config (SB.parameters (SB.config b)))
    = pp.
Proof.
  intros Hb.
  assert (Hc :
    match state_block sv pp ds a isfile with
    | Ok b => Some (SB.state_vars b,
                    PB.config_phase_presentation
                      (PB.config (SB.parameters (SB.config b))))
    | Raise _ => None
    end
    = Some (SB.state_vars b,
            PB.config_phase_presentation
              (PB.config (SB.parameters (SB.config b))))).
  { rewrite Hb. reflexivity. }
  destruct sv, pp, ds; computed_lhs Hc; injection Hc as <- <-;
    split; reflexivity.
Qed.

(** Hold then release, on one block that does not list the vapor fraction
    among its state variables: the vapor fraction is not touched. *)
Lemma item_vapor_frac_untouched (hold_state : bool)
    (state_args : option (gmap string Q)) (b : SB.t) :
  built_shape b →
  SB.state_vars b = PH
  ∨ PB.config_phase_presentation (PB.config (SB.parameters (SB.config b))) = L
  ∨ PB.config_phase_presentation (PB.config (SB.parameters (SB.config b))) = G
  →
  ∃ held flags released,
    initialize_item hold_state state_args b = Ok (held, flags)
    ∧ release_item held flags = Ok released
    ∧ SB.vapor_frac held = SB.vapor_frac b
    ∧ SB.vapor_frac released = SB.vapor_frac b.
Proof.
  intros Hshape Hmode. unfold built_shape in Hshape.
  unfold initialize_item, release_item.
  destruct b. cbn in *.
  destruct state_vars.
  - destruct enth_mol as [v|e]; [|destruct Hshape].
    eexists _, _, _. repeat split; reflexivity.
  - destruct Hshape as [HT Hx].
    destruct temperature as [vT|e]; [|destruct HT].
    destruct (PB.config_phase_presentation (PB.config (SB.parameters config)))
      eqn:Epp;
      try (destruct Hmode as [Hm|[Hm|Hm]]; discriminate Hm);
      (eexists _, _, _; split; [reflexivity|];
       split; [cbn; rewrite Epp; reflexivity|];
       split; reflexivity).
Qed.

(** C5.  In the single-phase presentation modes the vapor fraction is
    held at 0 (liquid only) or 1 (vapor only), as a fixed variable in TPX
    mode and as a constant expression in PH mode, and no complementarity
    constraint is built.  Holding and releasing the state of the block
    leaves its vapor fraction as it is. *)
Theorem single_phase_vapor_frac :
  ∀ (sv : StateVars) (pp : PhaseType) (ds : bool)
    (a : HelmholtzParameterBlockData.parameters) (isfile : string → bool),
  pp = L ∨ pp = G →
  ∃ b : HelmholtzStateBlockData.t,
    state_block sv pp ds a isfile = Ok b
    ∧ HelmholtzStateBlockData.eq_complementarity b = None
    ∧ (let x : Q := match pp with G => 1 | _ => 0 end in
       match sv with
       | TPX =>
         ∃ v, HelmholtzStateBlockData.vapor_frac b = CVar v
              ∧ fixed v = true ∧ value v = x
       | PH => HelmholtzStateBlockData.vapor_frac b = CExpr (ENum x)
       end)
    ∧ (∀ (hold_state : bool) (state_args : option (gmap string Q)),
       ∃ (held : HelmholtzStateBlockData.t) (flags : list bool)
         (released : HelmholtzStateBlockData.t),
         _StateBlock.initialize_item hold_state state_args b
         = Ok (held, flags)
         ∧ _StateBlock.release_item held flags = Ok released
         ∧ HelmholtzStateBlockData.vapor_frac held
           = HelmholtzStateBlockData.vapor_frac b
         ∧ HelmholtzStateBlockData.vapor_frac released
           = HelmholtzStateBlockData.vapor_frac b).
Proof.
  intros sv pp ds a isfile Hpp.
  destruct (state_block_total sv pp ds a isfile) as [b Hb].
  destruct (state_block_modes _ _ _ _ _ _ Hb) as [Hsv Hmode].
  assert (Hc :
    match state_block sv pp ds a isfile with
    | Ok b => Some (SB.eq_complementarity b, SB.vapor_frac b)
    | Raise _ => None
    end
    = Some (SB.eq_complementarity b, SB.vapor_frac b)).
  { rewrite Hb. reflexivity. }
  exists b. split; [exact Hb|].
  split; [|split].
  - destruct Hpp as [-> | ->]; destruct sv, ds; computed_lhs Hc;
      injection Hc as <- _; reflexivity.
  - destruct Hpp as [-> | ->]; destruct sv, ds; computed_lhs Hc;
      injection Hc as _ <-; cbn;
      first [reflexivity | eexists; repeat split].
  - intros hold_state state_args.
    apply item_vapor_frac_untouched.
    + exact (state_block_built_shape _ _ _ _ _ _ Hb).
    + right. rewrite Hmode. destruct Hpp; [left | right]; assumption.
Qed.

Lemma single_phase_vapor_frac_witness :
  ∃ b : HelmholtzStateBlockData.t,
    state_block TPX G false example_parameters example_isfile = Ok b
    ∧ HelmholtzStateBlockData.eq_complementarity b = None
    ∧ ∃ v, HelmholtzStateBlockData.vapor_frac b = CVar v
           ∧ fixed v = true ∧ value v = 1.
Proof.
  destruct (single_phase_vapor_frac TPX G false example_parameters
              example_isfile (or_intror eq_refl))
    as (b & Hb & Hc & Hv & _).
  exists b. split; [exact Hb|]. split; [exact Hc|]. exact Hv.
Defined.

(** ** The energy-density term of the mixed phase

    Left out of the statement on the balance terms above: for the label
    "Mix" the energy-density term is [dens_mol * energy_internal_mol]
    while its scaling expression is
    [1 / (energy_internal_mol * flow_mol)], the shape of the enthalpy
    flow term. *)
Lemma energy_density_Mix_scale :
  ∀ (sv : StateVars) (ds : bool)
    (a : HelmholtzParameterBlockData.parameters) (isfile : string → bool),
  ∃ (b : HelmholtzStateBlockData.t) (t s : expr),
    state_block sv MIX ds a isfile = Ok b
    ∧ getitem (HelmholtzStateBlockData.energy_density_terms b) "Mix" = Ok t
    ∧ suffix_get (HelmholtzStateBlockData.scaling_expression b)
        (at_ "energy_density_terms" "Mix") = Some s
    ∧ t = (HelmholtzStateBlockData.dens_mol b
           * HelmholtzStateBlockData.energy_internal_mol b)%E
    ∧ s = (ENum 1 / (HelmholtzStateBlockData.energy_internal_mol b
                     * EVar Vflow_mol))%E
    ∧ s ≠ (ENum 1 / t)%E.
Proof.
  intros sv ds a isfile.
  destruct sv, ds;
    (eexists _, _, _; split; [vm_compute; reflexivity|];
     do 4 (split; [reflexivity|]); discriminate).
Qed.


(** * Further properties *)

(** ** The point-conversion utility, continued *)

(** X1.  With the vapor fraction supplied, the argument checks passed and
    [T] nonzero, [_htpx] returns the blend
    [h_liq * (1 - x) + h_vap * x] of the saturated liquid and vapor
    enthalpies at the saturation pressure of [T]: the saturated liquid
    enthalpy at [x = 0], the saturated vapor enthalpy at [x = 1], and
    [h_liq + x * (h_vap - h_liq)] in between. *)
Theorem htpx_vapor_fraction_blend (T x Tmin Tmax Pmin Pmax : Q)
    (prop : PropHandle) :
  let k := prop_kernel prop in
  let tau := prop_temperature_crit prop / T in
  let Psat := call1 k func_p_sat tau in
  let h_liq := call2 k func_hlpt Psat tau * prop_mw prop * 1000 in
  let h_vap := call2 k func_hvpt Psat tau * prop_mw prop * 1000 in
  _htpx_check_args T None (Some x) Tmin Tmax Pmin Pmax = Ok tt →
  ¬ T == 0 →
  ∃ h, _htpx T (Some prop) None (Some x) Tmin Tmax Pmin Pmax = Ok (Some h)
       ∧ h = h_liq * (1 - x) + h_vap * x
       ∧ h == h_liq + x * (h_vap - h_liq)
       ∧ (x == 0 → h == h_liq)
       ∧ (x == 1 → h == h_vap).
Proof.
  intros k tau Psat h_liq h_vap Hargs HT.
  eexists. split.
  - unfold _htpx. rewrite Hargs. cbn.
    rewrite (pydiv_ok _ T HT). reflexivity.
  - subst k tau Psat h_liq h_vap. cbv beta.
    split; [reflexivity|]. split; [ring|].
    split; intros Hx; rewrite Hx; ring.
Qed.

Lemma htpx_vapor_fraction_blend_witness :
  _htpx_check_args 372 None (Some 0.5)
    Tmin_default Tmax_default Pmin_default Pmax_default = Ok tt
  ∧ ∃ h, _htpx 372 (Some example_prop) None (Some 0.5)
           Tmin_default Tmax_default Pmin_default Pmax_default = Ok (Some h)
         ∧ h == 400 * 0.018 * 1000 + 0.5 * (2600 * 0.018 * 1000
                                            - 400 * 0.018 * 1000).
Proof.
  split; [reflexivity|].
  destruct (htpx_vapor_fraction_blend 372 0.5
              Tmin_default Tmax_default Pmin_default Pmax_default
              example_prop)
    as (h & Hh & _ & Hblend & _).
  - reflexivity.
  - vm_compute. discriminate.
  - exists h. split; [exact Hh|]. exact Hblend.
Defined.

(** X2.  Whatever its arguments, [_htpx] ends in one of four ways: it
    returns a number, or raises a configuration error, an attribute error
    (no property block) or a division by zero.  It never falls off its end
    returning [None], and never fails on a missing [P]. *)
Theorem htpx_outcomes :
  ∀ T prop P x Tmin Tmax Pmin Pmax,
    (∃ h, _htpx T prop P x Tmin Tmax Pmin Pmax = Ok (Some h))
    ∨ _htpx T prop P x Tmin Tmax Pmin Pmax = Raise ConfigurationError
    ∨ _htpx T prop P x Tmin Tmax Pmin Pmax = Raise AttributeError
    ∨ _htpx T prop P x Tmin Tmax Pmin Pmax = Raise ZeroDivisionError.
Proof.
  intros T prop P x Tmin Tmax Pmin Pmax.
  pose proof (_htpx_check_args_ok T P x Tmin Tmax Pmin Pmax) as Hok.
  unfold _htpx.
  destruct (_htpx_check_args_result T P x Tmin Tmax Pmin Pmax) as [E|E];
    rewrite E in *; cbn; [|auto].
  destruct Hok as [Hok _]. destruct (Hok eq_refl) as (Hx & _).
  unfold _htpx_body. destruct prop as [prop|]; [|auto].
  destruct x as [x0|], P as [p|]; cbn in Hx; try congruence; cbn.
  - unfold pydiv. destruct (Qeq_bool T 0); cbn; eauto.
  - unfold pydiv.
    destruct (Qeq_bool (call1 _ func_tau_sat _) 0); cbn; [auto|].
    destruct (_ || _); destruct (Qeq_bool T 0); cbn; eauto.
Qed.

(** X3.  [_htpx] raises an attribute error exactly when its arguments
    pass the checks and no property block is given: with [prop] left at
    its default the function never returns a value. *)
Theorem htpx_without_prop :
  ∀ T prop P x Tmin Tmax Pmin Pmax,
    (_htpx T prop P x Tmin Tmax Pmin Pmax = Raise AttributeError ↔
     _htpx_check_args T P x Tmin Tmax Pmin Pmax = Ok tt ∧ prop = None)
    ∧ ∀ h, _htpx T None P x Tmin Tmax Pmin Pmax ≠ Ok h.
Proof.
  intros T prop P x Tmin Tmax Pmin Pmax.
  pose proof (_htpx_check_args_ok T P x Tmin Tmax Pmin Pmax) as Hok.
  unfold _htpx.
  destruct (_htpx_check_args_result T P x Tmin Tmax Pmin Pmax) as [E|E];
    rewrite E in *; cbn.
  - destruct Hok as [Hok _]. destruct (Hok eq_refl) as (Hx & _).
    split; [|discriminate].
    unfold _htpx_body. destruct prop as [prop|].
    + split; [|intros [_ Hn]; discriminate].
      destruct x as [x0|], P as [p|]; cbn in Hx; try congruence; cbn.
      * unfold pydiv. destruct (Qeq_bool T 0); cbn; discriminate.
      * unfold pydiv.
        destruct (Qeq_bool (call1 _ func_tau_sat _) 0); cbn; [discriminate|].
        destruct (_ || _); destruct (Qeq_bool T 0); cbn; discriminate.
    + split; auto.
  - split; [|discriminate]. split; [discriminate|]. intros [Hc _]. discriminate.
Qed.

(** X4.  With a property block, [_htpx] raises a division by zero
    exactly when its arguments pass the checks and either [T] is zero or
    the pressure is supplied and the kernel's saturation function
    [func_tau_sat] is zero there. *)
Theorem htpx_zero_division_iff :
  ∀ T (prop : PropHandle) P x Tmin Tmax Pmin Pmax,
    _htpx T (Some prop) P x Tmin Tmax Pmin Pmax = Raise ZeroDivisionError ↔
    _htpx_check_args T P x Tmin Tmax Pmin Pmax = Ok tt
    ∧ (T == 0
       ∨ ∃ p, P = Some p
              ∧ call1 (prop_kernel prop) func_tau_sat (p / 1000) == 0).
Proof.
  intros T prop P x Tmin Tmax Pmin Pmax.
  pose proof (_htpx_check_args_ok T P x Tmin Tmax Pmin Pmax) as Hok.
  unfold _htpx.
  destruct (_htpx_check_args_result T P x Tmin Tmax Pmin Pmax) as [E|E];
    rewrite E in *; cbn;
    [|split; [discriminate | intros [Hc _]; discriminate]].
  destruct Hok as [Hok _]. destruct (Hok eq_refl) as (Hx & _).
  destruct x as [x0|], P as [p|]; cbn in Hx; try congruence; cbn.
  - unfold pydiv. destruct (Qeq_bool T 0) eqn:ET; cbn.
    + apply Qeq_bool_iff in ET. split; auto.
    + split; [discriminate|]. intros [_ [HT|(p & Hp & _)]]; [|discriminate].
      apply Qeq_bool_iff in HT. congruence.
  - unfold pydiv.
    destruct (Qeq_bool (call1 _ func_tau_sat _) 0) eqn:Es; cbn.
    + apply Qeq_bool_iff in Es. split; [|reflexivity].
      intros _. split; [reflexivity|]. right. eauto.
    + assert (Hs : ¬ call1 (prop_kernel prop) func_tau_sat (p / 1000) == 0).
      { intros Hs. apply Qeq_bool_iff in Hs. congruence. }
      destruct (_ || _); destruct (Qeq_bool T 0) eqn:ET; cbn.
      all: try (apply Qeq_bool_iff in ET; split; auto).
      all: split; [discriminate|].
      all: intros [_ [HT|(q & [= <-] & Hq)]];
        [apply Qeq_bool_iff in HT; congruence | contradiction].
Qed.

(** X5.  Bounds that leave no admissible temperature reject every call:
    if [Tmax < Tmin] then [_htpx] raises a configuration error whatever
    the other arguments. *)
Theorem htpx_empty_temperature_range :
  ∀ T prop P x Tmin Tmax Pmin Pmax,
    Tmax < Tmin →
    _htpx T prop P x Tmin Tmax Pmin Pmax = Raise ConfigurationError.
Proof.
  intros T prop P x Tmin Tmax Pmin Pmax Hlt.
  pose proof (_htpx_check_args_ok T P x Tmin Tmax Pmin Pmax) as Hok.
  unfold _htpx.
  destruct (_htpx_check_args_result T P x Tmin Tmax Pmin Pmax) as [E|E];
    rewrite E in *; cbn; [|reflexivity].
  destruct Hok as [Hok _]. destruct (Hok eq_refl) as (_ & [H1 H2] & _).
  exfalso. apply (Qlt_not_le _ _ Hlt). exact (Qle_trans _ _ _ H1 H2).
Qed.

Lemma htpx_empty_temperature_range_witness :
  _htpx 372 (Some example_prop) (Some 101325) None 1200 200 1 1e9
  = Raise ConfigurationError.
Proof.
  apply htpx_empty_temperature_range. vm_compute. reflexivity.
Defined.


(** ** Holding and releasing, continued *)

Lemma fixed_hold_var h sa name v :
  fixed (hold_var h sa name v) = h || fixed v.
Proof.
  unfold hold_var, when, assign_unless_fixed.
  destruct h, sa as [m|]; cbn; try reflexivity;
    destruct (fixed v) eqn:E; cbn; try (rewrite E; reflexivity);
    destruct (m !! name); cbn; rewrite ?E; reflexivity.
Qed.

Lemma value_hold_var h sa name v :
  value (hold_var h sa name v)
  = if fixed v then value v
    else match sa ≫= (λ m : gmap string Q, m !! name) with
         | Some x => x
         | None => value v
         end.
Proof.
  unfold hold_var, when, assign_unless_fixed.
  destruct h, sa as [m|]; cbn; destruct (fixed v); cbn; try reflexivity;
    destruct (m !! name); reflexivity.
Qed.

Lemma set_fixed_fix (v : VarData) : _set_fixed (fix_ v) (fixed v) = v.
Proof. destruct v as [x [] d bd]; reflexivity. Qed.

Lemma set_fixed_same (v : VarData) : _set_fixed v (fixed v) = v.
Proof. destruct v as [x [] d bd]; reflexivity. Qed.

(** The status and the value of a variable of a block. *)
Lemma status_attribute b n :
  status b n = component_status (attribute b n).
Proof. destruct n; reflexivity. Qed.

Ltac names_cases Hn :=
  repeat (apply elem_of_cons in Hn as [Hn|Hn]; [try discriminate Hn|]);
  try (apply elem_of_nil in Hn; destruct Hn).

(** What one pass of [initialize] does to a block of the built shape. *)
Lemma initialize_item_spec (hold_state : bool)
    (state_args : option (gmap string Q)) (b : SB.t) :
  built_shape b →
  ∃ b' f,
    initialize_item hold_state state_args b = Ok (b', f)
    ∧ Some <$> f = status b <$> held_names b
    ∧ built_shape b'
    ∧ held_names b' = held_names b
    ∧ (∀ n, n ∈ held_names b →
         status b' n = (orb hold_state) <$> status b n
         ∧ values_of b' n
           = if default false (status b n) then values_of b n
             else match state_args ≫= (λ m : gmap string Q, m !! key_of n)
                  with
                  | Some x => Some x
                  | None => values_of b n
                  end)
    ∧ (∀ n, n ∉ held_names b → attribute b' n = attribute b n).
Proof.
  intros Hshape. unfold built_shape in Hshape.
  unfold initialize_item, held_names, values_of, built_shape.
  destruct b. cbn in *.
  destruct state_vars.
  - destruct enth_mol as [v|e]; [|destruct Hshape].
    eexists _, _. split; [reflexivity|]. cbn.
    split; [reflexivity|]. split; [exact I|]. split; [reflexivity|]. split.
    + intros n Hn. names_cases Hn; subst n; cbn;
        rewrite fixed_hold_var, value_hold_var;
        (split; [reflexivity|]);
        match goal with |- context [fixed ?v] => destruct (fixed v) end;
        cbn; try reflexivity;
        destruct state_args as [m|]; cbn; try reflexivity;
        match goal with |- context [?m !! ?k] => destruct (m !! k) end;
        reflexivity.
    + intros n Hn. destruct n; try reflexivity;
        exfalso; apply Hn; in_list.
  - destruct Hshape as [HT Hx].
    destruct temperature as [vT|e]; [|destruct HT].
    destruct vapor_frac as [vx|e]; [|destruct Hx].
    destruct (PB.config_phase_presentation (PB.config (SB.parameters config)))
      eqn:Epp;
      (eexists _, _; split; [reflexivity|]; cbn; rewrite ?Epp;
       split; [reflexivity|]; split; [split; exact I|];
       split; [reflexivity|]; split;
       [ intros n Hn; names_cases Hn; subst n; cbn;
         rewrite fixed_hold_var, value_hold_var;
         (split; [reflexivity|]);
         match goal with |- context [fixed ?v] => destruct (fixed v) end;
         cbn; try reflexivity;
         destruct state_args as [m|]; cbn; try reflexivity;
         match goal with |- context [?m !! ?k] => destruct (m !! k) end;
         reflexivity
       | intros n Hn; destruct n; try reflexivity;
         exfalso; apply Hn; in_list ]).
Qed.

(** One pass of [initialize] without hold and without [state_args]
    leaves the block as it is. *)
Lemma initialize_item_idle (b : SB.t) :
  built_shape b → ∃ f, initialize_item false None b = Ok (b, f).
Proof.
  intros Hshape. unfold built_shape in Hshape. unfold initialize_item.
  destruct b. cbn in *.
  destruct state_vars.
  - destruct enth_mol as [v|e]; [|destruct Hshape].
    eexists. reflexivity.
  - destruct Hshape as [HT Hx].
    destruct temperature as [vT|e]; [|destruct HT].
    destruct vapor_frac as [vx|e]; [|destruct Hx].
    destruct (PB.config_phase_presentation _); eexists; reflexivity.
Qed.

(** Hold without [state_args], then release: the block is back. *)
Lemma item_round_trip_exact (b : SB.t) :
  built_shape b →
  ∃ b' f, initialize_item true None b = Ok (b', f)
          ∧ release_item b' f = Ok b.
Proof.
  intros Hshape. unfold built_shape in Hshape.
  unfold initialize_item, release_item.
  destruct b. cbn in *.
  destruct state_vars.
  - destruct enth_mol as [v|e]; [|destruct Hshape].
    eexists _, _. split; [reflexivity|]. cbn.
    rewrite !set_fixed_fix. reflexivity.
  - destruct Hshape as [HT Hx].
    destruct temperature as [vT|e]; [|destruct HT].
    destruct vapor_frac as [vx|e]; [|destruct Hx].
    destruct (PB.config_phase_presentation (PB.config (SB.parameters config)))
      eqn:Epp;
      (eexists _, _; split; [reflexivity|]; cbn; rewrite Epp; cbn;
       rewrite !set_fixed_fix; reflexivity).
Qed.


Section bulk.
Context {K : Type} `{Countable K}.

(** [initialize] block by block. *)
Lemma initialize_pointwise (self : gmap K SB.t) (hold_state : bool)
    (state_args : option (gmap string Q)) :
  (∀ i b, self !! i = Some b → built_shape b) →
  ∃ held flags,
    initialize self hold_state state_args = Ok (held, flags)
    ∧ ∀ i,
        match self !! i with
        | None => held !! i = None ∧ flags !! i = None
        | Some b =>
          ∃ b' f, initialize_item hold_state state_args b = Ok (b', f)
                  ∧ held !! i = Some b' ∧ flags !! i = Some f
        end.
Proof.
  intros Hshape.
  destruct (initialize_loop hold_state state_args (map_to_list self) self ∅)
    as (m' & fl' & Hrun & Hout & Hin).
  { apply NoDup_fst_map_to_list. }
  { intros i Hi. apply list_elem_of_fmap in Hi as ([j b] & -> & Hjb).
    apply elem_of_map_to_list in Hjb. exists b. split; [exact Hjb|].
    exact (Hshape _ _ Hjb). }
  exists (SB.initialize <$> m'), fl'. split.
  { unfold initialize. rewrite Hrun. reflexivity. }
  intros i. rewrite lookup_fmap.
  destruct (self !! i) as [b|] eqn:Hb.
  - destruct (Hin i) as (c & c' & g & Hc & Hci & Hm & Hf).
    { apply list_elem_of_fmap. exists (i, b).
      split; [reflexivity|]. apply elem_of_map_to_list. exact Hb. }
    assert (c = b) by congruence. subst c.
    exists c', g. rewrite Hm. auto.
  - destruct (Hout i) as [Hm Hf].
    { intros Hc. apply list_elem_of_fmap in Hc as ([j b] & -> & Hjb).
      apply elem_of_map_to_list in Hjb. cbn in Hb. congruence. }
    rewrite Hm, Hf, Hb, lookup_empty. auto.
Qed.

(** X7.  With [hold_state = False], [initialize] changes no fixed
    flag; without [state_args] as well it hands the blocks back as they
    were. *)
Theorem initialize_without_hold (self : gmap K SB.t)
    (state_args : option (gmap string Q)) :
  (∀ i b, self !! i = Some b → built_shape b) →
  ∃ held flags,
    initialize self false state_args = Ok (held, flags)
    ∧ (∀ i n, (λ b, status b n) <$> held !! i
              = (λ b, status b n) <$> self !! i)
    ∧ (state_args = None → held = self).
Proof.
  intros Hshape.
  destruct (initialize_pointwise self false state_args Hshape)
    as (held & flags & Hrun & Hpt).
  exists held, flags. split; [exact Hrun|]. split.
  - intros i n. specialize (Hpt i). destruct (self !! i) as [b|] eqn:Hb.
    + destruct Hpt as (b' & f & Hinit & -> & _). cbn. f_equal.
      destruct (initialize_item_spec false state_args b (Hshape _ _ Hb))
        as (c' & g & Hinit' & _ & _ & _ & Hin & Hout).
      rewrite Hinit in Hinit'. injection Hinit' as <- <-.
      destruct (decide (n ∈ held_names b)) as [Hn|Hn].
      * destruct (Hin n Hn) as [-> _]. destruct (status b n); reflexivity.
      * rewrite !status_attribute, (Hout n Hn). reflexivity.
    + destruct Hpt as [-> _]. reflexivity.
  - intros ->. apply map_eq. intros i. specialize (Hpt i).
    destruct (self !! i) as [b|] eqn:Hb.
    + destruct Hpt as (b' & f & Hinit & -> & _).
      destruct (initialize_item_idle b (Hshape _ _ Hb)) as [g Hidle].
      rewrite Hinit in Hidle. injection Hidle as -> _. reflexivity.
    + destruct Hpt as [-> _]. reflexivity.
Qed.

(** X8.  What [initialize] assigns: a state variable that was fixed
    keeps its value; one that was not fixed takes the value [state_args]
    gives under its name, and keeps its value when [state_args] is absent
    or has no such key; an attribute outside the state variables of the
    block's mode (the vapor fraction of a single-phase TPX block) is not
    touched, whatever [state_args] holds. *)
Theorem initialize_assigns (self : gmap K SB.t) (hold_state : bool)
    (state_args : option (gmap string Q)) :
  (∀ i b, self !! i = Some b → built_shape b) →
  ∃ held flags,
    initialize self hold_state state_args = Ok (held, flags)
    ∧ ∀ i b, self !! i = Some b →
        ∃ b', held !! i = Some b'
          ∧ (∀ n, n ∈ held_names b →
               values_of b' n
               = if default false (status b n) then values_of b n
                 else match state_args
                            ≫= (λ m : gmap string Q, m !! key_of n) with
                      | Some x => Some x
                      | None => values_of b n
                      end)
          ∧ (∀ n, n ∉ held_names b → attribute b' n = attribute b n).
Proof.
  intros Hshape.
  destruct (initialize_pointwise self hold_state state_args Hshape)
    as (held & flags & Hrun & Hpt).
  exists held, flags. split; [exact Hrun|].
  intros i b Hb. specialize (Hpt i). rewrite Hb in Hpt.
  destruct Hpt as (b' & f & Hinit & Hh & _).
  destruct (initialize_item_spec hold_state state_args b (Hshape _ _ Hb))
    as (c' & g & Hinit' & _ & _ & _ & Hin & Hout).
  rewrite Hinit in Hinit'. injection Hinit' as <- <-.
  exists b'. split; [exact Hh|]. split; [|exact Hout].
  intros n Hn. exact (proj2 (Hin n Hn)).
Qed.

(** [release_state] block by block, when every entry of the flags can be
    released. *)
Lemma release_pointwise (self : gmap K SB.t) (flags : gmap K (list bool)) :
  (∀ i f, flags !! i = Some f →
     ∃ b b'', self !! i = Some b ∧ release_item b f = Ok b'') →
  ∃ released,
    release_state self flags = Ok released
    ∧ ∀ i,
        match flags !! i with
        | None => released !! i = self !! i
        | Some f =>
          ∃ b b'', self !! i = Some b ∧ release_item b f = Ok b''
                   ∧ released !! i = Some b''
        end.
Proof.
  intros Hall.
  destruct (release_loop (map_to_list flags) self) as (m' & Hrun & Hout & Hin).
  { apply NoDup_fst_map_to_list. }
  { intros i f Hif. apply elem_of_map_to_list in Hif. exact (Hall i f Hif). }
  exists m'. split; [exact Hrun|].
  intros i. destruct (flags !! i) as [f|] eqn:Hf.
  - apply Hin. apply elem_of_map_to_list. exact Hf.
  - apply Hout. intros Hc.
    apply list_elem_of_fmap in Hc as ([j g] & -> & Hjg).
    apply elem_of_map_to_list in Hjg. cbn in Hf. congruence.
Qed.

(** X9.  Without [state_args], holding the state and releasing it with
    the returned flags gives back the blocks exactly as they were: fixed
    flags, values, and everything else. *)
Theorem hold_release_identity (self : gmap K SB.t) :
  (∀ i b, self !! i = Some b → built_shape b) →
  ∃ held flags,
    initialize self true None = Ok (held, flags)
    ∧ release_state held flags = Ok self.
Proof.
  intros Hshape.
  destruct (initialize_pointwise self true None Hshape)
    as (held & flags & Hrun & Hpt).
  exists held, flags. split; [exact Hrun|].
  destruct (release_pointwise held flags) as (released & Hrel & Hrpt).
  { intros i f Hf. specialize (Hpt i).
    destruct (self !! i) as [b|] eqn:Hb.
    - destruct Hpt as (b' & g & Hinit & Hh & Hg).
      assert (g = f) by congruence. subst g.
      destruct (item_round_trip_exact b (Hshape _ _ Hb))
        as (c' & g & Hinit' & Hback).
      rewrite Hinit in Hinit'. injection Hinit' as <- <-.
      exists b', b. auto.
    - destruct Hpt as [_ Hn]. congruence. }
  rewrite Hrel. f_equal. apply map_eq. intros i.
  specialize (Hpt i). specialize (Hrpt i).
  destruct (self !! i) as [b|] eqn:Hb.
  - destruct Hpt as (b' & f & Hinit & Hh & Hf). rewrite Hf in Hrpt.
    destruct Hrpt as (c & c'' & Hc & Hcr & ->).
    assert (c = b') by congruence. subst c.
    destruct (item_round_trip_exact b (Hshape _ _ Hb))
      as (d' & g & Hinit' & Hback).
    rewrite Hinit in Hinit'. injection Hinit' as <- <-.
    congruence.
  - destruct Hpt as [Hh Hf]. rewrite Hf in Hrpt. congruence.
Qed.
End bulk.


Ltac released_block :=
  split;
  [ intros [|[|[|[|k]]]] n; cbn; intros Hk; inversion Hk; subst; cbn;
    rewrite ?fixed_set_fixed; reflexivity
  | split;
    [ intros n Hn; destruct n; try reflexivity; exfalso; apply Hn; in_list
    | intros []; cbn; try reflexivity;
      match goal with |- context [_set_fixed ?v ?x] =>
        destruct x; reflexivity end ] ].

(** What [release_state] does to one block of the built shape: with at
    least as many flags as the block has state variables it sets their
    fixed status from the flags, in order, and changes nothing else; with
    fewer it raises [IndexError]. *)
Lemma release_item_spec (b : SB.t) (f : list bool) :
  built_shape b →
  (length (held_names b) ≤ length f)%nat
  ∧ (∃ b'', release_item b f = Ok b''
            ∧ built_shape b''
            ∧ held_names b'' = held_names b
            ∧ (∀ k n, held_names b !! k = Some n →
                 status b'' n = f !! k)
            ∧ (∀ n, n ∉ held_names b → attribute b'' n = attribute b n)
            ∧ (∀ n, values_of b'' n = values_of b n))
  ∨ (length f < length (held_names b))%nat
    ∧ release_item b f = Raise IndexError.
Proof.
  intros Hshape. unfold built_shape in Hshape.
  unfold release_item, held_names, values_of, built_shape.
  destruct b. cbn in *.
  destruct state_vars.
  - destruct enth_mol as [v|e]; [|destruct Hshape].
    destruct f as [|f0 [|f1 [|f2 f]]]; cbn;
      try (right; split; [lia | reflexivity]).
    left. split; [lia|]. eexists. split; [reflexivity|]. cbn.
    split; [exact I|]. split; [reflexivity|]. released_block.
  - destruct Hshape as [HT Hx].
    destruct temperature as [vT|e]; [|destruct HT].
    destruct vapor_frac as [vx|e]; [|destruct Hx].
    destruct (PB.config_phase_presentation (PB.config (SB.parameters config)))
      eqn:Epp;
      (destruct f as [|f0 [|f1 [|f2 [|f3 f]]]]; cbn; rewrite ?Epp; cbn;
       try (right; split; [lia | reflexivity]);
       left; (split; [lia|]); eexists; (split; [reflexivity|]); cbn;
       rewrite ?Epp;
       (split; [split; exact I|]); (split; [reflexivity|]);
       released_block).
Qed.

Section release.
Context {K : Type} `{Countable K}.

(** The loop of [release_state], entry by entry: it ends without error
    only if every entry names a block and has enough flags for it, and an
    error is a [KeyError] or an [IndexError]. *)
Lemma release_loop_outcome (l : list (K * list bool)) :
  ∀ m : gmap K SB.t,
  NoDup l.*1 →
  (∀ i b, m !! i = Some b → built_shape b) →
  ((∃ m', for_each release_step l m = Ok m')
   ∧ ∀ i f, (i, f) ∈ l →
       ∃ b, m !! i = Some b ∧ (length (held_names b) ≤ length f)%nat)
  ∨ (for_each release_step l m = Raise KeyError
     ∧ ∃ i f, (i, f) ∈ l ∧ m !! i = None)
  ∨ (for_each release_step l m = Raise IndexError
     ∧ ∃ i f b, (i, f) ∈ l ∧ m !! i = Some b
                ∧ (length f < length (held_names b))%nat).
Proof.
  induction l as [|[i f] l IH]; intros m Hnd Hshape.
  - left. split; [eexists; reflexivity|].
    intros i f Hif. apply elem_of_nil in Hif. destruct Hif.
  - cbn in Hnd. apply NoDup_cons in Hnd as [Hi Hnd].
    assert (Hne : ∀ j g, (j, g) ∈ l → i ≠ j).
    { intros j g Hj ->. apply Hi. apply list_elem_of_fmap.
      exists (j, g). auto. }
    rewrite for_each_cons.
    destruct (m !! i) as [b|] eqn:Hb.
    + destruct (release_item_spec b f (Hshape _ _ Hb))
        as [(Hlen & b'' & Hrel & Hsh'' & _)|[Hlen Hrel]].
      * assert (Hstep : release_step (i, f) m = Ok (<[i := b'']> m)).
        { unfold release_step, block_at. cbn [fst snd].
          rewrite Hb, bind_Ok, Hrel. reflexivity. }
        rewrite Hstep, bind_Ok.
        destruct (IH (<[i := b'']> m) Hnd) as [[Hok Hall]|[[He Hex]|[He Hex]]].
        { intros j c Hj. apply lookup_insert_Some in Hj as [[_ <-]|[_ Hj]];
            [exact Hsh'' | exact (Hshape _ _ Hj)]. }
        -- left. split; [exact Hok|].
           intros j g Hj. apply elem_of_cons in Hj as [Hj|Hj].
           ++ injection Hj as -> ->. exists b. auto.
           ++ destruct (Hall j g Hj) as (c & Hc & Hlc).
              rewrite lookup_insert_ne in Hc by exact (Hne _ _ Hj).
              exists c. auto.
        -- right. left. split; [exact He|].
           destruct Hex as (j & g & Hj & Hn).
           rewrite lookup_insert_ne in Hn by exact (Hne _ _ Hj).
           exists j, g. split; [right; exact Hj | exact Hn].
        -- right. right. split; [exact He|].
           destruct Hex as (j & g & c & Hj & Hc & Hlc).
           rewrite lookup_insert_ne in Hc by exact (Hne _ _ Hj).
           exists j, g, c. split; [right; exact Hj | auto].
      * assert (Hstep : release_step (i, f) m = Raise IndexError).
        { unfold release_step, block_at. cbn [fst snd].
          rewrite Hb, bind_Ok, Hrel. reflexivity. }
        rewrite Hstep. right. right. split; [reflexivity|].
        exists i, f, b. split; [left | auto].
    + assert (Hstep : release_step (i, f) m = Raise KeyError).
      { unfold release_step, block_at. cbn [fst snd].
        rewrite Hb. reflexivity. }
      rewrite Hstep. right. left. split; [reflexivity|].
      exists i, f. split; [left | exact Hb].
Qed.

(** X10.  [release_state] accepts a flags mapping exactly when each of
    its indices names a block and each tuple has at least as many entries
    as that block has state variables (extra entries are ignored).
    Otherwise it raises [KeyError], for an index that names no block, or
    [IndexError], for a tuple that is too short. *)
Theorem release_state_accepts_iff (self : gmap K SB.t)
    (flags : gmap K (list bool)) :
  (∀ i b, self !! i = Some b → built_shape b) →
  ((∃ released, release_state self flags = Ok released) ↔
   ∀ i f, flags !! i = Some f →
     ∃ b, self !! i = Some b ∧ (length (held_names b) ≤ length f)%nat)
  ∧ ((∃ released, release_state self flags = Ok released)
     ∨ (release_state self flags = Raise KeyError
        ∧ ∃ i, is_Some (flags !! i) ∧ self !! i = None)
     ∨ (release_state self flags = Raise IndexError
        ∧ ∃ i f b, flags !! i = Some f ∧ self !! i = Some b
                   ∧ (length f < length (held_names b))%nat)).
Proof.
  intros Hshape. unfold release_state.
  destruct (release_loop_outcome (map_to_list flags) self
              (NoDup_fst_map_to_list _) Hshape)
    as [[Hok Hall]|[[He Hex]|[He Hex]]].
  - split; [|left; exact Hok]. split; [|intros _; exact Hok].
    intros _ i f Hf. apply Hall. apply elem_of_map_to_list. exact Hf.
  - destruct Hex as (i & f & Hif & Hn). apply elem_of_map_to_list in Hif.
    split; [|right; left; split; [exact He | eauto]].
    rewrite He. split; [intros [r Hr]; discriminate|].
    intros Hall. destruct (Hall i f Hif) as (b & Hb & _). congruence.
  - destruct Hex as (i & f & b & Hif & Hb & Hlen).
    apply elem_of_map_to_list in Hif.
    split; [|right; right; split; [exact He | eauto 6]].
    rewrite He. split; [intros [r Hr]; discriminate|].
    intros Hall. destruct (Hall i f Hif) as (c & Hc & Hlc).
    assert (c = b) by congruence. subst c. lia.
Qed.

(** X11.  When each entry of the flags names a block and has enough
    flags for it, [release_state] succeeds; it leaves the blocks that the
    flags do not mention as they are; in a block the flags mention it
    sets the fixed status of the state variables from the tuple, in
    order, and changes neither a value nor any other attribute. *)
Theorem release_state_effect (self : gmap K SB.t)
    (flags : gmap K (list bool)) :
  (∀ i b, self !! i = Some b → built_shape b) →
  (∀ i f, flags !! i = Some f →
     ∃ b, self !! i = Some b ∧ (length (held_names b) ≤ length f)%nat) →
  ∃ released,
    release_state self flags = Ok released
    ∧ dom released = dom self
    ∧ (∀ i, flags !! i = None → released !! i = self !! i)
    ∧ (∀ i f b, flags !! i = Some f → self !! i = Some b →
         ∃ b'', released !! i = Some b''
                ∧ (∀ k n, held_names b !! k = Some n →
                     status b'' n = f !! k)
                ∧ (∀ n, n ∉ held_names b → attribute b'' n = attribute b n)
                ∧ (∀ n, values_of b'' n = values_of b n)).
Proof.
  intros Hshape Hall.
  destruct (release_pointwise self flags) as (r & Hr & Hpt).
  { intros i f Hf. destruct (Hall i f Hf) as (b & Hb & Hlen).
    destruct (release_item_spec b f (Hshape _ _ Hb))
      as [(_ & b'' & Hb'' & _)|[Hlt _]]; [eauto | lia]. }
  exists r. split; [exact Hr|]. split; [|split].
  - apply set_eq. intros i. rewrite !elem_of_dom. specialize (Hpt i).
    destruct (flags !! i) as [f|].
    + destruct Hpt as (b & b'' & -> & _ & ->). split; eauto.
    + rewrite Hpt. reflexivity.
  - intros i Hf. specialize (Hpt i). rewrite Hf in Hpt. exact Hpt.
  - intros i f b Hf Hb. specialize (Hpt i). rewrite Hf in Hpt.
    destruct Hpt as (c & c'' & Hc & Hcr & Hrl).
    assert (c = b) by congruence. subst c.
    destruct (release_item_spec b f (Hshape _ _ Hb))
      as [(_ & b'' & Hb'' & _ & _ & Hst & Hat & Hval)|[_ Herr]];
      [|congruence].
    rewrite Hcr in Hb''. injection Hb'' as <-.
    exists c''. auto.
Qed.
End release.

(** The first of the example blocks is a PH block. *)
Lemma example_blocks_first :
  ∃ b, example_blocks !! 0%nat = Some b
       ∧ held_names b = [Vflow_mol; Venth_mol; Vpressure].
Proof.
  destruct (state_block_total PH MIX false example_parameters example_isfile)
    as [b0 E0].
  destruct (state_block_modes _ _ _ _ _ _ E0) as [Hsv _].
  exists b0. split.
  - unfold example_blocks, collect. cbn [foldr fst snd].
    rewrite E0. apply lookup_insert_eq.
  - unfold held_names. rewrite Hsv. reflexivity.
Qed.


Lemma initialize_without_hold_witness :
  ∃ flags, initialize example_blocks false None = Ok (example_blocks, flags).
Proof.
  destruct (initialize_without_hold example_blocks None
              example_blocks_built_shape)
    as (held & flags & Hrun & _ & Hsame).
  exists flags. rewrite <- (Hsame eq_refl) at 2. exact Hrun.
Defined.

Lemma initialize_assigns_witness :
  ∃ held flags,
    initialize example_blocks true (Some {["pressure" := 2e5]})
    = Ok (held, flags).
Proof.
  destruct (initialize_assigns example_blocks true
              (Some {["pressure" := 2e5]}) example_blocks_built_shape)
    as (held & flags & Hrun & _).
  exists held, flags. exact Hrun.
Defined.

Lemma hold_release_identity_witness :
  ∃ held flags,
    initialize example_blocks true None = Ok (held, flags)
    ∧ release_state held flags = Ok example_blocks.
Proof.
  exact (hold_release_identity example_blocks example_blocks_built_shape).
Defined.

Lemma release_state_accepts_iff_witness :
  (∃ released, release_state example_blocks
                 ({[0%nat := [true; false]]} : gmap nat (list bool))
               = Ok released)
  ↔ ∀ i f, ({[0%nat := [true; false]]} : gmap nat (list bool)) !! i = Some f →
      ∃ b, example_blocks !! i = Some b
           ∧ (length (held_names b) ≤ length f)%nat.
Proof.
  exact (proj1 (release_state_accepts_iff example_blocks
                  {[0%nat := [true; false]]} example_blocks_built_shape)).
Defined.

Lemma release_state_effect_witness :
  ∃ released,
    release_state example_blocks
      ({[0%nat := [true; false; true; true]]} : gmap nat (list bool))
    = Ok released
    ∧ dom released = dom example_blocks.
Proof.
  destruct (release_state_effect example_blocks
              {[0%nat := [true; false; true; true]]}
              example_blocks_built_shape)
    as (released & Hrel & Hdom & _).
  - intros i f Hf. apply lookup_singleton_Some in Hf as [<- <-].
    destruct example_blocks_first as (b & Hb & Hnames).
    exists b. split; [exact Hb|]. rewrite Hnames. cbn. lia.
  - exists released. auto.
Defined.

(** ** The state block: the balance-equation interface *)

Lemma getitem_keys (ix : Indexed) (p : string) :
  (p ∈ ix.*1 → ∃ e, getitem ix p = Ok e)
  ∧ (p ∉ ix.*1 → getitem ix p = Raise KeyError).
Proof.
  induction ix as [|[q e] ix [IH1 IH2]]; cbn [getitem fmap list_fmap fst].
  - split; [intros H; inversion H | reflexivity].
  - destruct (String.eqb_spec p q) as [->|Hne]; split.
    + intros _. eexists. reflexivity.
    + intros H. destruct H. apply list_elem_of_here.
    + intros H. apply elem_of_cons in H as [H|H]; [destruct (Hne H)|].
      exact (IH1 H).
    + intros H. apply IH2. intros Hin. apply H.
      apply list_elem_of_further. exact Hin.
Qed.

(** X12.  The accessors of the balance terms answer exactly on the labels
    of the public phase list and raise [KeyError] on any other label; the
    material-density accessor does not look at the public list: it
    answers the mixture density for "Mix" and a phase density for "Vap"
    and "Liq" in every presentation. *)
Theorem balance_accessors_domain :
  ∀ (sv : StateVars) (pp : PhaseType) (ds : bool)
    (a : HelmholtzParameterBlockData.parameters) (isfile : string → bool),
  ∃ b : HelmholtzStateBlockData.t,
    state_block sv pp ds a isfile = Ok b
    ∧ ∀ p j : string,
        let plist :=
          HelmholtzParameterBlockData.phase_list
            (HelmholtzStateBlockData.parameters
               (HelmholtzStateBlockData.config b)) in
        (p ∈ plist →
           (∃ e, HelmholtzStateBlockData.get_material_flow_terms b p j = Ok e)
           ∧ (∃ e, HelmholtzStateBlockData.get_enthalpy_flow_terms b p = Ok e)
           ∧ (∃ e, HelmholtzStateBlockData.get_energy_density_terms b p
                   = Ok e))
        ∧ (p ∉ plist →
           HelmholtzStateBlockData.get_material_flow_terms b p j
           = Raise KeyError
           ∧ HelmholtzStateBlockData.get_enthalpy_flow_terms b p
             = Raise KeyError
           ∧ HelmholtzStateBlockData.get_energy_density_terms b p
             = Raise KeyError)
        ∧ (p = "Mix"%string →
           HelmholtzStateBlockData.get_material_density_terms b p j
           = Ok (HelmholtzStateBlockData.dens_mol b))
        ∧ (p ∈ ["Vap"; "Liq"]%string →
           HelmholtzStateBlockData.get_material_density_terms b p j
           = getitem (HelmholtzStateBlockData.dens_mol_phase b) p
           ∧ ∃ e, HelmholtzStateBlockData.get_material_density_terms b p j
                  = Ok e)
        ∧ (p ∉ ["Mix"; "Vap"; "Liq"]%string →
           HelmholtzStateBlockData.get_material_density_terms b p j
           = Raise KeyError).
Proof.
  intros sv pp ds a isfile.
  destruct (state_block_total sv pp ds a isfile) as [b Hb].
  assert (Hc :
    match state_block sv pp ds a isfile with
    | Ok b => Some (HelmholtzParameterBlockData.phase_list
                      (HelmholtzStateBlockData.parameters
                         (HelmholtzStateBlockData.config b)),
                    (HelmholtzStateBlockData.material_flow_terms b).*1,
                    (HelmholtzStateBlockData.enthalpy_flow_terms b).*1,
                    (HelmholtzStateBlockData.energy_density_terms b).*1,
                    (HelmholtzStateBlockData.dens_mol_phase b).*1)
    | Raise _ => None
    end
    = Some (HelmholtzParameterBlockData.phase_list
              (HelmholtzStateBlockData.parameters
                 (HelmholtzStateBlockData.config b)),
            (HelmholtzStateBlockData.material_flow_terms b).*1,
            (HelmholtzStateBlockData.enthalpy_flow_terms b).*1,
            (HelmholtzStateBlockData.energy_density_terms b).*1,
            (HelmholtzStateBlockData.dens_mol_phase b).*1)).
  { rewrite Hb. reflexivity. }
  exists b. split; [exact Hb|]. intros p j plist.
  assert (Hkeys :
    (HelmholtzStateBlockData.material_flow_terms b).*1 = plist
    ∧ (HelmholtzStateBlockData.enthalpy_flow_terms b).*1 = plist
    ∧ (HelmholtzStateBlockData.energy_density_terms b).*1 = plist
    ∧ (HelmholtzStateBlockData.dens_mol_phase b).*1 = ["Vap"; "Liq"]%string).
  { subst plist. clear Hb.
    destruct sv, pp, ds; computed_lhs Hc;
      injection Hc as <- <- <- <- <-; repeat split; reflexivity. }
  clear Hc. destruct Hkeys as (Hm & Hh & He & Hd).
  unfold HelmholtzStateBlockData.get_material_flow_terms,
    HelmholtzStateBlockData.get_enthalpy_flow_terms,
    HelmholtzStateBlockData.get_energy_density_terms,
    HelmholtzStateBlockData.get_material_density_terms.
  split; [|split; [|split; [|split]]].
  - intros Hp. repeat split.
    + apply getitem_keys. rewrite Hm. exact Hp.
    + apply getitem_keys. rewrite Hh. exact Hp.
    + apply getitem_keys. rewrite He. exact Hp.
  - intros Hp. repeat split.
    + apply getitem_keys. rewrite Hm. exact Hp.
    + apply getitem_keys. rewrite Hh. exact Hp.
    + apply getitem_keys. rewrite He. exact Hp.
  - intros ->. reflexivity.
  - intros Hp.
    assert (Hne : String.eqb p "Mix" = false).
    { destruct (String.eqb_spec p "Mix") as [->|]; [|reflexivity].
      not_in_list Hp. }
    rewrite Hne. split; [reflexivity|].
    apply getitem_keys. rewrite Hd. exact Hp.
  - intros Hp.
    destruct (String.eqb_spec p "Mix") as [->|Hne].
    + destruct Hp. apply list_elem_of_here.
    + apply getitem_keys. rewrite Hd. intros Hin. apply Hp.
      apply list_elem_of_further. exact Hin.
Qed.

(** ** The state block: totals over the phases *)

(** The material flow terms of the four presentations add up to the
    total flow. *)
Lemma total_material_flow k sm pb vars (f : expr) (x F : Q)
    (terms : Indexed) :
  vars Vflow_mol = Some F →
  evaluate k sm pb vars f = Ok x →
  terms = [("Mix", EVar Vflow_mol)]%string
  ∨ terms = [("Vap", EVar Vflow_mol * f);
             ("Liq", EVar Vflow_mol * (ENum 1 - f))]%string%E
  ∨ (terms = [("Liq", EVar Vflow_mol * (ENum 1 - f))]%string%E ∧ x == 0)
  ∨ (terms = [("Vap", EVar Vflow_mol * f)]%string%E ∧ x == 1) →
  ∃ t, sum_values (evaluate k sm pb vars) terms = Ok t ∧ t == F.
Proof.
  intros HF Hx [-> | [-> | [[-> Hx0] | [-> Hx1]]]];
    eexists; (split; [cbn [sum_values]; eval_expr; reflexivity|]).
  - ring.
  - ring.
  - rewrite Hx0. ring.
  - rewrite Hx1. ring.
Qed.

(** X13.  The material flow terms of the public phases add up to the
    total molar flow, whatever the vapor fraction; with a single-phase
    presentation this needs the vapor fraction to have the value the
    presentation holds it at. *)
Theorem material_flow_terms_total :
  ∀ (sv : StateVars) (pp : PhaseType) (ds : bool)
    (a : HelmholtzParameterBlockData.parameters) (isfile : string → bool),
  let pb :=
    HelmholtzParameterBlockData.build
      {| HelmholtzParameterBlockData.config_phase_presentation := pp;
         HelmholtzParameterBlockData.config_state_vars := sv |} a isfile in
  ∃ b : HelmholtzStateBlockData.t,
    state_block sv pp ds a isfile = Ok b
    ∧ ∀ (k : Kernel) (smooth_max : Q → Q → Q → Q)
        (vars : VarName → option Q) (F x : Q),
        let value_of := evaluate k smooth_max pb vars in
        vars Vflow_mol = Some F →
        value_of (ref Vvapor_frac (HelmholtzStateBlockData.vapor_frac b))
        = Ok x →
        (pp = L → x == 0) →
        (pp = G → x == 1) →
        ∃ t, sum_values value_of (HelmholtzStateBlockData.material_flow_terms b)
             = Ok t
             ∧ t == F.
Proof.
  intros sv pp ds a isfile pb.
  destruct (state_block_total sv pp ds a isfile) as [b Hb].
  assert (Hc :
    match state_block sv pp ds a isfile with
    | Ok b => Some (HelmholtzStateBlockData.vapor_frac b,
                    HelmholtzStateBlockData.material_flow_terms b)
    | Raise _ => None
    end
    = Some (HelmholtzStateBlockData.vapor_frac b,
            HelmholtzStateBlockData.material_flow_terms b)).
  { rewrite Hb. reflexivity. }
  exists b. split; [exact Hb|]. clear Hb. clearbody pb.
  intros k sm vars F x value_of HF Hx HL HG. revert Hx. subst value_of.
  destruct sv, pp, ds; computed_lhs Hc; injection Hc as <- <-; intros Hx.
  all: apply (total_material_flow k sm pb vars _ x F _ HF Hx).
  all: first
    [ left; reflexivity
    | right; left; reflexivity
    | right; right; left; split; [reflexivity | exact (HL eq_refl)]
    | right; right; right; split; [reflexivity | exact (HG eq_refl)] ].
Qed.

Lemma material_flow_terms_total_witness :
  ∃ (b : HelmholtzStateBlockData.t) (t : Q),
    state_block TPX LG false example_parameters example_isfile = Ok b
    ∧ sum_values (evaluate example_kernel example_smooth_max
               (HelmholtzStateBlockData.parameters
                  (HelmholtzStateBlockData.config b))
               (example_vars 0.3))
        (HelmholtzStateBlockData.material_flow_terms b)
      = Ok t
    ∧ t == 2.
Proof.
  destruct (material_flow_terms_total TPX LG false example_parameters
              example_isfile) as (b & Hb & H).
  assert (Hc :
    match state_block TPX LG false example_parameters example_isfile with
    | Ok b => Some (HelmholtzStateBlockData.vapor_frac b,
                    HelmholtzStateBlockData.parameters
                      (HelmholtzStateBlockData.config b))
    | Raise _ => None
    end
    = Some (HelmholtzStateBlockData.vapor_frac b,
            HelmholtzStateBlockData.parameters
              (HelmholtzStateBlockData.config b))).
  { rewrite Hb. reflexivity. }
  computed_lhs Hc. injection Hc as Hvf Hpb.
  destruct (H example_kernel example_smooth_max (example_vars 0.3) 2 0.3)
    as (t & Ht & Hq).
  - reflexivity.
  - rewrite <- Hvf. reflexivity.
  - discriminate.
  - discriminate.
  - exists b, t. split; [exact Hb|]. split; [|exact Hq].
    rewrite <- Ht. f_equal. rewrite <- Hpb. vm_compute. reflexivity.
Defined.

(** The value of a sum of two phase properties weighted by the phase
    fractions. *)
Lemma evaluate_weighted k sm pb vars (f eV eL : expr) (x vV vL : Q) :
  evaluate k sm pb vars f = Ok x →
  evaluate k sm pb vars eV = Ok vV →
  evaluate k sm pb vars eL = Ok vL →
  ∃ q, evaluate k sm pb vars (ENum 0 + f * eV + (ENum 1 - f) * eL)%E = Ok q
       ∧ q == x * vV + (1 - x) * vL.
Proof.
  intros Hf HV HL. eexists. split.
  - eval_expr. reflexivity.
  - ring.
Qed.

(** The enthalpy flow terms of the four presentations of a TPX block add
    up to the mixture enthalpy times the total flow. *)
Lemma total_enthalpy_flow k sm pb vars (f hV hL : expr) (x F vV vL : Q)
    (terms : Indexed) :
  let mix := (ENum 0 + f * hV + (ENum 1 - f) * hL)%E in
  vars Vflow_mol = Some F →
  evaluate k sm pb vars f = Ok x →
  evaluate k sm pb vars hV = Ok vV →
  evaluate k sm pb vars hL = Ok vL →
  terms = [("Mix", mix * EVar Vflow_mol)]%string%E
  ∨ terms = [("Vap", hV * f * EVar Vflow_mol);
             ("Liq", hL * (ENum 1 - f) * EVar Vflow_mol)]%string%E
  ∨ (terms = [("Liq", hL * (ENum 1 - f) * EVar Vflow_mol)]%string%E
     ∧ x == 0)
  ∨ (terms = [("Vap", hV * f * EVar Vflow_mol)]%string%E ∧ x == 1) →
  ∃ t e, sum_values (evaluate k sm pb vars) terms = Ok t
         ∧ evaluate k sm pb vars mix = Ok e
         ∧ t == e * F
         ∧ e == x * vV + (1 - x) * vL.
Proof.
  intros mix HF Hx HV HL [-> | [-> | [[-> Hx0] | [-> Hx1]]]]; subst mix;
    eexists _, _;
    (split; [cbn [sum_values]; eval_expr; reflexivity|]);
    (split; [eval_expr; reflexivity|]).
  - split; ring.
  - split; ring.
  - rewrite Hx0. split; ring.
  - rewrite Hx1. split; ring.
Qed.

(** X14.  In TPX mode the mixture enthalpy is the mean of the two phase
    enthalpies weighted by the vapor fraction, and the enthalpy flow
    terms of the public phases add up to the mixture enthalpy times the
    total molar flow; with a single-phase presentation this needs the
    vapor fraction to have the value the presentation holds it at. *)
Theorem enthalpy_flow_terms_total :
  ∀ (pp : PhaseType) (ds : bool)
    (a : HelmholtzParameterBlockData.parameters) (isfile : string → bool),
  let pb :=
    HelmholtzParameterBlockData.build
      {| HelmholtzParameterBlockData.config_phase_presentation := pp;
         HelmholtzParameterBlockData.config_state_vars := TPX |} a isfile in
  ∃ (b : HelmholtzStateBlockData.t) (hV hL : expr),
    state_block TPX pp ds a isfile = Ok b
    ∧ getitem (HelmholtzStateBlockData.enth_mol_phase b) "Vap" = Ok hV
    ∧ getitem (HelmholtzStateBlockData.enth_mol_phase b) "Liq" = Ok hL
    ∧ ∀ (k : Kernel) (smooth_max : Q → Q → Q → Q)
        (vars : VarName → option Q) (F x vV vL : Q),
        let value_of := evaluate k smooth_max pb vars in
        vars Vflow_mol = Some F →
        value_of (ref Vvapor_frac (HelmholtzStateBlockData.vapor_frac b))
        = Ok x →
        value_of hV = Ok vV →
        value_of hL = Ok vL →
        (pp = L → x == 0) →
        (pp = G → x == 1) →
        ∃ t e,
          sum_values value_of (HelmholtzStateBlockData.enthalpy_flow_terms b)
          = Ok t
          ∧ value_of (ref Venth_mol (HelmholtzStateBlockData.enth_mol b))
            = Ok e
          ∧ t == e * F
          ∧ e == x * vV + (1 - x) * vL.
Proof.
  intros pp ds a isfile pb.
  destruct (state_block_total TPX pp ds a isfile) as [b Hb].
  assert (Hc :
    match state_block TPX pp ds a isfile with
    | Ok b => Some (HelmholtzStateBlockData.vapor_frac b,
                    HelmholtzStateBlockData.enth_mol_phase b,
                    HelmholtzStateBlockData.enth_mol b,
                    HelmholtzStateBlockData.enthalpy_flow_terms b)
    | Raise _ => None
    end
    = Some (HelmholtzStateBlockData.vapor_frac b,
            HelmholtzStateBlockData.enth_mol_phase b,
            HelmholtzStateBlockData.enth_mol b,
            HelmholtzStateBlockData.enthalpy_flow_terms b)).
  { rewrite Hb. reflexivity. }
  exists b. clearbody pb.
  destruct pp, ds; computed_lhs Hc; injection Hc as <- <- <- <-.
  all: eexists _, _; split; [exact Hb|]; do 2 (split; [reflexivity|]).
  all: intros k sm vars F x vV vL value_of HF Hx HV HL H0 H1.
  all: apply (total_enthalpy_flow k sm pb vars _ _ _ x F vV vL _
                HF Hx HV HL).
  all: first
    [ left; reflexivity
    | right; left; reflexivity
    | right; right; left; split; [reflexivity | exact (H0 eq_refl)]
    | right; right; right; split; [reflexivity | exact (H1 eq_refl)] ].
Qed.

(** X15.  The mixture internal energy, entropy and the two heat
    capacities are, in both modes, the means of the phase properties
    weighted by the vapor fraction, and so is the mixture enthalpy in TPX
    mode; the heat-capacity ratio is the quotient of the two mixture heat
    capacities. *)
Theorem mixture_properties_weighted :
  ∀ (sv : StateVars) (pp : PhaseType) (ds : bool)
    (a : HelmholtzParameterBlockData.parameters) (isfile : string → bool),
  let pb :=
    HelmholtzParameterBlockData.build
      {| HelmholtzParameterBlockData.config_phase_presentation := pp;
         HelmholtzParameterBlockData.config_state_vars := sv |} a isfile in
  ∃ b : HelmholtzStateBlockData.t,
    state_block sv pp ds a isfile = Ok b
    ∧ HelmholtzStateBlockData.heat_capacity_ratio b
      = (HelmholtzStateBlockData.cp_mol b
         / HelmholtzStateBlockData.cv_mol b)%E
    ∧ ∀ (k : Kernel) (smooth_max : Q → Q → Q → Q)
        (vars : VarName → option Q) (x : Q),
        let value_of := evaluate k smooth_max pb vars in
        value_of (ref Vvapor_frac (HelmholtzStateBlockData.vapor_frac b))
        = Ok x →
        mixes_phases value_of x
          (HelmholtzStateBlockData.energy_internal_mol_phase b)
          (HelmholtzStateBlockData.energy_internal_mol b)
        ∧ mixes_phases value_of x
            (HelmholtzStateBlockData.entr_mol_phase b)
            (HelmholtzStateBlockData.entr_mol b)
        ∧ mixes_phases value_of x
            (HelmholtzStateBlockData.cp_mol_phase b)
            (HelmholtzStateBlockData.cp_mol b)
        ∧ mixes_phases value_of x
            (HelmholtzStateBlockData.cv_mol_phase b)
            (HelmholtzStateBlockData.cv_mol b)
        ∧ (sv = TPX →
           mixes_phases value_of x
             (HelmholtzStateBlockData.enth_mol_phase b)
             (ref Venth_mol (HelmholtzStateBlockData.enth_mol b))).
Proof.
  intros sv pp ds a isfile pb.
  destruct (state_block_total sv pp ds a isfile) as [b Hb].
  assert (Hc :
    match state_block sv pp ds a isfile with
    | Ok b => Some (HelmholtzStateBlockData.vapor_frac b,
                    HelmholtzStateBlockData.heat_capacity_ratio b,
                    (HelmholtzStateBlockData.energy_internal_mol_phase b,
                     HelmholtzStateBlockData.energy_internal_mol b),
                    (HelmholtzStateBlockData.entr_mol_phase b,
                     HelmholtzStateBlockData.entr_mol b),
                    (HelmholtzStateBlockData.cp_mol_phase b,
                     HelmholtzStateBlockData.cp_mol b),
                    (HelmholtzStateBlockData.cv_mol_phase b,
                     HelmholtzStateBlockData.cv_mol b),
                    (HelmholtzStateBlockData.enth_mol_phase b,
                     HelmholtzStateBlockData.enth_mol b))
    | Raise _ => None
    end
    = Some (HelmholtzStateBlockData.vapor_frac b,
            HelmholtzStateBlockData.heat_capacity_ratio b,
            (HelmholtzStateBlockData.energy_internal_mol_phase b,
             HelmholtzStateBlockData.energy_internal_mol b),
            (HelmholtzStateBlockData.entr_mol_phase b,
             HelmholtzStateBlockData.entr_mol b),
            (HelmholtzStateBlockData.cp_mol_phase b,
             HelmholtzStateBlockData.cp_mol b),
            (HelmholtzStateBlockData.cv_mol_phase b,
             HelmholtzStateBlockData.cv_mol b),
            (HelmholtzStateBlockData.enth_mol_phase b,
             HelmholtzStateBlockData.enth_mol b))).
  { rewrite Hb. reflexivity. }
  exists b. split; [exact Hb|]. clear Hb. clearbody pb.
  destruct sv, pp, ds; computed_lhs Hc;
    injection Hc as <- <- <- <- <- <- <- <- <- <- <- <-.
  all: split; [reflexivity|].
  all: intros k sm vars x value_of Hx; subst value_of.
  all: repeat split.
  all: try discriminate.
  all: try intros _.
  all: intros eV eL vV vL HeV HeL HV HL.
  all: cbn [getitem String.eqb Ascii.eqb Bool.eqb] in HeV, HeL.
  all: injection HeV as <-; injection HeL as <-.
  all: exact (evaluate_weighted k sm pb vars _ _ _ x vV vL Hx HV HL).
Qed.

Lemma enthalpy_flow_terms_total_witness :
  ∃ (b : HelmholtzStateBlockData.t) (t e : Q),
    state_block TPX LG false example_parameters example_isfile = Ok b
    ∧ sum_values (evaluate example_kernel example_smooth_max
                    (HelmholtzStateBlockData.parameters
                       (HelmholtzStateBlockData.config b))
                    (example_vars 0.3))
        (HelmholtzStateBlockData.enthalpy_flow_terms b)
      = Ok t
    ∧ t == e * 2.
Proof.
  destruct (enthalpy_flow_terms_total LG false example_parameters
              example_isfile) as (b & hV & hL & Hb & HhV & HhL & H).
  assert (Hc :
    match state_block TPX LG false example_parameters example_isfile with
    | Ok b => Some (HelmholtzStateBlockData.vapor_frac b,
                    HelmholtzStateBlockData.enth_mol_phase b,
                    HelmholtzStateBlockData.parameters
                      (HelmholtzStateBlockData.config b))
    | Raise _ => None
    end
    = Some (HelmholtzStateBlockData.vapor_frac b,
            HelmholtzStateBlockData.enth_mol_phase b,
            HelmholtzStateBlockData.parameters
              (HelmholtzStateBlockData.config b))).
  { rewrite Hb. reflexivity. }
  computed_lhs Hc. injection Hc as Hvf Hep Hpb.
  rewrite <- Hep in HhV, HhL.
  injection HhV as <-. injection HhL as <-.
  edestruct (H example_kernel example_smooth_max (example_vars 0.3) 2 0.3)
    as (t & e & Ht & _ & Hq & _).
  - reflexivity.
  - rewrite <- Hvf. reflexivity.
  - vm_compute. reflexivity.
  - vm_compute. reflexivity.
  - discriminate.
  - discriminate.
  - exists b, t, e. split; [exact Hb|]. split; [|exact Hq].
    rewrite <- Ht. f_equal. rewrite <- Hpb. vm_compute. reflexivity.
Defined.

(** ** The state block: what construction leaves behind *)

(** Split an equation between tuples into the equations between their
    components, and rewrite the goal with computed components. *)
Ltac unpair H :=
  lazymatch type of H with
  | (_, _) = (_, _) =>
    let H1 := fresh "Hf" in
    let H2 := fresh "Hf" in
    apply pair_equal_spec in H as [H1 H2]; unpair H1
  | _ => idtac
  end.

Ltac components H := apply (inj Some) in H; unpair H.

Ltac use_computed :=
  repeat match goal with
         | E : ?t = ?f |- context [?f] => rewrite <- E
         end.

(** X16.  A PH block has no phase-equilibrium section: neither shifted
    pressure term, neither constraint and no scaling expression for
    them.  A TPX block always has the saturation constraint [eq_sat],
    built deactivated and scaled by [1000 / pressure], so that a freshly
    built block never has both constraints active; the complementarity
    constraint, when built, is active and scaled by [10 / pressure].
    The two sides of [eq_sat] are equal exactly when the pressure is the
    saturation pressure at the temperature. *)
Theorem saturation_constraint :
  ∀ (sv : StateVars) (pp : PhaseType) (ds : bool)
    (a : HelmholtzParameterBlockData.parameters) (isfile : string → bool),
  let pb :=
    HelmholtzParameterBlockData.build
      {| HelmholtzParameterBlockData.config_phase_presentation := pp;
         HelmholtzParameterBlockData.config_state_vars := sv |} a isfile in
  ∃ b : HelmholtzStateBlockData.t,
    state_block sv pp ds a isfile = Ok b
    ∧ match sv with
      | PH =>
        HelmholtzStateBlockData.eq_sat b = None
        ∧ HelmholtzStateBlockData.eq_complementarity b = None
        ∧ HelmholtzStateBlockData.P_under_sat b = None
        ∧ HelmholtzStateBlockData.P_over_sat b = None
        ∧ suffix_get (HelmholtzStateBlockData.scaling_expression b)
            (the "eq_sat") = None
        ∧ suffix_get (HelmholtzStateBlockData.scaling_expression b)
            (the "eq_complementarity") = None
      | TPX =>
        ∃ c : ConstraintData,
          HelmholtzStateBlockData.eq_sat b = Some c
          ∧ active c = false
          ∧ suffix_get (HelmholtzStateBlockData.scaling_expression b)
              (the "eq_sat")
            = Some (ENum 1000 / EVar Vpressure)%E
          ∧ (∀ c', HelmholtzStateBlockData.eq_complementarity b = Some c' →
                   active c' = true
                   ∧ suffix_get (HelmholtzStateBlockData.scaling_expression b)
                       (the "eq_complementarity")
                     = Some (ENum 10 / EVar Vpressure)%E)
          ∧ (HelmholtzStateBlockData.eq_complementarity b = None →
             suffix_get (HelmholtzStateBlockData.scaling_expression b)
               (the "eq_complementarity") = None)
          ∧ ∀ (k : Kernel) (smooth_max : Q → Q → Q → Q)
              (vars : VarName → option Q) (T p : Q),
              vars Vtemperature = Some T →
              vars Vpressure = Some p →
              ¬ T == 0 →
              let value_of := evaluate k smooth_max pb vars in
              ∃ l r, value_of (lhs c) = Ok l
                     ∧ value_of (rhs c) = Ok r
                     ∧ (l == r
                        ↔ p == 1000 * call1 k func_p_sat
                                        (HelmholtzParameterBlockData.temperature_crit
                                           pb / T))
      end.
Proof.
  intros sv pp ds a isfile pb.
  destruct (state_block_total sv pp ds a isfile) as [b Hb].
  assert (Hc :
    match state_block sv pp ds a isfile with
    | Ok b => Some (HelmholtzStateBlockData.eq_sat b,
                    HelmholtzStateBlockData.eq_complementarity b,
                    HelmholtzStateBlockData.P_under_sat b,
                    HelmholtzStateBlockData.P_over_sat b,
                    HelmholtzStateBlockData.scaling_expression b)
    | Raise _ => None
    end
    = Some (HelmholtzStateBlockData.eq_sat b,
            HelmholtzStateBlockData.eq_complementarity b,
            HelmholtzStateBlockData.P_under_sat b,
            HelmholtzStateBlockData.P_over_sat b,
            HelmholtzStateBlockData.scaling_expression b)).
  { rewrite Hb. reflexivity. }
  exists b. split; [exact Hb|]. clear Hb. clearbody pb.
  destruct sv, pp, ds; computed_lhs Hc; injection Hc as H1 H2 H3 H4 H5;
    rewrite <- ?H1, <- ?H2, <- ?H3, <- ?H4, <- ?H5;
    clear H1 H2 H3 H4 H5.
  all: try (repeat split; reflexivity).
  all: eexists; split; [reflexivity|]; do 2 (split; [reflexivity|]).
  all: split; [intros c' Hc'; try discriminate Hc';
               injection Hc' as <-; split; reflexivity|].
  all: split; [intros Hn; first [discriminate Hn | reflexivity]|].
  all: intros k sm vars T p HT Hp HT0 value_of; subst value_of.
  all: cbn [lhs rhs].
  all: eexists _, _; split; [eval_expr; reflexivity|].
  all: split; [eval_expr; reflexivity|].
  all: cbn [param_value].
  all: set (ps := call1 k func_p_sat _).
  all: split; intros H.
  all: try (rewrite H; reflexivity).
  all: transitivity (p / 1000 / 1000 * 1000000); [field|].
  all: rewrite H; field.
Qed.

(** X17.  The extensive set is the molar flow alone; the extensive and
    the intensive sets are disjoint and hold only variables of the block;
    every variable of [define_state_vars] is in one of the two sets, and
    the only member of the two sets that [define_state_vars] leaves out
    is the vapor fraction of a TPX block with a single-phase
    presentation.  The variables of [define_state_vars] are, in order,
    the variables that [initialize] and [release_state] handle. *)
Theorem state_variable_sets :
  ∀ (sv : StateVars) (pp : PhaseType) (ds : bool)
    (a : HelmholtzParameterBlockData.parameters) (isfile : string → bool),
  ∃ b : HelmholtzStateBlockData.t,
    state_block sv pp ds a isfile = Ok b
    ∧ let ext := HelmholtzStateBlockData.extensive_state_vars b in
      let int := HelmholtzStateBlockData.intensive_state_vars b in
      let dsv := (HelmholtzStateBlockData.define_state_vars b).*2 in
      ext = [Vflow_mol]
      ∧ NoDup (ext ++ int)
      ∧ (∀ n, n ∈ ext ++ int → owns b n = true)
      ∧ (∀ n, n ∈ dsv → n ∈ ext ++ int)
      ∧ (∀ n, n ∈ ext ++ int → n ∉ dsv →
              sv = TPX ∧ (pp = L ∨ pp = G) ∧ n = Vvapor_frac)
      ∧ ((sv = TPX ∧ (pp = L ∨ pp = G)) → Vvapor_frac ∈ int ∧ Vvapor_frac ∉ dsv)
      ∧ dsv = held_names b.
Proof.
  intros sv pp ds a isfile.
  destruct (state_block_total sv pp ds a isfile) as [b Hb].
  assert (Hc :
    match state_block sv pp ds a isfile with
    | Ok b => Some (HelmholtzStateBlockData.extensive_state_vars b,
                    HelmholtzStateBlockData.intensive_state_vars b,
                    (HelmholtzStateBlockData.define_state_vars b).*2,
                    held_names b,
                    owns b Venth_mol, owns b Vtemperature,
                    owns b Vvapor_frac)
    | Raise _ => None
    end
    = Some (HelmholtzStateBlockData.extensive_state_vars b,
            HelmholtzStateBlockData.intensive_state_vars b,
            (HelmholtzStateBlockData.define_state_vars b).*2,
            held_names b,
            owns b Venth_mol, owns b Vtemperature, owns b Vvapor_frac)).
  { rewrite Hb. reflexivity. }
  exists b. split; [exact Hb|]. clear Hb.
  intros ext int dsv. subst ext int dsv.
  destruct sv, pp, ds; computed_lhs Hc; components Hc; use_computed.
  all: split; [reflexivity|].
  all: split; [apply (bool_decide_unpack _); reflexivity|].
  all: split;
    [intros n Hn; cbn [app] in Hn;
     repeat (apply elem_of_cons in Hn as [-> | Hn];
             [first [reflexivity | symmetry; assumption]|]);
     apply elem_of_nil in Hn; destruct Hn|].
  all: split;
    [intros n Hn; cbn [app];
     repeat (apply elem_of_cons in Hn as [-> | Hn]; [in_list|]);
     apply elem_of_nil in Hn; destruct Hn|].
  all: split;
    [intros n Hn Hout; cbn [app] in Hn; destruct n;
     first [not_in_list Hn
           | solve [destruct Hout; in_list]
           | split; [reflexivity|];
             split; [first [left; reflexivity | right; reflexivity]
                    |reflexivity]]|].
  all: split; [|reflexivity].
  all: intros [Hsv [Hpp | Hpp]]; try discriminate Hsv; try discriminate Hpp.
  all: split; [in_list | intros Hin; not_in_list Hin].
Qed.

(** X18.  What construction leaves in the state variables.  The only
    variable that is fixed is the vapor fraction of a TPX block whose
    public phase list has a single label, and it is fixed at 1 for the
    vapor phase and at 0 otherwise, the mixed presentation included.
    The flow starts at 1 and the other variables at the default values of
    the parameter block; the flow and the vapor fraction have no bounds,
    the others the default bounds. *)
Theorem construction_state :
  ∀ (sv : StateVars) (pp : PhaseType) (ds : bool)
    (a : HelmholtzParameterBlockData.parameters) (isfile : string → bool),
  ∃ b : HelmholtzStateBlockData.t,
    state_block sv pp ds a isfile = Ok b
    ∧ (∀ n, status b n = Some true
            ↔ sv = TPX ∧ pp ≠ LG ∧ n = Vvapor_frac)
    ∧ attribute b Vflow_mol = CVar (Var Reals 1 None)
    ∧ attribute b Vpressure
      = CVar (Var PositiveReals
                (HelmholtzParameterBlockData.a_pressure_value a)
                (Some (HelmholtzParameterBlockData.a_pressure_bounds a)))
    ∧ match sv with
      | PH =>
        attribute b Venth_mol
        = CVar (Var Reals (HelmholtzParameterBlockData.a_enthalpy_value a)
                  (Some (HelmholtzParameterBlockData.a_enthalpy_bounds a)))
        ∧ owns b Vtemperature = false
        ∧ owns b Vvapor_frac = false
      | TPX =>
        attribute b Vtemperature
        = CVar (Var PositiveReals
                  (HelmholtzParameterBlockData.a_temperature_value a)
                  (Some (HelmholtzParameterBlockData.a_temperature_bounds a)))
        ∧ attribute b Vvapor_frac
          = CVar (match pp with
                  | LG => Var Reals 0 None
                  | G => fix_at 1 (Var Reals 0 None)
                  | MIX | L => fix_at 0 (Var Reals 0 None)
                  end)
        ∧ owns b Venth_mol = false
      end.
Proof.
  intros sv pp ds a isfile.
  destruct (state_block_total sv pp ds a isfile) as [b Hb].
  assert (Hc :
    match state_block sv pp ds a isfile with
    | Ok b => Some (status b Vflow_mol, status b Vpressure,
                    status b Venth_mol, status b Vtemperature,
                    status b Vvapor_frac,
                    attribute b Vflow_mol, attribute b Vpressure,
                    attribute b Venth_mol, attribute b Vtemperature,
                    attribute b Vvapor_frac)
    | Raise _ => None
    end
    = Some (status b Vflow_mol, status b Vpressure,
            status b Venth_mol, status b Vtemperature,
            status b Vvapor_frac,
            attribute b Vflow_mol, attribute b Vpressure,
            attribute b Venth_mol, attribute b Vtemperature,
            attribute b Vvapor_frac)).
  { rewrite Hb. reflexivity. }
  exists b. split; [exact Hb|]. clear Hb. unfold owns.
  destruct sv, pp, ds; computed_lhs Hc; components Hc.
  all: split;
    [intros n; destruct n; use_computed;
     (split;
      [intros Hn; first [discriminate Hn
                        | split; [reflexivity|];
                          split; [discriminate | reflexivity]]
      |intros (Hsv & Hpp & Hn);
       first [discriminate Hsv | discriminate Hn
             | destruct Hpp; reflexivity | reflexivity]])
    |use_computed; repeat split; reflexivity].
Qed.

(** X19.  [define_display_vars] has the same six labels in every mode;
    the flow and the pressure are always variables, the mass flow is the
    molecular weight times the flow, and the temperature and the vapor
    fraction are shown as variables exactly in TPX mode.  The last entry
    is the enthalpy of the two phases, not of the mixture. *)
Theorem display_vars_labels :
  ∀ (sv : StateVars) (pp : PhaseType) (ds : bool)
    (a : HelmholtzParameterBlockData.parameters) (isfile : string → bool),
  ∃ (b : HelmholtzStateBlockData.t) (dT dx : SB.display) (ix : Indexed),
    state_block sv pp ds a isfile = Ok b
    ∧ HelmholtzStateBlockData.define_display_vars b
      = [("Molar Flow (mol/s)", SB.DVar Vflow_mol);
         ("Mass Flow (kg/s)", SB.DExpr (EParam Pmw * EVar Vflow_mol));
         ("T (K)", dT);
         ("P (Pa)", SB.DVar Vpressure);
         ("Vapor Fraction", dx);
         ("Molar Enthalpy (J/mol)", SB.DIndexed ix)]%string
    ∧ (dT = SB.DVar Vtemperature ↔ sv = TPX)
    ∧ (dx = SB.DVar Vvapor_frac ↔ sv = TPX)
    ∧ (sv = PH → ∃ eT ex, dT = SB.DExpr eT ∧ dx = SB.DExpr ex)
    ∧ ix.*1 = ["Vap"; "Liq"]%string
    ∧ ix = HelmholtzStateBlockData.enth_mol_phase b.
Proof.
  intros sv pp ds a isfile.
  destruct (state_block_total sv pp ds a isfile) as [b Hb].
  assert (Hc :
    match state_block sv pp ds a isfile with
    | Ok b => Some (HelmholtzStateBlockData.define_display_vars b,
                    HelmholtzStateBlockData.enth_mol_phase b)
    | Raise _ => None
    end
    = Some (HelmholtzStateBlockData.define_display_vars b,
            HelmholtzStateBlockData.enth_mol_phase b)).
  { rewrite Hb. reflexivity. }
  exists b.
  destruct sv, pp, ds; computed_lhs Hc; components Hc; use_computed;
    repeat match goal with E : _ = _ |- _ => clear E end.
  all: eexists _, _, _; split; [reflexivity|]; split; [reflexivity|].
  all: split; [split; intros H; first [reflexivity | discriminate H]|].
  all: split; [split; intros H; first [reflexivity | discriminate H]|].
  all: split; [intros H; first [discriminate H
                               | eexists _, _; split; reflexivity]|].
  all: split; reflexivity.
Qed.

(** ** The state block: scaling factors *)

(** A suffix whose log ends with a loop over the component list is read
    through the loop: the loop only adds entries for the members of the
    indexed component it scales. *)
Lemma suffix_get_app {A : Type} (pre s : Suffix A) (c : CompId) :
  suffix_get (pre ++ s) c
  = match suffix_get pre c with
    | Some a => Some a
    | None => suffix_get s c
    end.
Proof.
  induction pre as [|[c' a] pre IH]; cbn [app suffix_get].
  - reflexivity.
  - destruct (decide (c = c')); [reflexivity | exact IH].
Qed.

Lemma suffix_get_loop {A : Type} (name : string) (q : A) (c : CompId)
    (l : list string) (s : Suffix A) :
  String.eqb c.1 name = false →
  suffix_get (foldl (λ log i, (at_ name i, q) :: log) s l) c
  = suffix_get s c.
Proof.
  intros Hc. revert s. induction l as [|i l IH]; intros s; cbn [foldl].
  - reflexivity.
  - rewrite IH. cbn [suffix_get].
    destruct (decide (c = at_ name i)) as [-> | _]; [|reflexivity].
    cbn in Hc. rewrite String.eqb_refl in Hc. discriminate Hc.
Qed.

(** An entry of the log stays readable through the rest of the loop. *)
Lemma suffix_get_loop_keeps {A : Type} (name : string) (q : A) (j : string)
    (m : list string) (t : Suffix A) :
  suffix_get t (at_ name j) = Some q →
  suffix_get (foldl (λ log i, (at_ name i, q) :: log) t m) (at_ name j)
  = Some q.
Proof.
  revert t. induction m as [|x m IHm]; intros t Ht; cbn [foldl].
  - exact Ht.
  - apply IHm. cbn [suffix_get].
    destruct (decide (at_ name j = at_ name x)); [reflexivity | exact Ht].
Qed.

Lemma suffix_get_loop_in {A : Type} (name : string) (q : A) (i : string)
    (l : list string) (s : Suffix A) :
  i ∈ l →
  suffix_get (foldl (λ log i, (at_ name i, q) :: log) s l) (at_ name i)
  = Some q.
Proof.
  revert s. induction l as [|j l IH]; intros s Hi; cbn [foldl].
  - inversion Hi.
  - apply elem_of_cons in Hi as [-> | Hi]; [|apply IH, Hi].
    apply suffix_get_loop_keeps. cbn [suffix_get].
    destruct (decide (at_ name j = at_ name j)); congruence.
Qed.

Section log.
Context (name : string) (q : Q) (pre s : Suffix Q) (l : list string).

Lemma log_get (c : CompId) :
  String.eqb c.1 name = false →
  suffix_get (pre ++ foldl (λ log i, (at_ name i, q) :: log) s l) c
  = suffix_get (pre ++ s) c.
Proof.
  intros Hc. rewrite !suffix_get_app, suffix_get_loop by exact Hc.
  reflexivity.
Qed.

Lemma log_get_member (i : string) :
  forallb (λ ce, negb (String.eqb ce.1.1 name)) pre = true →
  i ∈ l →
  suffix_get (pre ++ foldl (λ log i, (at_ name i, q) :: log) s l)
    (at_ name i)
  = Some q.
Proof.
  intros Hpre Hi. rewrite suffix_get_app.
  assert (Hn : suffix_get pre (at_ name i) = None).
  { clear Hi. induction pre as [|[c a] p IH]; [reflexivity|].
    cbn [forallb fst] in Hpre. apply andb_true_iff in Hpre as [Hc Hp].
    cbn [suffix_get].
    destruct (decide (at_ name i = c)) as [<- | _]; [|exact (IH Hp)].
    cbn in Hc. rewrite String.eqb_refl in Hc. discriminate Hc. }
  rewrite Hn. apply suffix_get_loop_in, Hi.
Qed.

Lemma log_positive :
  Qlt_bool 0 q = true →
  forallb (λ cq, Qlt_bool 0 cq.2) (pre ++ s) = true →
  Forall (λ cq, 0 < cq.2)
    (pre ++ foldl (λ log i, (at_ name i, q) :: log) s l).
Proof.
  intros Hq Hall. rewrite forallb_app in Hall.
  apply andb_true_iff in Hall as [Hpre Hs].
  apply Forall_app. split.
  - apply Forall_forall. intros cq Hin.
    apply Qlt_bool_spec.
    rewrite forallb_forall in Hpre. apply Hpre.
    apply list_elem_of_In, Hin.
  - clear Hpre. revert s Hs. induction l as [|i m IH]; intros t Ht;
      cbn [foldl].
    + apply Forall_forall. intros cq Hin. apply Qlt_bool_spec.
      rewrite forallb_forall in Ht. apply Ht, list_elem_of_In, Hin.
    + apply IH. cbn [forallb snd]. rewrite Hq. exact Ht.
Qed.

End log.


(** The entries of a log before the loop over the component list. *)
Ltac log_prefix t :=
  lazymatch t with
  | ?x :: ?r => let p := log_prefix r in constr:(x :: p)
  | foldl _ _ _ => constr:(@nil (CompId * Q))
  end.

(** Write the computed log [H : log = scaling_factor b] as a prefix
    followed by the loop. *)
Ltac split_log H :=
  lazymatch type of H with
  | ?L = ?r =>
    let pre := log_prefix L in
    lazymatch L with
    | context [foldl _ ?s ?l] =>
      let E := fresh "E" in
      assert (E : r = pre ++ foldl (λ log i,
                                      (at_ "flow_mol_comp" i, 1e-3) :: log)
                               s l)
        by (symmetry; exact H);
      clear H; rename E into H
    end
  end.

(** Replace the left-hand side of the equation [H] by its value, leaving
    the loop over the component list as it is. *)
Ltac computed_log H :=
  lazymatch type of H with
  | ?l = ?r =>
    let l' := eval cbv -[foldl] in l in
    let E := fresh "E" in
    assert (E : l = l') by (vm_compute; reflexivity);
    rewrite E in H; clear E
  end.

(** X20.  Every scaling factor a block is built with is strictly
    positive.  The five state attributes carry the same factors in both
    modes, whether they are variables or expressions; every component
    flow is scaled by 1e-3 and both phase fractions by 10; the reduced
    densities carry a scaling factor only in PH mode. *)
Theorem scaling_factors_built :
  ∀ (sv : StateVars) (pp : PhaseType) (ds : bool)
    (a : HelmholtzParameterBlockData.parameters) (isfile : string → bool),
  ∃ b : HelmholtzStateBlockData.t,
    state_block sv pp ds a isfile = Ok b
    ∧ let factor := suffix_get (HelmholtzStateBlockData.scaling_factor b) in
      Forall (λ cq, 0 < cq.2) (HelmholtzStateBlockData.scaling_factor b)
      ∧ factor (the "flow_mol") = Some 1e-3
      ∧ factor (the "pressure") = Some 1e-6
      ∧ factor (the "temperature") = Some 1e-1
      ∧ factor (the "vapor_frac") = Some 1e1
      ∧ factor (the "enth_mol") = Some 1e-3
      ∧ (∀ i, i ∈ HelmholtzParameterBlockData.a_component_list a →
              factor (at_ "flow_mol_comp" i) = Some 1e-3)
      ∧ (∀ p, p ∈ ["Vap"; "Liq"]%string →
              factor (at_ "phase_frac" p) = Some 10
              ∧ factor (at_ "dens_phase_red" p)
                = match sv with PH => Some 1 | TPX => None end).
Proof.
  intros sv pp ds a isfile.
  destruct (state_block_total sv pp ds a isfile) as [b Hb].
  assert (Hc :
    match state_block sv pp ds a isfile with
    | Ok b => Some (HelmholtzStateBlockData.scaling_factor b)
    | Raise _ => None
    end
    = Some (HelmholtzStateBlockData.scaling_factor b)).
  { rewrite Hb. reflexivity. }
  exists b. split; [exact Hb|]. clear Hb. intros factor. subst factor.
  destruct sv, pp, ds; computed_log Hc; apply (inj Some) in Hc;
    split_log Hc; rewrite Hc; clear Hc.
  all: split; [apply log_positive; vm_compute; reflexivity|].
  all: do 5 (split; [etransitivity;
                     [apply log_get; reflexivity
                     |vm_compute; reflexivity]|]).
  all: split;
    [intros i Hi; apply log_get_member; [vm_compute; reflexivity|exact Hi]|].
  all: intros p Hp;
    apply elem_of_cons in Hp as [-> | Hp];
    [|apply elem_of_cons in Hp as [-> | Hp];
      [|apply elem_of_nil in Hp; destruct Hp]].
  all: split; (etransitivity; [apply log_get; reflexivity
                              |vm_compute; reflexivity]).
Qed.

(** ** The state block: the expressions and their variables *)

(** An expression whose variables all have values evaluates to a number
    or fails on a division by zero, and on nothing else. *)
Lemma scoped_evaluate k sm pb vars (owned : VarName → bool) (e : expr) :
  (∀ n, owned n = true → is_Some (vars n)) →
  scoped owned e = true →
  (∃ q, evaluate k sm pb vars e = Ok q)
  ∨ evaluate k sm pb vars e = Raise ZeroDivisionError.
Proof.
  intros Hv.
  induction e as [q|v|p|x IHx y IHy|x IHx y IHy|x IHx y IHy|x IHx y IHy
                 |f x IHx|f x IHx y IHy|x IHx y IHy z IHz];
    cbn [scoped evaluate]; intros Hs.
  - left. eexists. reflexivity.
  - destruct (Hv v Hs) as [q Hq]. rewrite Hq. left. eexists. reflexivity.
  - left. eexists. reflexivity.
  - apply andb_true_iff in Hs as [Hx Hy].
    destruct (IHx Hx) as [[qx ->] | ->]; [|right; reflexivity].
    destruct (IHy Hy) as [[qy ->] | ->]; [|right; reflexivity].
    left. eexists. reflexivity.
  - apply andb_true_iff in Hs as [Hx Hy].
    destruct (IHx Hx) as [[qx ->] | ->]; [|right; reflexivity].
    destruct (IHy Hy) as [[qy ->] | ->]; [|right; reflexivity].
    left. eexists. reflexivity.
  - apply andb_true_iff in Hs as [Hx Hy].
    destruct (IHx Hx) as [[qx ->] | ->]; [|right; reflexivity].
    destruct (IHy Hy) as [[qy ->] | ->]; [|right; reflexivity].
    left. eexists. reflexivity.
  - apply andb_true_iff in Hs as [Hx Hy].
    destruct (IHx Hx) as [[qx ->] | ->]; [|right; reflexivity].
    destruct (IHy Hy) as [[qy ->] | ->]; [|right; reflexivity].
    rewrite !bind_Ok. unfold pydiv.
    destruct (Qeq_bool qy 0); [right | left; eexists]; reflexivity.
  - destruct (IHx Hs) as [[qx ->] | ->]; [|right; reflexivity].
    left. eexists. reflexivity.
  - apply andb_true_iff in Hs as [Hx Hy].
    destruct (IHx Hx) as [[qx ->] | ->]; [|right; reflexivity].
    destruct (IHy Hy) as [[qy ->] | ->]; [|right; reflexivity].
    left. eexists. reflexivity.
  - apply andb_true_iff in Hs as [Hxy Hz].
    apply andb_true_iff in Hxy as [Hx Hy].
    destruct (IHx Hx) as [[qx ->] | ->]; [|right; reflexivity].
    destruct (IHy Hy) as [[qy ->] | ->]; [|right; reflexivity].
    destruct (IHz Hz) as [[qz ->] | ->]; [|right; reflexivity].
    left. eexists. reflexivity.
Qed.

Lemma scoped_free_vars (owned : VarName → bool) (e : expr) :
  scoped owned e = true → ∀ n, n ∈ free_vars e → owned n = true.
Proof.
  induction e as [q|v|p|x IHx y IHy|x IHx y IHy|x IHx y IHy|x IHx y IHy
                 |f x IHx|f x IHx y IHy|x IHx y IHy z IHz];
    cbn [scoped free_vars]; intros Hs n Hn.
  - inversion Hn.
  - apply list_elem_of_singleton in Hn as ->. exact Hs.
  - inversion Hn.
  - apply andb_true_iff in Hs as [Hx Hy].
    apply elem_of_app in Hn as [Hn|Hn]; [exact (IHx Hx n Hn)|].
    exact (IHy Hy n Hn).
  - apply andb_true_iff in Hs as [Hx Hy].
    apply elem_of_app in Hn as [Hn|Hn]; [exact (IHx Hx n Hn)|].
    exact (IHy Hy n Hn).
  - apply andb_true_iff in Hs as [Hx Hy].
    apply elem_of_app in Hn as [Hn|Hn]; [exact (IHx Hx n Hn)|].
    exact (IHy Hy n Hn).
  - apply andb_true_iff in Hs as [Hx Hy].
    apply elem_of_app in Hn as [Hn|Hn]; [exact (IHx Hx n Hn)|].
    exact (IHy Hy n Hn).
  - exact (IHx Hs n Hn).
  - apply andb_true_iff in Hs as [Hx Hy].
    apply elem_of_app in Hn as [Hn|Hn]; [exact (IHx Hx n Hn)|].
    exact (IHy Hy n Hn).
  - apply andb_true_iff in Hs as [Hxy Hz].
    apply andb_true_iff in Hxy as [Hx Hy].
    apply elem_of_app in Hn as [Hn|Hn]; [exact (IHx Hx n Hn)|].
    apply elem_of_app in Hn as [Hn|Hn]; [exact (IHy Hy n Hn)|].
    exact (IHz Hz n Hn).
Qed.

(** An expression without [smooth_max] has the same value under every
    meaning of [smooth_max]. *)
Lemma unsmoothed_evaluate k sm sm' pb vars (e : expr) :
  smoothed e = false →
  evaluate k sm pb vars e = evaluate k sm' pb vars e.
Proof.
  induction e as [q|v|p|x IHx y IHy|x IHx y IHy|x IHx y IHy|x IHx y IHy
                 |f x IHx|f x IHx y IHy|x IHx y IHy z IHz];
    cbn [smoothed evaluate]; intros Hs;
    try reflexivity; try discriminate Hs;
    try (apply orb_false_iff in Hs as [Hx Hy];
         rewrite (IHx Hx), (IHy Hy); reflexivity).
  rewrite (IHx Hs). reflexivity.
Qed.

(** The per-component flows are the total flow. *)
Lemma flow_mol_comp_built sv pp ds a isfile b :
  state_block sv pp ds a isfile = Ok b →
  HelmholtzStateBlockData.flow_mol_comp b
  = map (λ i, (i, EVar Vflow_mol))
      (HelmholtzParameterBlockData.a_component_list a).
Proof.
  intros Hb.
  assert (Hc :
    match state_block sv pp ds a isfile with
    | Ok b => Some (HelmholtzStateBlockData.flow_mol_comp b)
    | Raise _ => None
    end
    = Some (map (λ i, (i, EVar Vflow_mol))
              (HelmholtzParameterBlockData.a_component_list a))).
  { destruct sv, pp, ds; vm_compute; reflexivity. }
  rewrite Hb in Hc. apply (inj Some) in Hc. exact Hc.
Qed.

Lemma flow_mol_comp_members sv pp ds a isfile b e :
  state_block sv pp ds a isfile = Ok b →
  e ∈ (HelmholtzStateBlockData.flow_mol_comp b).*2 →
  e = EVar Vflow_mol.
Proof.
  intros Hb. rewrite (flow_mol_comp_built _ _ _ _ _ _ Hb).
  induction (HelmholtzParameterBlockData.a_component_list a) as [|i l IH];
    cbn [map fmap list_fmap snd]; intros He.
  - inversion He.
  - apply elem_of_cons in He as [-> | He]; [reflexivity | exact (IH He)].
Qed.

(** Every expression of a built block passes a check [ok]. *)
Lemma all_expressions_check (ok : HelmholtzStateBlockData.t → expr → bool)
    sv pp ds a isfile b :
  state_block sv pp ds a isfile = Ok b →
  match state_block sv pp ds a isfile with
  | Ok b => forallb (ok b) (own_expressions b) && ok b (EVar Vflow_mol)
  | Raise _ => false
  end = true →
  ∀ e, e ∈ all_expressions b → ok b e = true.
Proof.
  intros Hb Hc e He. rewrite Hb in Hc.
  apply andb_true_iff in Hc as [Hown Hflow].
  apply elem_of_app in He as [He|He].
  - rewrite forallb_forall in Hown. apply Hown, list_elem_of_In, He.
  - rewrite (flow_mol_comp_members _ _ _ _ _ _ _ Hb He). exact Hflow.
Qed.

(** X21.  Every expression of a built block (the named expressions, the
    members of the indexed ones, the two sides of the constraints and the
    scaling expressions) mentions only state attributes that are
    variables of the block.  So, once the variables of the block have
    values, evaluating any of them gives a number or fails on a division
    by zero, and never on a missing value. *)
Theorem expressions_well_scoped :
  ∀ (sv : StateVars) (pp : PhaseType) (ds : bool)
    (a : HelmholtzParameterBlockData.parameters) (isfile : string → bool),
  let pb :=
    HelmholtzParameterBlockData.build
      {| HelmholtzParameterBlockData.config_phase_presentation := pp;
         HelmholtzParameterBlockData.config_state_vars := sv |} a isfile in
  ∃ b : HelmholtzStateBlockData.t,
    state_block sv pp ds a isfile = Ok b
    ∧ ∀ e, e ∈ all_expressions b →
        (∀ n, n ∈ free_vars e → owns b n = true)
        ∧ ∀ (k : Kernel) (smooth_max : Q → Q → Q → Q)
            (vars : VarName → option Q),
            (∀ n, owns b n = true → is_Some (vars n)) →
            (∃ q, evaluate k smooth_max pb vars e = Ok q)
            ∨ evaluate k smooth_max pb vars e = Raise ZeroDivisionError.
Proof.
  intros sv pp ds a isfile pb.
  destruct (state_block_total sv pp ds a isfile) as [b Hb].
  exists b. split; [exact Hb|]. clearbody pb. intros e He.
  assert (Hs : scoped (owns b) e = true).
  { revert e He.
    apply (all_expressions_check (λ b, scoped (owns b)) _ _ _ _ _ _ Hb).
    clear Hb. destruct sv, pp, ds; vm_compute; reflexivity. }
  split.
  - exact (scoped_free_vars _ _ Hs).
  - intros k sm vars Hv. exact (scoped_evaluate k sm pb vars _ e Hv Hs).
Qed.

(** X22.  No expression of a PH block contains [smooth_max]: the value
    of each is the same whatever [smooth_max] means.  A TPX block uses it
    in both shifted pressure terms and, through them, in both phase mass
    densities. *)
Theorem smoothing_only_in_TPX :
  ∀ (pp : PhaseType) (ds : bool)
    (a : HelmholtzParameterBlockData.parameters) (isfile : string → bool),
  (∃ b : HelmholtzStateBlockData.t,
     state_block PH pp ds a isfile = Ok b
     ∧ ∀ e, e ∈ all_expressions b →
         smoothed e = false
         ∧ ∀ (k : Kernel) (sm sm' : Q → Q → Q → Q)
             (pb : HelmholtzParameterBlockData.t)
             (vars : VarName → option Q),
             evaluate k sm pb vars e = evaluate k sm' pb vars e)
  ∧ (∃ (b : HelmholtzStateBlockData.t) (Pu Po : expr),
       state_block TPX pp ds a isfile = Ok b
       ∧ HelmholtzStateBlockData.P_under_sat b = Some Pu
       ∧ HelmholtzStateBlockData.P_over_sat b = Some Po
       ∧ smoothed Pu = true ∧ smoothed Po = true
       ∧ Forall (λ pe, smoothed pe.2 = true)
           (HelmholtzStateBlockData.dens_mass_phase b)).
Proof.
  intros pp ds a isfile. split.
  - destruct (state_block_total PH pp ds a isfile) as [b Hb].
    exists b. split; [exact Hb|]. intros e He.
    assert (Hs : smoothed e = false).
    { apply negb_true_iff. revert e He.
      apply (all_expressions_check (λ _ e, negb (smoothed e))
               _ _ _ _ _ _ Hb).
      clear Hb. destruct pp, ds; vm_compute; reflexivity. }
    split; [exact Hs|].
    intros k sm sm' pb vars. exact (unsmoothed_evaluate k sm sm' pb vars e Hs).
  - destruct (state_block_total TPX pp ds a isfile) as [b Hb].
    assert (Hc :
      match state_block TPX pp ds a isfile with
      | Ok b =>
        match HelmholtzStateBlockData.P_under_sat b,
              HelmholtzStateBlockData.P_over_sat b with
        | Some Pu, Some Po =>
          smoothed Pu && smoothed Po
          && forallb (λ pe, smoothed pe.2)
               (HelmholtzStateBlockData.dens_mass_phase b)
        | _, _ => false
        end
      | Raise _ => false
      end = true).
    { clear Hb. destruct pp, ds; vm_compute; reflexivity. }
    rewrite Hb in Hc.
    destruct (HelmholtzStateBlockData.P_under_sat b) as [Pu|] eqn:HPu;
      [|discriminate Hc].
    destruct (HelmholtzStateBlockData.P_over_sat b) as [Po|] eqn:HPo;
      [|discriminate Hc].
    apply andb_true_iff in Hc as [Hc Hd].
    apply andb_true_iff in Hc as [Hsu Hso].
    exists b, Pu, Po. split; [exact Hb|].
    split; [exact HPu|]. split; [exact HPo|].
    split; [exact Hsu|]. split; [exact Hso|].
    apply Forall_forall. intros pe Hin.
    rewrite forallb_forall in Hd. apply Hd, list_elem_of_In, Hin.
Qed.

(** ** The state block: temperature in PH mode *)

(** X23.  In PH mode the temperature is the critical temperature over
    the kernel's [func_tau] at the mass enthalpy (in kJ/kg) and the
    pressure (in kPa), and the inverse reduced temperature computed from
    it is that [func_tau] value again; the reduced temperature is its
    reciprocal.  This needs a nonzero molecular weight, critical
    temperature and [func_tau] value; with a zero molecular weight or a
    zero [func_tau] value the temperature fails on a division by zero. *)
Theorem PH_temperature_round_trip :
  ∀ (pp : PhaseType) (ds : bool)
    (a : HelmholtzParameterBlockData.parameters) (isfile : string → bool),
  let pb :=
    HelmholtzParameterBlockData.build
      {| HelmholtzParameterBlockData.config_phase_presentation := pp;
         HelmholtzParameterBlockData.config_state_vars := PH |} a isfile in
  ∃ (b : HelmholtzStateBlockData.t) (eT : expr),
    state_block PH pp ds a isfile = Ok b
    ∧ HelmholtzStateBlockData.temperature b = CExpr eT
    ∧ ∀ (k : Kernel) (smooth_max : Q → Q → Q → Q)
        (vars : VarName → option Q) (h p : Q),
        let value_of := evaluate k smooth_max pb vars in
        let mw := HelmholtzParameterBlockData.mw pb in
        let Tc := HelmholtzParameterBlockData.temperature_crit pb in
        let ft := call2 k func_tau (h / mw / 1000) (p / 1000) in
        vars Venth_mol = Some h →
        vars Vpressure = Some p →
        (¬ mw == 0 → ¬ ft == 0 → ¬ Tc == 0 →
         ∃ t r, value_of eT = Ok (Tc / ft)
                ∧ value_of (HelmholtzStateBlockData.tau b) = Ok t
                ∧ t == ft
                ∧ value_of (HelmholtzStateBlockData.temperature_red b) = Ok r
                ∧ r * t == 1)
        ∧ (mw == 0 → value_of eT = Raise ZeroDivisionError)
        ∧ (¬ mw == 0 → ft == 0 → value_of eT = Raise ZeroDivisionError).
Proof.
  intros pp ds a isfile pb.
  destruct (state_block_total PH pp ds a isfile) as [b Hb].
  assert (Hc :
    match state_block PH pp ds a isfile with
    | Ok b => Some (HelmholtzStateBlockData.temperature b,
                    HelmholtzStateBlockData.tau b,
                    HelmholtzStateBlockData.temperature_red b)
    | Raise _ => None
    end
    = Some (HelmholtzStateBlockData.temperature b,
            HelmholtzStateBlockData.tau b,
            HelmholtzStateBlockData.temperature_red b)).
  { rewrite Hb. reflexivity. }
  exists b. clearbody pb.
  destruct pp, ds; computed_lhs Hc; injection Hc as <- <- <-.
  all: eexists; split; [exact Hb|]; split; [reflexivity|].
  all: intros k sm vars h p value_of mw Tc ft Hh Hp;
    subst value_of mw Tc ft; split; [|split].
  all: try (intros Hmw; eval_expr; cbn [param_value];
            rewrite (pydiv_zero _ _ Hmw); reflexivity).
  all: try (intros Hmw Hft; eval_expr; cbn [param_value];
            exact (pydiv_zero _ _ Hft)).
  all: intros Hmw Hft HTc.
  all: match type of Hft with
       | ¬ ?ft == 0 =>
         match type of HTc with
         | ¬ ?Tc == 0 =>
           assert (HT : ¬ Tc / ft == 0)
             by (intros H; apply HTc;
                 rewrite <- (Qmult_div_r Tc ft Hft), H; ring)
         end
       end.
  all: eexists _, _; eval_expr; cbn [param_value]; eval_expr.
  all: repeat split; try reflexivity; field; auto.
Qed.
